(* ===== verification/_CoqProject ===== *)
-Q . S2P
Prelude.v
Js.v
Booking.v
Store.v
Router.v
Lifecycle.v
Progress.v
Bounds.v
Auth.v
Services.v
Payments.v
App.v
Dashboard.v
Views.v
BookingFlow.v
Checkout.v
Users.v
Maids.v
Session.v
