(* ===== verification/Prelude.v ===== *)
(** * Verification of the maid-service booking platform

    The repository ([src/maid-service-platform-complete]) is an Express
    back end with a React front end.  Customers book cleaning services with
    maids.  The back end keeps bookings in an in-memory array
    ([backend/routes/bookings.js]).  Five route handlers share it, behind
    the JWT middleware ([backend/middleware/auth.js]).  A maid moves a
    booking through a small state machine.  Users live in a MongoDB
    collection ([models/User.js], [controllers/authController.js]).  The
    front end reads the bookings, offers the actions, and creates a booking
    after a Razorpay payment ([routes/payments.js]).  [server.js] mounts the
    five routers behind two body parsers and ends with [notFound] and
    [errorHandler].

    ** Files, in dependency order, and what they model

    - [Prelude] (this file): the [maid_scope] notations, the [result] error
      type of a handler ([Err code msg] is [return res.status(code).json
      ({ success: false, message: msg })]) with its bind notation
      [x <- r ;; k] and guard notation [ensure b else c, m ;; k], the
      [maid] hint databases, the tactics [case_if], [invc] and
      [decide_prop], and list lemmas the components share.
    - [Js]: JavaScript values from a JSON body or a route parameter
      ([jsval], objects and arrays included): truthiness, [===],
      [Number(x)], [String(x)] (an array is [join(',')]) and
      [parseInt(s, 10)] on integers.  [parseInt10] and [number_to_string] round
      trip, so an id the front end prints is the id the back end parses.
    - [Booking]: the booking record of [routes/bookings.js], its [status]
      vocabulary, the [role] enum, the transition table
      [allowedTransitions] and the authorisation step [authorize] of
      [PUT /:id/status].  [Module Spec] is the spec's decision function, and
      [authorize] refines it (C7, C10).
    - [Store]: the store [{bookings; nextBookingId}] and the five handlers
      [createBooking], [listBookings], [getBooking], [updateStatus] and
      [getStats].  Each is a function from store, caller and request to an
      [outcome]; [run] turns it into the response and the new store.  Their
      functional behaviour on every branch is C1 and C11 to C15.
    - [Router]: Express first-match routing of the bookings router, the
      [auth] result in front of every handler, and the body fields.
      [GET /stats] is declared after [GET /:id] and is never reached (C6).
      The first-match search is equivalent to a direct decision on the
      path's shape, [Ref.route] (C16).  Every answer's [success] flag
      agrees with its status code (C23).
    - [Lifecycle]: any request is a step of the store ([step]).
      Reachability is [rtc step initial_db].  By rule induction: the
      booking history invariant (C4), stable terminal states (C3), only the
      parties change a booking (C2), ids [1..n] in order (C5).  Two racing
      updates never both succeed (C8), and a booking changes status at most
      three times over any request sequence (C9).  Invariants of
      [rtc step] are proved with [rtc_invariant] of this file.
    - [Progress]: the converse, a liveness property.  In every reachable
      store every booking can be finished by at most two status requests
      of its own parties (C17).  It needs a second invariant: a booking
      that left [pending] other than by cancellation names its maid by a
      string id.
    - [Bounds]: every request adds at most one booking, so after [n]
      requests the ids lie in [1..n] and the counter is at most [n + 1]:
      below 2^53 - 1 requests every id is a safe integer (C22).
    - [Auth]: the bearer header, the middleware [auth] and [login].  The
      libraries are the interfaces [JwtScheme] (a token verifies for seven
      days after it is signed) and [PasswordScheme] (bcrypt compare accepts
      exactly the hashed password, and only hashes), with demo instances
      showing they can be met.  Tokens from login are accepted and expire
      (C19, C20).  Login accepts exactly the passwords with the hashed
      one's bcrypt key, its first 72 bytes (C21).
    - [Services]: the catalogue and [GET /:id] with [parseInt] without a
      radix.
    - [Payments]: create-order, verify and webhook over an [HmacScheme]
      interface, with the SDK call and [JSON.parse] as section variables
      (C24, C25).  Verify answers on every branch as the code does: 400
      for missing fields or a bad signature, 500 with the secret unset
      (C26).  An amount that is a word passes the amount check and is
      sent to the SDK as [NaN] paise (C28).
    - [App]: the layers of [server.js] in order: the rate limiter's
      verdict, the body parsers (an object or an array, or a parse error
      for [errorHandler]), the mounts, [/health], [notFound].  The
      webhook succeeds through the app only for a JSON array body signed
      over its [join(',')] text, never for a real Razorpay event (C27).
      A request under [/api/bookings] that passes the limiter and the
      parsers reaches the bookings router exactly when a route matches;
      one the limiter or a parser stops gets an error (C29).
    - [Dashboard]: the maid dashboard's lists and buttons, and [loadStats]
      of both dashboards, run against the [Router] model (C30).  The maid's
      page is a state machine ([maid_page], [press], [maid_session]): after
      any sequence of her presses its lists are the partition of her
      bookings in the current store and its summary stays at zero (C31).
    - [Views]: what [BookingHistory.js] and the maid dashboard's cards
      render, with React's rule for text ([render_text]: an array
      renders its elements, an object throws), and the buttons of [Home.js] and the cards of
      [CustomerDashboard.js].  A customer can store a booking that makes
      the maid's dashboard and the customer's history fail to render
      (C32).
    - [BookingFlow]: the booking form, the payment page's requests and the
      booking the back end creates from them (C33).
    - [Checkout]: the payment button of [RazorpayPayment.js] run against
      [createOrder] and [verifyPayment], with the script load and the
      widget as section variables.  A genuine signature reaches
      [onSuccess] with the order's ids, and only signed responses do
      (C18).  [PaymentPage.js] then creates the booking, which the
      history lists ([checkout_end_to_end]).
    - [Users]: [register], [getProfile], [updateProfile] and [logout] over
      a users collection.  A registered user can log in (C35), the
      collection stays well formed (C36), a password changed through the
      profile locks the user out (C37), and anyone can become an admin,
      by registering or by updating the profile (C38).  [register] checks
      the schema's email [match] on save ([email_match]).
    - [Maids]: [GET /api/users/maids] over the documents seen through
      [isActive] and [profile.rating.average], with the sort as Stdlib's
      merge sort: exactly the active maids, without the password, in
      non-increasing rating (C34).  The booking page's maid select is
      filled from it and preselects the best-rated maid.
    - [Session]: the client side of authentication.  [AuthContext.js]
      keeps the token in the React state, in [localStorage] and in axios's
      [Authorization] header; the [session] record holds the three, and
      [on_token_change], [mount] and [handle] are its two effects, its
      mount and its four handlers, with the back end's answers as section
      variables; [if (token)] is truthiness, so an empty stored token
      sends no header.  The copies stay in step after any sequence of events
      (C39).  Against the real profile route ([auth] then [getProfile])
      reopening the app restores the session for seven days and clears it
      afterwards (C40).  The route table of [App.js], the links of
      [Header.js] (with its logout) and the forms of [Register.js] and
      [Profile.js] are modelled by what they send and where they lead.

    ** Bounds and fuel

    Integers are [Z]: the handlers' numbers are JavaScript doubles used as
    integers (ids, amounts, counts).  For the ids, C22 proves that they
    stay below the number of requests served, so inside the 2^53 range
    where doubles are exact; amounts are the client's and are taken as
    integers of that range.  Ratings are rationals [Q].  [decimal_digits] takes
    [Z.to_nat n] as fuel.  That is enough because each step divides [n] by
    10 (lemma [decimal_digits_spec]).  Every other function is structural.
    The three-step bound of C9 is the rank of the status graph.

    ** Not modelled

    Mongoose queries other than the lookups above, bcrypt's cipher, JWT
    signing, Razorpay, crypto and the body parsers' own parsing are
    libraries.  They appear as interfaces or section variables; the rate
    limiter is its verdict.  helmet and cors (which only set headers),
    database failures (the handlers' [catch] blocks), the MongoDB
    connection, the markup and styling of the pages,
    and [Footer.js] (static text) are not modelled.  [App.js] imports [Login], [Layout] and [ProtectedRoute],
    which are not in the repository: the role each protected route asks
    for is recorded ([Session.app_routes]) but the guard is not modelled.
    React's scheduling is taken as: a handler's state updates apply
    together, then the effects on [[token]] run once, in file order.
    [Number] of a non-integer or exponent literal gives [NaN] in the
    model (documented in [Js]), so no claim rests on such a string.
    Route paths are taken without percent escapes (see [Router]).  *)

From stdpp Require Export base list strings decidable relations.
From Stdlib Require Export ZArith Lia Ascii.
From Stdlib Require Import Sorting.Sorted.

Declare Scope maid_scope.
Delimit Scope maid_scope with maid.
Open Scope Z_scope.

(** ** The error type of a handler

    A handler returns early with an HTTP status and a message, or it goes
    on with a value.  [Err code msg] is the early [return res.status(code)
    .json({ success: false, message: msg })]. *)

Inductive result (A : Type) : Type :=
| Ok (a : A)
| Err (code : Z) (msg : string).
Arguments Ok {A} a.
Arguments Err {A} code msg.

Definition rbind {A B : Type} (r : result A) (k : A -> result B) : result B :=
  match r with
  | Ok a => k a
  | Err c m => Err c m
  end.

Notation "x <- r ;; k" := (rbind r (fun x => k))
  (at level 60, r at next level, right associativity) : maid_scope.
Notation "'ensure' b 'else' c , m ;; k" := (if b then k else Err c m)
  (at level 60, b at next level, c at next level, m at next level,
   right associativity) : maid_scope.

Definition is_ok {A : Type} (r : result A) : bool :=
  match r with Ok _ => true | Err _ _ => false end.

(** ** Tactics and hints *)

Create HintDb maid discriminated.
Create Rewrite HintDb maid_rw.

(** Case analysis on the first [if] of the goal, keeping its equation. *)
Ltac case_if :=
  match goal with
  | |- context [if ?b then _ else _] =>
      let E := fresh "E" in destruct b eqn:E
  end.

Ltac invc H := inversion H; subst; clear H.

(** Close a goal that evaluates to a contradiction between constructors. *)
Ltac solve_by_eval := vm_compute; first [reflexivity | discriminate | congruence].

(** Prove a decidable proposition about concrete data by evaluation. *)
Ltac decide_prop := apply (bool_decide_unpack _); vm_compute; exact I.

(** ** Shared lemmas on results and lists *)

Lemma rbind_ok {A B : Type} (r : result A) (k : A -> result B) (b : B) :
  rbind r k = Ok b -> exists a, r = Ok a /\ k a = Ok b.
Proof. destruct r; simpl; [eauto | discriminate]. Qed.

Lemma rbind_err {A B : Type} (r : result A) (k : A -> result B) c m :
  r = Err c m -> rbind r k = Err c m.
Proof. intros ->. reflexivity. Qed.

Lemma filter_length_le {A : Type} (f : A -> bool) (l : list A) :
  (length (List.filter f l) <= length l)%nat.
Proof. induction l as [|x l IH]; simpl; [lia|]. destruct (f x); simpl; lia. Qed.

Lemma filter_ext_in {A : Type} (f g : A -> bool) (l : list A) :
  (forall x, In x l -> f x = g x) -> List.filter f l = List.filter g l.
Proof. apply List.filter_ext_in. Qed.

(** Counting the elements that pass two exclusive tests. *)
Lemma filter_length_disjoint {A : Type} (f g : A -> bool) (l : list A) :
  (forall x, f x = true -> g x = false) ->
  (length (List.filter f l) + length (List.filter g l) <= length l)%nat.
Proof.
  intros Hfg. induction l as [|x l IH]; simpl; [lia|].
  destruct (f x) eqn:Ef; [rewrite (Hfg x Ef)|destruct (g x)]; simpl; lia.
Qed.

(** A replacement at an index keeps every other element and the length. *)
Lemma lookup_insert_cases {A : Type} (l : list A) (i j : nat) (x y : A) :
  <[i:=x]> l !! j = Some y -> (i = j /\ y = x /\ (j < length l)%nat) \/ (i <> j /\ l !! j = Some y).
Proof.
  intros H. destruct (decide (i = j)) as [->|Hne].
  - left. destruct (decide (j < length l)%nat) as [Hlt|Hge].
    + rewrite list_lookup_insert_eq in H by lia. split; [done|]. split; [congruence|done].
    + rewrite list_insert_ge in H by lia. apply lookup_lt_Some in H. lia.
  - right. rewrite list_lookup_insert_ne in H by done. done.
Qed.

(** Sortedness carries over a map that preserves the order. *)
Lemma sorted_map {A B : Type} (f : A -> B) (R : A -> A -> Prop) (R' : B -> B -> Prop) (l : list A) :
  (forall a b, R a b -> R' (f a) (f b)) -> Sorted R l -> Sorted R' (map f l).
Proof.
  intros HR Hs. induction Hs as [|a l Hs IH Hd]; simpl; constructor; [done|].
  destruct Hd; simpl; constructor. auto.
Qed.

(** One failing element fails the whole traversal. *)
Lemma mapM_None_in {A B : Type} (f : A -> option B) (l : list A) (x : A) :
  In x l -> f x = None -> mapM f l = None.
Proof. intros Hin Hx. apply mapM_None_2, List.Exists_exists. eauto. Qed.

#[export] Hint Resolve filter_length_le : maid.
#[export] Hint Rewrite @length_insert @length_app : maid_rw.

Lemma map_insert {A B : Type} (f : A -> B) (l : list A) (i : nat) (x : A) :
  map f (<[i:=x]> l) = <[i:=f x]> (map f l).
Proof. revert i. induction l as [|y l IH]; intros [|i]; simpl; rewrite ?IH; done. Qed.

Lemma lookup_map_Some {A B : Type} (f : A -> B) (l : list A) (i : nat) (x : A) :
  l !! i = Some x -> map f l !! i = Some (f x).
Proof. revert i. induction l as [|y l IH]; intros [|i] H; simpl in *; try congruence. auto. Qed.

Lemma lookup_app_Some_l {A : Type} (l k : list A) (i : nat) (x : A) :
  l !! i = Some x -> (l ++ k) !! i = Some x.
Proof. intros H. rewrite lookup_app_l; [done|]. by eapply lookup_lt_Some. Qed.

Lemma find_app_None {A : Type} (f : A -> bool) (l : list A) (x : A) :
  List.find f l = None -> List.find f (l ++ [x]) = if f x then Some x else None.
Proof. induction l as [|y l IH]; simpl; [done|]. destruct (f y); [discriminate|done]. Qed.

(** Replacing the one element with a given key by [b] keeps the images
    under [g] distinct, when [b] is the image of no other element. *)
Lemma NoDup_map_replace {A B C : Type} (k : A -> C) (g : A -> B) (p : A -> bool) (c : C) (b : B) (l : list A) :
  (forall x, p x = true <-> k x = c) -> NoDup (map k l) -> NoDup (map g l) ->
  (forall x, In x l -> p x = false -> g x <> b) ->
  NoDup (map (fun x => if p x then b else g x) l).
Proof.
  intros Hp. induction l as [|x l IH]; intros Hk Hg Hb; simpl; [constructor|].
  simpl in Hk, Hg. inversion Hk as [|? ? Hkx Hk']; inversion Hg as [|? ? Hgx Hg']; subst.
  assert (IH' : NoDup (map (fun x => if p x then b else g x) l)) by (apply IH; auto; intros; apply Hb; simpl; auto).
  constructor; [|done].
  rewrite list_elem_of_In, in_map_iff. intros (y & Hy & Hin).
  destruct (p x) eqn:Ex.
  - assert (Ey : p y = false).
    { destruct (p y) eqn:Ey; [|done]. exfalso. apply Hkx, list_elem_of_In, in_map_iff.
      exists y. split; [|done]. apply Hp in Ex, Ey. congruence. }
    rewrite Ey in Hy. by apply (Hb y); [right| |].
  - destruct (p y).
    + apply (Hb x); [left| |]; auto.
    + apply Hgx, list_elem_of_In, in_map_iff. eauto.
Qed.

Lemma existsb_false_In {A : Type} (f : A -> bool) (l : list A) (x : A) :
  existsb f l = false -> In x l -> f x = false.
Proof.
  intros H Hx. destruct (f x) eqn:E; [|done].
  rewrite <- H. symmetry. apply existsb_exists. eauto.
Qed.

Lemma find_None_intro {A : Type} (f : A -> bool) (l : list A) :
  (forall x, In x l -> f x = false) -> List.find f l = None.
Proof. induction l as [|y l IH]; intros H; simpl; [done|]. rewrite H by (left; done). auto with datatypes. Qed.

Lemma NoDup_map_In_inj {A B : Type} (f : A -> B) (l : list A) (x y : A) :
  NoDup (map f l) -> In x l -> In y l -> f x = f y -> x = y.
Proof.
  induction l as [|z l IH]; intros Hnd Hx Hy E; [done|]. simpl in Hnd.
  inversion Hnd as [|? ? Hz Hnd']; subst.
  destruct Hx as [<-|Hx], Hy as [<-|Hy]; auto;
    exfalso; apply Hz, list_elem_of_In, in_map_iff; eauto.
Qed.

(** An invariant of a relation holds along its reflexive-transitive
    closure. *)
Lemma rtc_invariant {A : Type} (R : relation A) (P : A -> Prop) :
  (forall x y, P x -> R x y -> P y) -> forall x y, rtc R x y -> P x -> P y.
Proof. intros Hstep x y Hr. induction Hr as [x|x y z Hxy Hyz IH]; [done|]. eauto. Qed.
