(* ===== verification/Js.v ===== *)
(** * Js: the JavaScript values the handlers inspect

    A request body parsed by [express.json()] and a route parameter reach
    the handlers as JavaScript values.  The handlers test them with [!x],
    [x || d], [===], [Number(x)] and [parseInt(s, 10)].  This file models
    those values and operations.

    Numbers are the integers of [Z] with [NaN] beside them.  The amounts and
    ids that the code handles are integers.  [Number(s)] is modelled on
    strings that are blank or that hold a signed decimal integer.  A string
    with a fraction, an exponent, a hex prefix or [Infinity] is outside the
    integer domain.  The model maps it to [NaN], so a claim about such an
    input says nothing about the code.  An object of a JSON body is
    [JObject]: truthy, not a number, and strictly equal to nothing else
    that the handlers compare it with.  An array is [JArray] with its
    elements: truthy, a fresh reference, and converted by [String] and
    [Number] through [join(',')], so [Number([5])] is 5.  *)

From S2P Require Import Prelude.
Open Scope Z_scope.
Open Scope maid_scope.

Inductive jsnum : Type :=
| NaN
| Num (z : Z).

Inductive jsval : Type :=
| JUndefined
| JNull
| JBool (b : bool)
| JNumber (n : jsnum)
| JString (s : string)
| JObject
| JArray (elems : list jsval).

#[export] Instance jsnum_eq_dec : EqDecision jsnum.
Proof. solve_decision. Defined.

Fixpoint jsval_eq_dec (x y : jsval) : Decision (x = y).
Proof.
  refine (match x, y with
    | JUndefined, JUndefined | JNull, JNull | JObject, JObject => left _
    | JBool a, JBool b => cast_if (decide (a = b))
    | JNumber a, JNumber b => cast_if (decide (a = b))
    | JString a, JString b => cast_if (decide (a = b))
    | JArray a, JArray b => cast_if (@list_eq_dec _ jsval_eq_dec a b)
    | _, _ => right _
    end); congruence.
Defined.
#[export] Existing Instance jsval_eq_dec.

(** Induction on values, with the hypothesis on every element of an array. *)
Lemma jsval_ind' (P : jsval -> Prop) :
  P JUndefined -> P JNull -> (forall b, P (JBool b)) -> (forall n, P (JNumber n)) ->
  (forall s, P (JString s)) -> P JObject -> (forall es, Forall P es -> P (JArray es)) ->
  forall v, P v.
Proof.
  intros HU HN HB HNum HS HO HA. fix IH 1.
  intros [| | | | | |es]; [exact HU|exact HN|apply HB|apply HNum|apply HS|exact HO|].
  apply HA. induction es as [|e es IHes]; constructor; [apply IH|exact IHes].
Qed.

(** ToBoolean: [undefined], [null], [false], [0], [NaN] and [""] are falsy. *)
Definition truthy (v : jsval) : bool :=
  match v with
  | JUndefined | JNull => false
  | JBool b => b
  | JNumber NaN => false
  | JNumber (Num z) => negb (z =? 0)
  | JString s => negb (String.eqb s "")
  | JObject | JArray _ => true
  end.

(** [a === b] on numbers: [NaN] equals nothing, not even itself. *)
Definition num_strict_eq (a b : jsnum) : bool :=
  match a, b with
  | Num x, Num y => x =? y
  | _, _ => false
  end.

(** [a === b]: the same type and the same value; an object is compared
    by reference, and a body object is a fresh reference. *)
Definition strict_eq (a b : jsval) : bool :=
  match a, b with
  | JUndefined, JUndefined | JNull, JNull => true
  | JBool x, JBool y => Bool.eqb x y
  | JNumber x, JNumber y => num_strict_eq x y
  | JString x, JString y => String.eqb x y
  | _, _ => false
  end.

(** ** JSON bodies *)

(** A parsed JSON object as its list of members; [req.body.k] reads the
    member [k].  [JSON.parse] keeps the last of two members with the same
    key. *)
Definition json_obj := list (string * jsval).

Definition field (o : json_obj) (k : string) : jsval :=
  fold_left (fun acc kv => if String.eqb (fst kv) k then snd kv else acc) o JUndefined.

(** ** String scanning shared by [parseInt] and [Number] *)

(** StrWhiteSpaceChar restricted to ASCII: TAB, LF, VT, FF, CR, space. *)
Definition is_js_space (c : Ascii.ascii) : bool :=
  let n := Ascii.nat_of_ascii c in
  (n =? 9)%nat || (n =? 10)%nat || (n =? 11)%nat || (n =? 12)%nat
  || (n =? 13)%nat || (n =? 32)%nat.

Fixpoint trim_start (s : string) : string :=
  match s with
  | String c r => if is_js_space c then trim_start r else s
  | EmptyString => EmptyString
  end.

Fixpoint trim_end (s : string) : string :=
  match s with
  | EmptyString => EmptyString
  | String c r =>
      let r' := trim_end r in
      if is_js_space c && String.eqb r' "" then EmptyString else String c r'
  end.

Definition digit_value (c : Ascii.ascii) : option Z :=
  let n := Ascii.nat_of_ascii c in
  if (48 <=? n)%nat && (n <=? 57)%nat then Some (Z.of_nat n - 48) else None.

(** The longest prefix of decimal digits: its value accumulated onto [acc],
    the number of digits read, and the rest of the string. *)
Fixpoint read_digits (acc : Z) (k : nat) (s : string) : Z * nat * string :=
  match s with
  | String c r =>
      match digit_value c with
      | Some d => read_digits (acc * 10 + d) (S k) r
      | None => (acc, k, s)
      end
  | EmptyString => (acc, k, EmptyString)
  end.

Definition sign_split (s : string) : Z * string :=
  match s with
  | String "-"%char r => (-1, r)
  | String "+"%char r => (1, r)
  | _ => (1, s)
  end.

(** [parseInt(s, 10)]: skip leading white space, take an optional sign and
    the longest run of digits; no digit at all gives [NaN]. *)
Definition parseInt10 (s : string) : jsnum :=
  let '(sg, r) := sign_split (trim_start s) in
  let '(v, k, _) := read_digits 0 0 r in
  if (k =? 0)%nat then NaN else Num (sg * v).

(** StringToNumber on the integer literals: a blank string is [0], a
    signed run of digits filling the trimmed string is its value. *)
Definition string_to_number (s : string) : jsnum :=
  let t := trim_end (trim_start s) in
  if String.eqb t "" then Num 0 else
  let '(sg, r) := sign_split t in
  let '(v, k, rest) := read_digits 0 0 r in
  if (k =? 0)%nat then NaN
  else if String.eqb rest "" then Num (sg * v) else NaN.

(** ** Printing an integer: [`${n}`] and [String(n)]

    [Number.prototype.toString] on an integer: a minus sign for a negative
    value, then the decimal digits with no leading zero.  The front end
    prints booking ids this way into the request paths. *)

Definition digit_char (d : Z) : Ascii.ascii := Ascii.ascii_of_nat (Z.to_nat (d + 48)).

(** Most significant digit first; the fuel is the value itself, which is
    more than the number of digits. *)
Fixpoint decimal_digits (fuel : nat) (n : Z) : list Z :=
  match fuel with
  | O => [n]
  | S f => if n <? 10 then [n] else decimal_digits f (n / 10) ++ [n mod 10]
  end.

Definition string_of_digits (ds : list Z) : string :=
  fold_right (fun d s => String (digit_char d) s) EmptyString ds.

Definition number_to_string (n : Z) : string :=
  if n <? 0 then String "-"%char (string_of_digits (decimal_digits (Z.to_nat (- n)) (- n)))
  else string_of_digits (decimal_digits (Z.to_nat n) n).

(** ** [String(v)] and [Number(v)] *)

(** [String(v)], as a template literal interpolates [v].  An array is
    [array.join(',')], where [null] and [undefined] elements print as the
    empty string. *)
Fixpoint js_to_string (v : jsval) : string :=
  match v with
  | JUndefined => "undefined"
  | JNull => "null"
  | JBool true => "true"
  | JBool false => "false"
  | JNumber NaN => "NaN"
  | JNumber (Num z) => number_to_string z
  | JString s => s
  | JObject => "[object Object]"
  | JArray es =>
      (fix join (es : list jsval) : string :=
         match es with
         | [] => ""
         | e :: es' =>
             let x := match e with JUndefined | JNull => "" | _ => js_to_string e end in
             match es' with [] => x | _ => x +:+ "," +:+ join es' end
         end) es
  end.

(** [array.join(',')]. *)
Definition array_join (es : list jsval) : string := js_to_string (JArray es).

(** [Number(v)]: an object or an array is first converted to a string. *)
Definition to_number (v : jsval) : jsnum :=
  match v with
  | JUndefined => NaN
  | JNull => Num 0
  | JBool b => Num (if b then 1 else 0)
  | JNumber n => n
  | JString s => string_to_number s
  | JObject => NaN
  | JArray es => string_to_number (array_join es)
  end.

(** [Number(v) || 0]: [NaN] and [0] are falsy, so both give [0]. *)
Definition number_or_zero (n : jsnum) : Z :=
  match n with
  | Num z => z
  | NaN => 0
  end.

(** [v || d] on general values. *)
Definition js_or (v d : jsval) : jsval := if truthy v then v else d.


(** ** Lemmas *)

Definition is_digit (d : Z) : Prop := 0 <= d < 10.

Lemma digit_cases d : is_digit d ->
  d = 0 \/ d = 1 \/ d = 2 \/ d = 3 \/ d = 4 \/ d = 5 \/ d = 6 \/ d = 7 \/ d = 8 \/ d = 9.
Proof. unfold is_digit. lia. Qed.

(** What the scanners see of one printed digit. *)
Lemma digit_char_facts d r : is_digit d ->
  digit_value (digit_char d) = Some d /\ is_js_space (digit_char d) = false /\
  sign_split (String (digit_char d) r) = (1, String (digit_char d) r).
Proof. intros Hd. destruct (digit_cases d Hd) as [->|[->|[->|[->|[->|[->|[->|[->|[->| ->]]]]]]]]]; auto. Qed.

Lemma read_digits_app ds acc k rest :
  Forall is_digit ds ->
  read_digits acc k (string_of_digits ds +:+ rest)
  = read_digits (fold_left (fun a d => a * 10 + d) ds acc) (k + length ds) rest.
Proof.
  revert acc k. induction ds as [|d ds IH]; intros acc k Hds; simpl.
  - now rewrite Nat.add_0_r.
  - destruct (Forall_cons_1 _ _ _ Hds) as [Hd Hds0]; clear Hds; rename Hds0 into Hds.
    destruct (digit_char_facts d EmptyString Hd) as [-> _].
    rewrite IH by done. f_equal. lia.
Qed.

Lemma decimal_digits_spec fuel n :
  0 <= n -> (n < 10 \/ n <= Z.of_nat fuel) ->
  Forall is_digit (decimal_digits fuel n) /\
  fold_left (fun a d => a * 10 + d) (decimal_digits fuel n) 0 = n /\
  decimal_digits fuel n <> [].
Proof.
  revert n. induction fuel as [|f IH]; intros n Hn Hf; simpl.
  - repeat split; first [apply Forall_singleton; unfold is_digit; lia | done | simpl; lia].
  - destruct (Z.ltb_spec n 10).
    + repeat split; first [apply Forall_singleton; unfold is_digit; lia | done | simpl; lia].
    + destruct (IH (n / 10)) as (Hall & Hfold & _).
      { apply Z.div_pos; lia. }
      { right. apply Z.div_le_upper_bound; lia. }
      repeat split.
      * apply Forall_app. split; [done|]. apply Forall_singleton.
        unfold is_digit. pose proof (Z.mod_pos_bound n 10). lia.
      * rewrite fold_left_app, Hfold. simpl. pose proof (Z.div_mod n 10). lia.
      * intros Hnil. apply app_eq_nil in Hnil as [_ Hnil]. discriminate.
Qed.

Lemma trim_end_digits ds : Forall is_digit ds -> trim_end (string_of_digits ds) = string_of_digits ds.
Proof.
  induction ds as [|d ds IH]; intros Hds; [done|].
  destruct (Forall_cons_1 _ _ _ Hds) as [Hd Hds0]; clear Hds; rename Hds0 into Hds. simpl. rewrite IH by done.
  destruct (digit_char_facts d EmptyString Hd) as (_ & -> & _). done.
Qed.

Lemma append_empty_r s : s +:+ "" = s.
Proof.
  induction s as [|c s IH]; [reflexivity|].
  change (String c (s +:+ "") = String c s). by rewrite IH.
Qed.

(** Reading back the digits of a natural number. *)
Lemma read_digits_of_nat n :
  0 <= n ->
  exists k, (k <> 0)%nat /\
    read_digits 0 0 (string_of_digits (decimal_digits (Z.to_nat n) n)) = (n, k, EmptyString).
Proof.
  intros Hn. destruct (decimal_digits_spec (Z.to_nat n) n) as (Hall & Hfold & Hne); [lia|lia|].
  exists (length (decimal_digits (Z.to_nat n) n)). split.
  - destruct (decimal_digits _ _); simpl; [done|lia].
  - rewrite <- (append_empty_r (string_of_digits _)), read_digits_app, Hfold by done. done.
Qed.

Lemma digits_string_head n : 0 <= n ->
  exists d r, is_digit d /\ string_of_digits (decimal_digits (Z.to_nat n) n) = String (digit_char d) r.
Proof.
  intros Hn. destruct (decimal_digits_spec (Z.to_nat n) n) as (Hall & _ & Hne); [lia|lia|].
  destruct (decimal_digits _ _) as [|d ds]; [done|]. destruct (Forall_cons_1 _ _ _ Hall) as [Hd _].
  by exists d, (string_of_digits ds).
Qed.

Lemma digits_all n : 0 <= n -> Forall is_digit (decimal_digits (Z.to_nat n) n).
Proof. intros Hn. apply (decimal_digits_spec (Z.to_nat n) n); lia. Qed.

(** [parseInt(String(n), 10)] gives [n] back, for every integer [n]. *)
Lemma parseInt10_number_to_string n : parseInt10 (number_to_string n) = Num n.
Proof.
  unfold parseInt10, number_to_string. destruct (Z.ltb_spec n 0) as [Hlt|Hge].
  - destruct (read_digits_of_nat (- n)) as (k & Hk & Hread); [lia|].
    simpl. rewrite Hread. destruct k; [done|]. f_equal; lia.
  - destruct (digits_string_head n Hge) as (d & r & Hd & Hs).
    destruct (read_digits_of_nat n Hge) as (k & Hk & Hread).
    destruct (digit_char_facts d r Hd) as (_ & Hsp & Hsg).
    rewrite Hs in *. simpl. rewrite Hsp, Hsg, Hread. destruct k; [done|]. f_equal; lia.
Qed.

(** [Number(String(n))] gives [n] back. *)
Lemma to_number_number_to_string n : to_number (JString (number_to_string n)) = Num n.
Proof.
  unfold to_number, string_to_number, number_to_string. destruct (Z.ltb_spec n 0) as [Hlt|Hge].
  - destruct (read_digits_of_nat (- n)) as (k & Hk & Hread); [lia|].
    simpl. rewrite trim_end_digits by (apply digits_all; lia).
    simpl. rewrite Hread. destruct k; [done|]. simpl. f_equal; lia.
  - destruct (digits_string_head n Hge) as (d & r & Hd & Hs).
    destruct (read_digits_of_nat n Hge) as (k & Hk & Hread).
    destruct (digit_char_facts d r Hd) as (_ & Hsp & Hsg).
    pose proof (trim_end_digits _ (digits_all n Hge)) as Ht.
    rewrite Hs in *. simpl. rewrite Hsp, Ht, Hsg, Hread. destruct k; [done|]. simpl. f_equal; lia.
Qed.

(** Comparing a value with a string by [===] is Leibniz equality. *)
Lemma strict_eq_string v s : strict_eq v (JString s) = true <-> v = JString s.
Proof.
  destruct v; simpl; split; intros H; try discriminate; try congruence.
  - apply String.eqb_eq in H. by subst.
  - injection H as ->. apply String.eqb_refl.
Qed.

Lemma strict_eq_string_false v s : strict_eq v (JString s) = false <-> v <> JString s.
Proof.
  rewrite <- not_true_iff_false, strict_eq_string. done.
Qed.

#[export] Hint Rewrite strict_eq_string strict_eq_string_false : maid_rw.

Lemma strict_eq_sym a b : strict_eq a b = strict_eq b a.
Proof.
  destruct a as [| |x|[|x]|x| |], b as [| |y|[|y]|y| |]; simpl; try reflexivity.
  - by destruct x, y.
  - apply Z.eqb_sym.
  - apply String.eqb_sym.
Qed.
