(* ===== verification/Booking.v ===== *)
(** * Booking: the booking entity and the rules of a status change

    [backend/routes/bookings.js] keeps each booking as a plain object.  The
    comment at its lines 10-26 gives the object's shape.  Its [status] is one
    of six strings, the list [allowed] of line 120.  [PUT /:id/status]
    (lines 131-162) decides whether the caller may move a booking to a
    requested status: the maid table [allowedTransitions] for maids, one
    cancel rule for customers, and [Forbidden] for anyone else.  This file
    holds that decision as [authorize], with its functional description and
    its refinement of the decision function of the spec (section 4.2).  *)

From S2P Require Import Prelude Js.
Open Scope Z_scope.
Open Scope maid_scope.

(** ** Data *)

Inductive status : Type :=
| Pending | Confirmed | InProgress | Completed | Declined | Cancelled.

#[export] Instance status_eq_dec : EqDecision status.
Proof. solve_decision. Defined.

Definition status_to_string (s : status) : string :=
  match s with
  | Pending => "pending"
  | Confirmed => "confirmed"
  | InProgress => "in_progress"
  | Completed => "completed"
  | Declined => "declined"
  | Cancelled => "cancelled"
  end.

(** [const allowed = ['pending', ..., 'cancelled']]. *)
Definition allowed : list status :=
  [Pending; Confirmed; InProgress; Completed; Declined; Cancelled].

(** [allowed.includes(status)], where [status] comes from the JSON body:
    only a string equal to one of the six names is accepted. *)
Definition parse_status (v : jsval) : option status :=
  match v with
  | JString str => List.find (fun s => String.eqb (status_to_string s) str) allowed
  | _ => None
  end.

(** The [role] enum of the user schema ([models/User.js]). *)
Inductive role : Type := Customer | Maid | Admin.

#[export] Instance role_eq_dec : EqDecision role.
Proof. solve_decision. Defined.

(** [req.user] after the auth middleware: the id string and the role. *)
Record user : Type := mkUser { user_id : string; user_role : role }.

(** A booking object.  [maidId], the descriptive fields and
    [specialInstructions] are whatever the JSON body held; [customerId] is
    [req.user.id], a string. *)
Record booking : Type := mkBooking {
  booking_id : Z;
  customerId : string;
  maidId : jsval;
  service : jsval;
  date : jsval;
  time : jsval;
  address : jsval;
  amount : Z;
  specialInstructions : jsval;
  bstatus : status;
  createdAt : Z;
  updatedAt : Z
}.

#[export] Instance booking_eq_dec : EqDecision booking.
Proof. solve_decision. Defined.

(** [booking.status = status; booking.updatedAt = new Date();]. *)
Definition set_status (b : booking) (s : status) (now : Z) : booking :=
  {| booking_id := booking_id b; customerId := customerId b; maidId := maidId b;
     service := service b; date := date b; time := time b; address := address b;
     amount := amount b; specialInstructions := specialInstructions b;
     bstatus := s; createdAt := createdAt b; updatedAt := now |}.

(** ** The transition rules *)

(** The maid's table [allowedTransitions]. *)
Definition allowedTransitions (from : status) : list status :=
  match from with
  | Pending => [Confirmed; Declined]
  | Confirmed => [InProgress]
  | InProgress => [Completed]
  | Completed | Declined | Cancelled => []
  end.

(** The authorisation and transition checks of [PUT /:id/status], in the
    order of the code; [Ok tt] lets the handler write the new status. *)
Definition authorize (u : user) (b : booking) (s : status) : result unit :=
  match user_role u with
  | Maid =>
      if negb (strict_eq (maidId b) (JString (user_id u))) then Err 403 "Forbidden"
      else if bool_decide (s ∈ allowedTransitions (bstatus b)) then Ok tt
      else Err 400 ("Invalid transition from " +:+ status_to_string (bstatus b)
                    +:+ " to " +:+ status_to_string s)
  | Customer =>
      if negb (String.eqb (customerId b) (user_id u)) then Err 403 "Forbidden"
      else if bool_decide (bstatus b = Pending) && bool_decide (s = Cancelled) then Ok tt
      else Err 403 "Customer cannot set this status"
  | Admin => Err 403 "Forbidden"
  end.

(** ** The status graph that the rules allow *)

(** One status change that some caller may make. *)
Inductive edge : status -> status -> Prop :=
| edge_maid from to : to ∈ allowedTransitions from -> edge from to
| edge_customer : edge Pending Cancelled.

Definition terminal (s : status) : bool :=
  match s with Completed | Declined | Cancelled => true | _ => false end.

(** The longest number of changes still possible from a status. *)
Definition rank (s : status) : nat :=
  match s with
  | Pending => 3 | Confirmed => 2 | InProgress => 1
  | Completed | Declined | Cancelled => 0
  end.

(** The same graph as a boolean test. *)
Definition edgeb (s t : status) : bool :=
  bool_decide (t ∈ allowedTransitions s) || (bool_decide (s = Pending) && bool_decide (t = Cancelled)).

(** ** Lemmas on the rules *)

Lemma edge_iff s t : edge s t <-> edgeb s t = true.
Proof.
  unfold edgeb. rewrite orb_true_iff, andb_true_iff, !bool_decide_eq_true. split.
  - intros [from to Hin|]; auto.
  - intros [Hin|[-> ->]]; [by apply edge_maid|apply edge_customer].
Qed.

Lemma allowedTransitions_terminal s : terminal s = true -> allowedTransitions s = [].
Proof. destruct s; simpl; congruence. Qed.

Lemma edge_not_terminal s t : edge s t -> terminal s = false.
Proof. rewrite edge_iff. destruct s, t; vm_compute; congruence. Qed.

Lemma edge_rank s t : edge s t -> (rank t < rank s)%nat.
Proof. rewrite edge_iff. destruct s, t; vm_compute; intros; congruence || lia. Qed.

#[export] Hint Constructors edge : maid.
#[export] Hint Resolve edge_rank edge_not_terminal : maid.

(** Two different changes out of one status lead to statuses that are not
    one change apart: the rules form a tree. *)
Lemma edge_siblings s t1 t2 : edge s t1 -> edge s t2 -> t1 <> t2 -> ~ edge t1 t2.
Proof. rewrite !edge_iff. destruct s, t1, t2; vm_compute; congruence. Qed.

(** ** What [authorize] does *)

(** The two kinds of change that [authorize] lets through. *)
Lemma authorize_ok_inv u b s :
  authorize u b s = Ok tt ->
  (user_role u = Maid /\ maidId b = JString (user_id u) /\ s ∈ allowedTransitions (bstatus b)) \/
  (user_role u = Customer /\ customerId b = user_id u /\ bstatus b = Pending /\ s = Cancelled).
Proof.
  unfold authorize. destruct (user_role u); [| |discriminate].
  - destruct (String.eqb_spec (customerId b) (user_id u)); simpl; [|discriminate].
    destruct (bool_decide_reflect (bstatus b = Pending)), (bool_decide_reflect (s = Cancelled));
      simpl; intros H; try discriminate. right. auto.
  - destruct (strict_eq (maidId b) (JString (user_id u))) eqn:Em; simpl; [|discriminate].
    apply strict_eq_string in Em.
    destruct (bool_decide_reflect (s ∈ allowedTransitions (bstatus b))); simpl; [|discriminate].
    left. auto.
Qed.

(** C10. [authorize] lets exactly two kinds of change through: the assigned
    maid following the table, and the booking's customer cancelling a
    pending booking. *)
Theorem authorize_ok_iff u b s :
  authorize u b s = Ok tt <->
  (user_role u = Maid /\ maidId b = JString (user_id u) /\ s ∈ allowedTransitions (bstatus b)) \/
  (user_role u = Customer /\ customerId b = user_id u /\ bstatus b = Pending /\ s = Cancelled).
Proof.
  split; [apply authorize_ok_inv|]. unfold authorize.
  intros [(-> & -> & Hin)|(-> & -> & -> & ->)]; simpl.
  - rewrite String.eqb_refl. simpl. by rewrite bool_decide_true.
  - by rewrite String.eqb_refl.
Qed.

Lemma authorize_edge u b s : authorize u b s = Ok tt -> edge (bstatus b) s.
Proof.
  intros H%authorize_ok_inv. revert H. intros [(_&_&Hin)|(_&_&->&->)]; [by apply edge_maid|apply edge_customer].
Qed.

(** Nobody moves a booking out of a terminal status. *)
Lemma authorize_terminal u b s : terminal (bstatus b) = true -> is_ok (authorize u b s) = false.
Proof.
  intros Ht. destruct (authorize u b s) as [[]|] eqn:E; [|done].
  apply authorize_edge, edge_not_terminal in E. congruence.
Qed.

(** A maid who is not the booking's maid is refused with 403, whatever the
    requested status. *)
Lemma authorize_other_maid u b s :
  user_role u = Maid -> maidId b <> JString (user_id u) -> authorize u b s = Err 403 "Forbidden".
Proof.
  intros Hr Hm. unfold authorize. rewrite Hr.
  apply strict_eq_string_false in Hm. by rewrite Hm.
Qed.

Lemma authorize_other_customer u b s :
  user_role u = Customer -> customerId b <> user_id u -> authorize u b s = Err 403 "Forbidden".
Proof.
  intros Hr Hc. unfold authorize. rewrite Hr.
  destruct (String.eqb_spec (customerId b) (user_id u)); [contradiction|done].
Qed.

#[export] Hint Resolve authorize_edge authorize_terminal : maid.

(** ** The spec's decision function and its refinement by [authorize]

    Section 4.2 of the spec states a pure function [decide] over the
    current status, the requested status, the caller's role and the
    caller's relation to the booking.  [Spec] writes it down from the spec's
    table and rules.  It is the contract; [authorize] is the code. *)

Module Spec.
Inductive srole : Type := SCustomer | SProvider | SAdmin.

Inductive decision : Type :=
| Allow
| Forbidden
| InvalidTransition (from to : status).

(** The "provider-initiated" column of the table. *)
Definition provider_next (s : status) : list status :=
  match s with
  | Pending => [Confirmed; Declined]
  | Confirmed => [InProgress]
  | InProgress => [Completed]
  | Completed | Declined | Cancelled => []
  end.

Definition decide (cur req : status) (r : srole) (is_customer is_provider : bool) : decision :=
  match r with
  | SProvider =>
      if negb is_provider then Forbidden
      else if bool_decide (req ∈ provider_next cur) then Allow
      else InvalidTransition cur req
  | SCustomer =>
      if negb is_customer then Forbidden
      else if bool_decide (cur = Pending /\ req = Cancelled) then Allow
      else Forbidden
  | SAdmin => Forbidden
  end.
End Spec.

(** The code's maid is the spec's provider. *)
Definition spec_role (r : role) : Spec.srole :=
  match r with Customer => Spec.SCustomer | Maid => Spec.SProvider | Admin => Spec.SAdmin end.

(** How an HTTP outcome of the code realises a decision of the spec:
    [forbidden] is a 403, [invalid_transition] a 400 naming both statuses. *)
Definition realises (r : result unit) (d : Spec.decision) : Prop :=
  match d with
  | Spec.Allow => r = Ok tt
  | Spec.Forbidden => exists m, r = Err 403 m
  | Spec.InvalidTransition f t =>
      r = Err 400 ("Invalid transition from " +:+ status_to_string f +:+ " to " +:+ status_to_string t)
  end.

Lemma provider_next_allowedTransitions s : Spec.provider_next s = allowedTransitions s.
Proof. by destruct s. Qed.

(** C7. [authorize] refines the spec's [decide]: on every input the code
    allows exactly when the spec allows, answers 403 where the spec says
    [forbidden] and 400 naming both statuses where it says
    [invalid_transition]. *)
Theorem authorize_refines_decide u b s :
  realises (authorize u b s)
    (Spec.decide (bstatus b) s (spec_role (user_role u))
       (String.eqb (customerId b) (user_id u)) (strict_eq (maidId b) (JString (user_id u)))).
Proof.
  unfold authorize, Spec.decide, realises. rewrite provider_next_allowedTransitions.
  destruct (user_role u); simpl.
  - destruct (String.eqb _ _); simpl; [|eauto].
    destruct (bool_decide_reflect (bstatus b = Pending)), (bool_decide_reflect (s = Cancelled));
      simpl; rewrite ?bool_decide_true, ?bool_decide_false by tauto; eauto.
  - destruct (strict_eq _ _); simpl; [|eauto]. by destruct (bool_decide _).
  - eauto.
Qed.
