(* ===== verification/Store.v ===== *)
(** * Store: the in-memory store of [routes/bookings.js] and its handlers

    The router module keeps [let bookings = []] and [let nextBookingId = 1]
    (lines 7-8), shared by every request.  [db] is that pair.  Each route
    handler is a function of the store, the authenticated caller
    ([req.user]) and the request's inputs.  It returns the HTTP response
    and the store after the request.  A handler is written in the [result]
    monad of [Prelude]: an early [return res.status(c).json(...)] is an
    [Err c msg] and leaves the store as it was; [run] turns the outcome
    into the response.  [new Date()] is the clock reading [now], an input.

    The handlers' [catch] blocks answer 500.  Nothing in the modelled
    bodies throws on the values of [Js], so those blocks are not
    reachable in the model.

    A handler runs from start to finish without yielding: Node runs one
    handler at a time and none of these awaits.  So [PUT /:id/status] reads
    and writes the booking in one step.  Interleaved requests are a sequence
    of whole handler runs, which [Lifecycle] uses.  *)

From S2P Require Import Prelude Js Booking.
Open Scope Z_scope.
Open Scope maid_scope.

(** ** State and responses *)

Record db : Type := mkDb { bookings : list booking; nextBookingId : Z }.

Definition initial_db : db := {| bookings := []; nextBookingId := 1 |}.

Record stats : Type := mkStats {
  st_total : Z; st_completed : Z; st_pending : Z; st_totalSpent : Z
}.

(** The [data] of a [{ success: true, data }] answer, or the [message] of
    a [{ success: false, message }] one. *)
Inductive payload : Type :=
| PBooking (b : booking)
| PBookings (l : list booking)
| PStats (s : stats)
| PMessage (m : string).

Record response : Type := mkResp { code : Z; body : payload }.

Definition success (r : response) : bool :=
  match body r with PMessage _ => false | _ => true end.

(** A handler's outcome: the answer and the new store, or an early return. *)
Definition outcome := result (Z * payload * db).

Definition run (d : db) (o : outcome) : response * db :=
  match o with
  | Ok (c, p, d') => (mkResp c p, d')
  | Err c m => (mkResp c (PMessage m), d)
  end.

(** ** [POST /] *)

(** The fields that [POST /] destructures from [req.body]; an absent
    field is [JUndefined]. *)
Record create_body : Type := mkCreate {
  b_maidId : jsval; b_service : jsval; b_date : jsval; b_time : jsval;
  b_address : jsval; b_amount : jsval; b_specialInstructions : jsval
}.

Definition new_booking (d : db) (u : user) (p : create_body) (now : Z) : booking :=
  {| booking_id := nextBookingId d;
     customerId := user_id u;
     maidId := b_maidId p;
     service := b_service p;
     date := b_date p;
     time := b_time p;
     address := b_address p;
     amount := number_or_zero (to_number (b_amount p));
     specialInstructions := js_or (b_specialInstructions p) (JString "");
     bstatus := Pending;
     createdAt := now;
     updatedAt := now |}.

Definition createBooking (d : db) (u : user) (p : create_body) (now : Z) : outcome :=
  ensure bool_decide (user_role u = Customer) else 403, "Only customers can create bookings" ;;
  ensure truthy (b_maidId p) else 400, "maidId is required" ;;
  ensure (truthy (b_service p) && truthy (b_date p) && truthy (b_time p) && truthy (b_address p))
    else 400, "service, date, time, and address are required" ;;
  let b := new_booking d u p now in
  Ok (201, PBooking b, {| bookings := bookings d ++ [b]; nextBookingId := nextBookingId d + 1 |}).

(** ** [GET /] *)

(** The caller's bookings, in insertion order. *)
Definition user_bookings (d : db) (u : user) : list booking :=
  match user_role u with
  | Customer => List.filter (fun b => String.eqb (customerId b) (user_id u)) (bookings d)
  | Maid => List.filter (fun b => strict_eq (maidId b) (JString (user_id u))) (bookings d)
  | Admin => []
  end.

Definition listBookings (d : db) (u : user) : outcome :=
  Ok (200, PBookings (user_bookings d u), d).

(** ** [GET /:id] *)

(** [bookings.find(b => b.id === id)]. *)
Definition find_booking (d : db) (id : jsnum) : option booking :=
  List.find (fun b => num_strict_eq (Num (booking_id b)) id) (bookings d).

Definition getBooking (d : db) (u : user) (param : string) : outcome :=
  match find_booking d (parseInt10 param) with
  | None => Err 404 "Booking not found"
  | Some b =>
      ensure (String.eqb (customerId b) (user_id u) || strict_eq (maidId b) (JString (user_id u)))
        else 403, "Forbidden" ;;
      Ok (200, PBooking b, d)
  end.

(** ** [PUT /:id/status] *)

(** [bookings.findIndex(b => b.id === id)] with the element found. *)
Definition find_index (d : db) (id : jsnum) : option (nat * booking) :=
  list_find (fun b => num_strict_eq (Num (booking_id b)) id = true) (bookings d).

Definition updateStatus (d : db) (u : user) (param : string) (st : jsval) (now : Z) : outcome :=
  match parse_status st with
  | None => Err 400 "Invalid status"
  | Some s =>
      match find_index d (parseInt10 param) with
      | None => Err 404 "Booking not found"
      | Some (i, b) =>
          _ <- authorize u b s ;;
          let b' := set_status b s now in
          Ok (200, PBooking b', {| bookings := <[i := b']> (bookings d); nextBookingId := nextBookingId d |})
      end
  end.

(** ** [GET /stats] *)

(** The selection of the stats handler: the same as [user_bookings], with
    the maid test written first. *)
Definition stats_bookings (d : db) (u : user) : list booking :=
  match user_role u with
  | Maid => List.filter (fun b => strict_eq (maidId b) (JString (user_id u))) (bookings d)
  | Customer => List.filter (fun b => String.eqb (customerId b) (user_id u)) (bookings d)
  | Admin => []
  end.

Definition count_status (s : status) (l : list booking) : Z :=
  Z.of_nat (length (List.filter (fun b => bool_decide (bstatus b = s)) l)).

Definition stats_of (r : role) (l : list booking) : stats :=
  {| st_total := Z.of_nat (length l);
     st_completed := count_status Completed l;
     st_pending := count_status Pending l;
     st_totalSpent :=
       if bool_decide (r = Customer)
       then fold_left (fun sum b => sum + number_or_zero (to_number (JNumber (Num (amount b))))) l 0
       else 0 |}.

Definition getStats (d : db) (u : user) : outcome :=
  Ok (200, PStats (stats_of (user_role u) (stats_bookings d u)), d).

(** ** Lemmas on the lookups *)

Definition ids_unique (d : db) : Prop := NoDup (map booking_id (bookings d)).

Lemma num_strict_eq_Num z n : num_strict_eq (Num z) n = true <-> n = Num z.
Proof. destruct n; simpl; [split; discriminate|]. rewrite Z.eqb_eq. split; congruence. Qed.

Lemma find_booking_Some d id b :
  find_booking d id = Some b -> In b (bookings d) /\ id = Num (booking_id b).
Proof.
  unfold find_booking. intros H. split; [by eapply find_some|].
  apply find_some in H as [_ H]. by apply num_strict_eq_Num in H.
Qed.

Lemma find_booking_NaN d : find_booking d NaN = None.
Proof. unfold find_booking. induction (bookings d); simpl; done. Qed.

(** [findIndex] and [find] agree on the element they find. *)
Lemma find_index_find_booking d id :
  match find_index d id with
  | Some (i, b) => find_booking d id = Some b /\ bookings d !! i = Some b
  | None => find_booking d id = None
  end.
Proof.
  unfold find_index, find_booking. induction (bookings d) as [|x l IH]; simpl; [done|].
  case_decide as E; [by rewrite E|].
  apply not_true_is_false in E. rewrite E.
  destruct (list_find _ l) as [[i b]|]; simpl; done.
Qed.

(** With unique ids, a replacement at the found index is a replacement by id. *)
Lemma insert_by_id (l : list booking) i b (f : booking -> booking) :
  NoDup (map booking_id l) -> l !! i = Some b ->
  <[i := f b]> l = map (fun x => if booking_id x =? booking_id b then f x else x) l.
Proof.
  revert i. induction l as [|x l IH]; intros i Hnd Hi; [done|].
  simpl in Hnd. inversion Hnd as [|? ? Hx Hnd0]; subst.
  destruct i as [|i]; simpl in Hi |- *.
  - injection Hi as ->. rewrite Z.eqb_refl. f_equal.
    transitivity (map (fun x => x) l); [by rewrite map_id|]. apply map_ext_in. intros y Hy. destruct (Z.eqb_spec (booking_id y) (booking_id b)) as [e|]; [|done].
    exfalso. apply Hx, list_elem_of_In, in_map_iff. by exists y.
  - rewrite (IH i) by done. f_equal.
    destruct (Z.eqb_spec (booking_id x) (booking_id b)) as [e|]; [|done].
    exfalso. apply Hx. rewrite e. apply list_elem_of_In, in_map_iff. exists b. split; [done|].
    by eapply list_elem_of_In, list_elem_of_lookup_2.
Qed.

(** ** What the handlers do *)

(** The success branch of [PUT /:id/status]. *)
Lemma updateStatus_ok_effect d u param st now c p d' :
  ids_unique d -> updateStatus d u param st now = Ok (c, p, d') ->
  exists s b, parse_status st = Some s /\ find_booking d (parseInt10 param) = Some b /\
    authorize u b s = Ok tt /\ c = 200 /\ p = PBooking (set_status b s now) /\
    d' = {| bookings := map (fun x => if booking_id x =? booking_id b
                                      then set_status x s now else x) (bookings d);
            nextBookingId := nextBookingId d |}.
Proof.
  intros Hu. unfold updateStatus. destruct (parse_status st) as [s|]; [|discriminate].
  pose proof (find_index_find_booking d (parseInt10 param)) as Hf.
  destruct (find_index d _) as [[i b]|]; [|discriminate]. destruct Hf as [Hfb Hi].
  destruct (authorize u b s) as [[]|] eqn:Ha; simpl; [|discriminate].
  intros H. injection H as <- <- <-. exists s, b. repeat split; try done.
  f_equal. by apply (insert_by_id _ _ _ (fun x => set_status x s now)).
Qed.

(** What [PUT /:id/status] does, branch by branch. *)
Definition updateStatus_spec (d : db) (u : user) (param : string) (st : jsval) (now : Z) : Prop :=
  match updateStatus d u param st now with
  | Ok (c, p, d') =>
      exists s b, parse_status st = Some s /\ find_booking d (parseInt10 param) = Some b /\
        authorize u b s = Ok tt /\ c = 200 /\ p = PBooking (set_status b s now) /\
        d' = {| bookings := map (fun x => if booking_id x =? booking_id b
                                          then set_status x s now else x) (bookings d);
                nextBookingId := nextBookingId d |}
  | Err c m =>
      (parse_status st = None /\ c = 400 /\ m = "Invalid status") \/
      (parse_status st <> None /\ find_booking d (parseInt10 param) = None /\
         c = 404 /\ m = "Booking not found") \/
      (exists s b, parse_status st = Some s /\ find_booking d (parseInt10 param) = Some b /\
         authorize u b s = Err c m)
  end.

(** C1. [PUT /:id/status] on every branch.  It answers 400 [Invalid
    status] for a status outside the vocabulary, 404 when no booking has the
    id, or the refusal of [authorize].  Otherwise it answers 200 with the
    updated booking.  It writes the requested status and [now] into the
    booking with that id and leaves every other booking and the counter
    unchanged (stated for a store whose ids are unique, which [Lifecycle]
    shows of every reachable store). *)
Theorem updateStatus_correct d u param st now :
  ids_unique d -> updateStatus_spec d u param st now.
Proof.
  intros Hu. unfold updateStatus_spec.
  destruct (updateStatus d u param st now) as [[[c p] d']|c m] eqn:E; [by apply updateStatus_ok_effect|].
  unfold updateStatus in E. destruct (parse_status st) as [s|] eqn:Hs; [|injection E as <- <-; by left].
  right. pose proof (find_index_find_booking d (parseInt10 param)) as Hf.
  destruct (find_index d _) as [[i b]|]; [|injection E as <- <-; left; repeat split; congruence].
  destruct Hf as [Hfb _]. right. exists s, b. repeat split; try done.
  destruct (authorize u b s) as [[]|c0 m0]; simpl in E; congruence.
Qed.

(** C11. [POST /] succeeds exactly for a customer who sends a truthy
    [maidId], [service], [date], [time] and [address].  It then appends
    one pending booking owned by the caller, numbered by the counter, and
    bumps the counter.  Each refusal leaves the store as it was. *)
Theorem createBooking_correct d u p now :
  match createBooking d u p now with
  | Ok (c, q, d') =>
      user_role u = Customer /\ truthy (b_maidId p) = true /\
      truthy (b_service p) && truthy (b_date p) && truthy (b_time p) && truthy (b_address p) = true /\
      c = 201 /\ q = PBooking (new_booking d u p now) /\
      bookings d' = bookings d ++ [new_booking d u p now] /\ nextBookingId d' = nextBookingId d + 1 /\
      bstatus (new_booking d u p now) = Pending /\ booking_id (new_booking d u p now) = nextBookingId d /\
      customerId (new_booking d u p now) = user_id u
  | Err c m =>
      (user_role u <> Customer /\ c = 403 /\ m = "Only customers can create bookings") \/
      (user_role u = Customer /\ truthy (b_maidId p) = false /\ c = 400 /\ m = "maidId is required") \/
      (user_role u = Customer /\ truthy (b_maidId p) = true /\
       truthy (b_service p) && truthy (b_date p) && truthy (b_time p) && truthy (b_address p) = false /\
       c = 400 /\ m = "service, date, time, and address are required")
  end.
Proof.
  unfold createBooking.
  destruct (bool_decide_reflect (user_role u = Customer)) as [Hr|Hr]; [|by left].
  destruct (truthy (b_maidId p)) eqn:Hm; [|right; left; done].
  destruct (truthy (b_service p) && _ && _ && _) eqn:Hf; [|right; right; done].
  simpl. repeat split; done.
Qed.

(** Who takes part in a booking in a given role. *)
Definition party (u : user) (b : booking) : Prop :=
  (user_role u = Customer /\ customerId b = user_id u) \/
  (user_role u = Maid /\ maidId b = JString (user_id u)).

(** C13. [GET /] shows a caller exactly the bookings they take part in,
    in the order they were created. *)
Theorem user_bookings_spec d u b :
  In b (user_bookings d u) <-> In b (bookings d) /\ party u b.
Proof.
  unfold user_bookings, party. destruct (user_role u); rewrite ?filter_In.
  - rewrite String.eqb_eq. intuition congruence.
  - rewrite strict_eq_string. intuition congruence.
  - simpl. intuition congruence.
Qed.

(** C14. [GET /:id] answers the booking exactly when the parsed id names a
    booking the caller takes part in, whatever the caller's role; 404 when no
    booking has the id; 403 otherwise. *)
Theorem getBooking_correct d u param :
  match getBooking d u param with
  | Ok (c, q, d') => exists b, find_booking d (parseInt10 param) = Some b /\
      (customerId b = user_id u \/ maidId b = JString (user_id u)) /\
      c = 200 /\ q = PBooking b /\ d' = d
  | Err c m =>
      (find_booking d (parseInt10 param) = None /\ c = 404 /\ m = "Booking not found") \/
      (exists b, find_booking d (parseInt10 param) = Some b /\ customerId b <> user_id u /\
         maidId b <> JString (user_id u) /\ c = 403 /\ m = "Forbidden")
  end.
Proof.
  unfold getBooking. destruct (find_booking d (parseInt10 param)) as [b|] eqn:Hf; [|by left].
  destruct (String.eqb_spec (customerId b) (user_id u)); simpl; [eauto 8|].
  destruct (strict_eq (maidId b) (JString (user_id u))) eqn:Hm; simpl;
    [apply strict_eq_string in Hm; eauto 8|apply strict_eq_string_false in Hm].
  right. eauto 8.
Qed.

(** ** Stats *)

Lemma stats_bookings_user_bookings d u : stats_bookings d u = user_bookings d u.
Proof. unfold stats_bookings, user_bookings. by destruct (user_role u). Qed.

Definition sum_amounts (l : list booking) : Z := fold_right (fun b s => amount b + s) 0 l.

Lemma fold_amounts l acc :
  fold_left (fun sum b => sum + number_or_zero (to_number (JNumber (Num (amount b))))) l acc
  = acc + sum_amounts l.
Proof. revert acc. induction l as [|b l IH]; intros acc; simpl; [lia|]. rewrite IH. lia. Qed.

Lemma count_status_disjoint s1 s2 l :
  s1 <> s2 -> count_status s1 l + count_status s2 l <= Z.of_nat (length l).
Proof.
  intros Hne. unfold count_status. rewrite <- Nat2Z.inj_add. apply Nat2Z.inj_le.
  apply filter_length_disjoint. intros b H1. apply bool_decide_eq_true in H1.
  apply bool_decide_eq_false. congruence.
Qed.

(** C15. The stats handler reports on exactly the bookings [GET /] lists:
    their number, how many are completed and pending (at most the total
    together), and, for a customer only, the sum of their amounts over
    every status. *)
Theorem getStats_correct d u :
  exists s, getStats d u = Ok (200, PStats s, d) /\
    st_total s = Z.of_nat (length (user_bookings d u)) /\
    st_completed s = count_status Completed (user_bookings d u) /\
    st_pending s = count_status Pending (user_bookings d u) /\
    st_completed s + st_pending s <= st_total s /\
    st_totalSpent s = (if bool_decide (user_role u = Customer) then sum_amounts (user_bookings d u) else 0).
Proof.
  eexists. split; [reflexivity|]. simpl. rewrite stats_bookings_user_bookings, fold_amounts.
  repeat split; first [reflexivity | apply count_status_disjoint; discriminate | by case_bool_decide].
Qed.

(** ** Sample data *)

Definition alice : user := mkUser "c1" Customer.
Definition maria : user := mkUser "m1" Maid.
Definition rita : user := mkUser "m2" Maid.

Definition alice_order : create_body :=
  {| b_maidId := JString "m1"; b_service := JString "House Cleaning";
     b_date := JString "2026-11-10"; b_time := JString "10:00"; b_address := JString "12 MG Road";
     b_amount := JNumber (Num 800); b_specialInstructions := JUndefined |}.

(** The store after Alice's order with Maria. *)
Definition store1 : db := snd (run initial_db (createBooking initial_db alice alice_order 1)).

(** A booking of a given status and amount, for the stats scenario. *)
Definition sample_booking (n : Z) (s : status) (a : Z) : booking :=
  set_status {| booking_id := n; customerId := "c1"; maidId := JString "m1"; service := JString "House Cleaning";
     date := JString "2026-11-10"; time := JString "10:00"; address := JString "12 MG Road";
     amount := a; specialInstructions := JString ""; bstatus := Pending; createdAt := 0; updatedAt := 0 |} s 0.

(** The spec's stats scenario: a customer with bookings completed at
    100, pending at 50 and declined at 0 gets total 3, completed 1, pending
    1 and total spent 150.  The amount of every status counts. *)
Example stats_scenario :
  stats_of Customer [sample_booking 1 Completed 100; sample_booking 2 Pending 50; sample_booking 3 Declined 0]
  = {| st_total := 3; st_completed := 1; st_pending := 1; st_totalSpent := 150 |}.
Proof. vm_compute. reflexivity. Qed.

(** [POST /] stores a negative amount as it is: [Number(-500) || 0]
    is [-500].  The spec says the amount is non-negative, coerced to 0 when
    invalid.  The booking is created, and a customer's total spent drops
    by 500. *)
Example create_keeps_negative_amount :
  exists d' b, createBooking initial_db alice {| b_maidId := JString "m1"; b_service := JString "House Cleaning";
     b_date := JString "2026-11-10"; b_time := JString "10:00"; b_address := JString "12 MG Road";
     b_amount := JNumber (Num (-500)); b_specialInstructions := JUndefined |} 1 = Ok (201, PBooking b, d')
  /\ amount b = -500 /\ bookings d' = [b] /\ st_totalSpent (stats_of Customer (bookings d')) = -500.
Proof. eexists _, _. split; [reflexivity|]. vm_compute. repeat split. Qed.

Lemma updateStatus_correct_witness :
  ids_unique store1 /\ updateStatus_spec store1 maria "1" (JString "confirmed") 2.
Proof. split; [unfold ids_unique; decide_prop|apply updateStatus_correct; unfold ids_unique; decide_prop]. Defined.

(** ** Ids in request paths *)

Lemma find_booking_unique d b :
  ids_unique d -> In b (bookings d) -> find_booking d (Num (booking_id b)) = Some b.
Proof.
  unfold ids_unique, find_booking. induction (bookings d) as [|x l IH]; intros Hu Hin; [done|].
  simpl in Hu. inversion Hu as [|? ? Hx Hnd]; subst. simpl.
  destruct (Z.eqb_spec (booking_id x) (booking_id b)) as [e|ne].
  - destruct Hin as [->|Hin]; [done|]. exfalso. apply Hx. rewrite e.
    apply list_elem_of_In, in_map_iff. eauto.
  - destruct Hin as [->|Hin]; [congruence|]. auto.
Qed.

(** C12. The path [/bookings/${b.id}/status] that the maid dashboard
    builds from a listed booking addresses that booking: [parseInt] of the
    printed id finds it again (ids are unique in every reachable store). *)
Theorem printed_id_finds_booking d b :
  ids_unique d -> In b (bookings d) ->
  find_booking d (parseInt10 (number_to_string (booking_id b))) = Some b.
Proof. intros Hu Hin. rewrite parseInt10_number_to_string. by apply find_booking_unique. Qed.

Lemma printed_id_finds_booking_witness :
  ids_unique store1 /\ In (new_booking initial_db alice alice_order 1) (bookings store1) /\
  find_booking store1 (parseInt10 (number_to_string (booking_id (new_booking initial_db alice alice_order 1))))
  = Some (new_booking initial_db alice alice_order 1).
Proof.
  assert (Hu : ids_unique store1) by (unfold ids_unique; decide_prop).
  assert (Hin : In (new_booking initial_db alice alice_order 1) (bookings store1)) by (simpl; auto).
  refine (conj Hu (conj Hin _)). exact (printed_id_finds_booking _ _ Hu Hin).
Defined.

(** ** Status updates by printed id *)

(** [allowed.includes(s)] accepts the name of every status. *)
Lemma parse_status_to_string s : parse_status (JString (status_to_string s)) = Some s.
Proof. by destruct s. Qed.

(** [updateStatus] on a booking of the store, by its printed id. *)
Lemma updateStatus_by_id d u b s now :
  ids_unique d -> In b (bookings d) ->
  updateStatus d u (number_to_string (booking_id b)) (JString (status_to_string s)) now =
  (_ <- authorize u b s ;;
   Ok (200, PBooking (set_status b s now),
       {| bookings := map (fun x => if booking_id x =? booking_id b then set_status x s now else x) (bookings d);
          nextBookingId := nextBookingId d |})).
Proof.
  intros Hu Hin. unfold updateStatus. rewrite parse_status_to_string, parseInt10_number_to_string.
  pose proof (find_index_find_booking d (Num (booking_id b))) as Hf.
  rewrite (find_booking_unique d b Hu Hin) in Hf.
  destruct (find_index d _) as [[i b0]|]; [|discriminate]. destruct Hf as [Hb Hi]. injection Hb as <-.
  destruct (authorize u b s); [|done]. simpl.
  by rewrite (insert_by_id _ _ _ (fun x => set_status x s now)).
Qed.

