(* ===== verification/Router.v ===== *)
(** * Router: Express dispatch of [routes/bookings.js] and of [server.js]

    [express.Router()] tries its routes in the order they were declared
    and runs the first whose method and path pattern match.  A pattern
    segment [:id] matches any one path segment; a literal segment matches
    case-insensitively, Express's default.  The bookings router declares

      POST /,  GET /,  GET /:id,  PUT /:id/status,  GET /stats

    in that order, every one behind [auth].  [server.js] mounts the routers
    under [/api/...], then [GET /health], then [notFound].  A request that
    no router answers reaches [notFound]: 404 with ["Not Found - " + url].

    Paths are given split into their segments.  Express compares a literal
    with the encoded text of a segment and decodes only the parameters it
    captures; the model takes segments without percent escapes, on which
    the encoded and the decoded text agree, so [match_path] compares and
    captures the segment as it is.  A body is
    the JSON object that [express.json()] parsed.  The auth middleware's
    verdict is an input here, [Ok user] or its 401 answer; [Auth] models how
    it is reached.

    [Module Ref] is a reference router that decides on the shape of the
    path directly; the first-match search agrees with it everywhere.  The
    predicate [envelope_ok] states the shape of every answer: a 2xx carries
    [success: true] and data, a 4xx carries [success: false].  *)

From S2P Require Import Prelude Js Booking Store.
Open Scope Z_scope.
Open Scope maid_scope.

Inductive meth : Type := GET | POST | PUT.

#[export] Instance meth_eq_dec : EqDecision meth.
Proof. solve_decision. Defined.

(** ** JSON bodies *)

(** [const { maidId, service, ... } = req.body]. *)
Definition create_body_of (o : json_obj) : create_body :=
  {| b_maidId := field o "maidId"; b_service := field o "service"; b_date := field o "date";
     b_time := field o "time"; b_address := field o "address"; b_amount := field o "amount";
     b_specialInstructions := field o "specialInstructions" |}.

(** ** Path patterns *)

Inductive segment : Type := Lit (s : string) | Param.

Definition ascii_lower (c : Ascii.ascii) : Ascii.ascii :=
  let n := Ascii.nat_of_ascii c in
  if (65 <=? n)%nat && (n <=? 90)%nat then Ascii.ascii_of_nat (n + 32) else c.

Fixpoint lower (s : string) : string :=
  match s with
  | EmptyString => EmptyString
  | String c r => String (ascii_lower c) (lower r)
  end.

(** The parameters a pattern captures from a path, if it matches. *)
Fixpoint match_path (pat : list segment) (path : list string) : option (list string) :=
  match pat, path with
  | [], [] => Some []
  | Lit l :: pat', s :: path' =>
      if String.eqb (lower l) (lower s) then match_path pat' path' else None
  | Param :: pat', s :: path' => option_map (cons s) (match_path pat' path')
  | _, _ => None
  end.

(** ** The bookings router *)

Inductive handler : Type := HCreate | HList | HGet | HUpdate | HStats.

#[export] Instance handler_eq_dec : EqDecision handler.
Proof. solve_decision. Defined.

Record route : Type := mkRoute { r_method : meth; r_path : list segment; r_handler : handler }.

(** The declarations of [routes/bookings.js], in order. *)
Definition bookings_routes : list route :=
  [ mkRoute POST [] HCreate;
    mkRoute GET [] HList;
    mkRoute GET [Param] HGet;
    mkRoute PUT [Param; Lit "status"] HUpdate;
    mkRoute GET [Lit "stats"] HStats ].

(** The first route that matches, with the parameters it captured. *)
Fixpoint route_request (rs : list route) (m : meth) (path : list string)
    : option (handler * list string) :=
  match rs with
  | [] => None
  | r :: rs' =>
      if bool_decide (r_method r = m) then
        match match_path (r_path r) path with
        | Some ps => Some (r_handler r, ps)
        | None => route_request rs' m path
        end
      else route_request rs' m path
  end.

Definition param0 (ps : list string) : string := default "" (head ps).

(** Run the handler a route selected, after [auth]. *)
Definition call_handler (d : db) (h : handler) (ps : list string) (u : user)
    (o : json_obj) (now : Z) : outcome :=
  match h with
  | HCreate => createBooking d u (create_body_of o) now
  | HList => listBookings d u
  | HGet => getBooking d u (param0 ps)
  | HUpdate => updateStatus d u (param0 ps) (field o "status") now
  | HStats => getStats d u
  end.

(** The bookings router on a request: [None] when no route matches, and
    Express goes on to the next layer of the app. *)
Definition bookings_router (d : db) (m : meth) (path : list string) (auth : result user)
    (o : json_obj) (now : Z) : option (response * db) :=
  match route_request bookings_routes m path with
  | None => None
  | Some (h, ps) =>
      Some (match auth with
            | Err c msg => (mkResp c (PMessage msg), d)
            | Ok u => run d (call_handler d h ps u o now)
            end)
  end.

(** ** The routes as a direct decision *)

(** The handler each request reaches, read off the declarations by hand:
    the reference that the first-match search is compared with. *)
Module Ref.
Definition route (m : meth) (path : list string) : option (handler * list string) :=
  match m, path with
  | POST, [] => Some (HCreate, [])
  | GET, [] => Some (HList, [])
  | GET, [id] => Some (HGet, [id])
  | PUT, [id; s] => if String.eqb "status" (lower s) then Some (HUpdate, [id]) else None
  | _, _ => None
  end.
End Ref.

(** ** Lemmas *)

Lemma lower_status : lower "status" = "status".
Proof. reflexivity. Qed.

Lemma lower_stats : lower "stats" = "stats".
Proof. reflexivity. Qed.

Lemma parseInt10_stats : parseInt10 "stats" = NaN.
Proof. reflexivity. Qed.

Lemma route_stats_path : route_request bookings_routes GET ["stats"] = Some (HGet, ["stats"]).
Proof. reflexivity. Qed.

(** ** What the router does *)

(** C6. [GET /api/bookings/stats] never reaches the stats handler.  The
    route [GET /:id] is declared first and captures ["stats"] as an id;
    [parseInt("stats", 10)] is [NaN], so every authenticated caller gets 404
    ["Booking not found"], whatever the store holds. *)
Theorem get_stats_answers_404 d u o now :
  bookings_router d GET ["stats"] (Ok u) o now = Some (mkResp 404 (PMessage "Booking not found"), d).
Proof.
  unfold bookings_router. rewrite route_stats_path. simpl.
  unfold getBooking, param0. simpl. rewrite parseInt10_stats, find_booking_NaN. reflexivity.
Qed.

(** C16. The bookings router's first-match search over its five
    declarations is equivalent to the direct decision [Ref.route] on the
    method and the shape of the path.  In particular no request reaches the
    stats handler: [GET /stats] is shadowed by [GET /:id]. *)
Theorem route_request_ref m path : route_request bookings_routes m path = Ref.route m path.
Proof.
  destruct m, path as [|s1 [|s2 [|s3 p]]];
    cbn [route_request bookings_routes r_method r_path r_handler match_path option_map Ref.route];
    rewrite ?lower_status, ?lower_stats; repeat case_bool_decide; try congruence;
    repeat match goal with |- context [String.eqb ?a ?b] => destruct (String.eqb a b) end; simpl; reflexivity.
Qed.

(** ** The response envelope *)

(** Every handler answers [{ success: true, data }] with 200 or 201, or
    returns early with [{ success: false, message }] and a 4xx status. *)
Definition envelope_ok (r : outcome) : Prop :=
  match r with
  | Ok (c, p, _) => 200 <= c < 300 /\ forall m, p <> PMessage m
  | Err c _ => 400 <= c < 500
  end.

Lemma authorize_codes u b s : match authorize u b s with Ok _ => True | Err c _ => 400 <= c < 500 end.
Proof.
  unfold authorize. destruct (user_role u);
    repeat match goal with |- context [if ?c then _ else _] => destruct c end; simpl; lia || done.
Qed.

Lemma call_handler_codes d h ps u o now : envelope_ok (call_handler d h ps u o now).
Proof.
  destruct h; cbn [call_handler].
  - unfold createBooking. destruct (bool_decide _); [|simpl; lia].
    destruct (truthy _); [|simpl; lia]. destruct (_ && _); simpl; [split; [lia|discriminate]|lia].
  - simpl. split; [lia|discriminate].
  - unfold getBooking. destruct (find_booking _ _); [|simpl; lia].
    destruct (_ || _); simpl; [split; [lia|discriminate]|lia].
  - unfold updateStatus. destruct (parse_status _) as [s|]; [|simpl; lia].
    destruct (find_index _ _) as [[i b]|]; [|simpl; lia].
    pose proof (authorize_codes u b s) as Ha. destruct (authorize u b s); simpl; [split; [lia|discriminate]|done].
  - simpl. split; [lia|discriminate].
Qed.

(** C23. The envelope of every answer of the bookings router agrees with
    its status: [success] is true exactly for a 2xx status, for every
    request, store and handler, when the auth middleware refuses only with
    4xx statuses (as [Auth.auth] does, with 401). *)
Theorem bookings_router_envelope d m path auth o now r d' :
  (forall c msg, auth = Err c msg -> 400 <= c < 500) ->
  bookings_router d m path auth o now = Some (r, d') ->
  (success r = true <-> 200 <= code r < 300).
Proof.
  intros Hauth. unfold bookings_router. destruct (route_request _ _ _) as [[h ps]|]; [|discriminate].
  intros [= H]. destruct auth as [u|c msg].
  - pose proof (call_handler_codes d h ps u o now) as Hc. unfold envelope_ok in Hc.
    destruct (call_handler d h ps u o now) as [[[c p] d0]|c msg]; simpl in H; injection H as <- _; simpl.
    + destruct Hc as [Hc Hp]. destruct p; simpl; try (split; [intros; lia|done]).
      exfalso. by eapply Hp.
    + split; [discriminate|lia].
  - specialize (Hauth c msg eq_refl). injection H as <- _. simpl. split; [discriminate|lia].
Qed.

Lemma bookings_router_envelope_witness :
  (forall c msg, (Err 401 "Invalid token." : result user) = Err c msg -> 400 <= c < 500) /\
  bookings_router store1 PUT ["1"; "status"] (Err 401 "Invalid token.") [] 0
    = Some (mkResp 401 (PMessage "Invalid token."), store1) /\
  (success (mkResp 401 (PMessage "Invalid token.")) = true <-> 200 <= code (mkResp 401 (PMessage "Invalid token.")) < 300).
Proof.
  assert (H1 : forall c msg, (Err 401 "Invalid token." : result user) = Err c msg -> 400 <= c < 500)
    by (intros c msg [= <- _]; lia).
  assert (H2 : bookings_router store1 PUT ["1"; "status"] (Err 401 "Invalid token.") [] 0
    = Some (mkResp 401 (PMessage "Invalid token."), store1)) by reflexivity.
  refine (conj H1 (conj H2 _)). exact (bookings_router_envelope _ _ _ _ _ _ _ _ H1 H2).
Defined.
