(* ===== verification/Lifecycle.v ===== *)
(** * Lifecycle: the store as a transition system

    Every request that the bookings router answers is one step of the
    store ([step]).  The step is the whole handler run, because a handler
    does not yield (see [Store]).  Interleaved clients are therefore a
    sequence of steps, and properties of concurrent use are properties of
    sequences.  [step_by u] is a step taken by an authenticated user [u].
    A request refused by [auth] or by a guard leaves the store unchanged.

    The invariants hold in every store reachable from the empty one
    ([reachable], the reflexive-transitive closure [rtc] of [step]):
    - [wf]: the ids are 1, 2, ..., n in insertion order and the counter is
      n + 1, so ids are unique;
    - each booking keeps its id, parties and description forever; only its
      status and [updatedAt] change, and the status moves along [edge];
    - a terminal status never changes again, and a booking changes status
      at most three times;
    - only the assigned maid or the booking's customer changes a booking;
    - of two updates that race from the same status to two different
      successors, at most one succeeds.  *)

From S2P Require Import Prelude Js Booking Store Router.
From stdpp Require Import relations.
Open Scope Z_scope.
Open Scope maid_scope.

(** ** Steps *)

(** A step taken by [u]: some handler run after [auth] accepted [u]. *)
Definition step_by (u : user) (d d' : db) : Prop :=
  exists h ps o now, d' = snd (run d (call_handler d h ps u o now)).

Definition step (d d' : db) : Prop := d' = d \/ exists u, step_by u d d'.

Definition reachable (d : db) : Prop := rtc step initial_db d.

(** A booking after a step: the same booking with a new status and
    [updatedAt], every other field unchanged. *)
Definition frame (b b' : booking) : Prop := b' = set_status b (bstatus b') (updatedAt b').

(** The ids [start, start + 1, ...]. *)
Fixpoint zseq (start : Z) (n : nat) : list Z :=
  match n with
  | O => []
  | S n' => start :: zseq (start + 1) n'
  end.

Definition wf (d : db) : Prop :=
  map booking_id (bookings d) = zseq 1 (length (bookings d)) /\
  nextBookingId d = Z.of_nat (length (bookings d)) + 1.

(** ** The shape of a step *)

Lemma createBooking_shape d u p now c q d' :
  createBooking d u p now = Ok (c, q, d') ->
  d' = {| bookings := bookings d ++ [new_booking d u p now]; nextBookingId := nextBookingId d + 1 |}.
Proof. unfold createBooking. repeat case_if; simpl; congruence. Qed.

Lemma updateStatus_shape d u param st now c q d' :
  updateStatus d u param st now = Ok (c, q, d') ->
  exists i b s, bookings d !! i = Some b /\ authorize u b s = Ok tt /\
    d' = {| bookings := <[i := set_status b s now]> (bookings d); nextBookingId := nextBookingId d |}.
Proof.
  unfold updateStatus. destruct (parse_status st) as [s|]; [|discriminate].
  pose proof (find_index_find_booking d (parseInt10 param)) as Hf.
  destruct (find_index d _) as [[i b]|]; [|discriminate]. destruct Hf as [_ Hi].
  destruct (authorize u b s) as [[]|] eqn:Ha; simpl; [|discriminate].
  intros H. injection H as <- <- <-. eauto 7.
Qed.

(** A handler run leaves the store, appends one booking, or rewrites one. *)
Lemma run_call_handler_cases d h ps u o now :
  let d' := snd (run d (call_handler d h ps u o now)) in
  d' = d \/
  (exists p now', d' = {| bookings := bookings d ++ [new_booking d u p now'];
                          nextBookingId := nextBookingId d + 1 |}) \/
  (exists i b s now', bookings d !! i = Some b /\ authorize u b s = Ok tt /\
     d' = {| bookings := <[i := set_status b s now']> (bookings d); nextBookingId := nextBookingId d |}).
Proof.
  simpl. destruct h; simpl.
  - destruct (createBooking _ _ _ _) as [[[c q] d']|] eqn:E; simpl; [|by left].
    right; left. apply createBooking_shape in E. eauto.
  - by left.
  - destruct (getBooking d u _) as [[[c q] d']|] eqn:E; simpl; [|by left].
    left. unfold getBooking in E. destruct (find_booking _ _); [|discriminate].
    destruct (_ || _); simpl in E; congruence.
  - destruct (updateStatus _ _ _ _ _) as [[[c q] d']|] eqn:E; simpl; [|by left].
    right; right. apply updateStatus_shape in E as (i & b & s & ?&?&?). eauto 8.
  - by left.
Qed.

(** Every answer of the bookings router is a step. *)
Lemma bookings_router_step d m path auth o now r d' :
  bookings_router d m path auth o now = Some (r, d') -> step d d'.
Proof.
  unfold bookings_router. destruct (route_request _ _ _) as [[h ps]|]; [|discriminate].
  intros H. injection H as H. destruct auth as [u|c msg].
  - right. exists u, h, ps, o, now. by rewrite H.
  - left. congruence.
Qed.

(** ** One booking across one step *)

Lemma set_status_id b : set_status b (bstatus b) (updatedAt b) = b.
Proof. by destruct b. Qed.

Lemma frame_refl b : frame b b.
Proof. unfold frame. by rewrite set_status_id. Qed.

Lemma frame_set_status b s now : frame b (set_status b s now).
Proof. reflexivity. Qed.

Lemma frame_trans b1 b2 b3 : frame b1 b2 -> frame b2 b3 -> frame b1 b3.
Proof. unfold frame. intros -> ->. reflexivity. Qed.

#[export] Hint Resolve frame_refl frame_set_status frame_trans : maid.

(** After a step by [u], a booking is still there, framed, and it is
    either untouched or rewritten with a status [authorize] let [u] set. *)
Lemma step_by_booking u d d' i b :
  step_by u d d' -> bookings d !! i = Some b ->
  exists b', bookings d' !! i = Some b' /\ frame b b' /\
    (b' = b \/ authorize u b (bstatus b') = Ok tt).
Proof.
  intros (h & ps & o & now & ->) Hi.
  destruct (run_call_handler_cases d h ps u o now) as [->|[(p & now' & ->)|(j & bj & s & now' & Hj & Ha & ->)]].
  - exists b. auto with maid.
  - exists b. simpl. rewrite (lookup_app_Some_l _ _ _ _ Hi). auto with maid.
  - simpl. destruct (decide (j = i)) as [<-|Hne].
    + rewrite Hj in Hi. injection Hi as <-. exists (set_status bj s now').
      rewrite list_lookup_insert_eq by (by eapply lookup_lt_Some). auto with maid.
    + exists b. rewrite list_lookup_insert_ne by done. auto with maid.
Qed.

Lemma step_booking d d' i b :
  step d d' -> bookings d !! i = Some b ->
  exists b', bookings d' !! i = Some b' /\ frame b b' /\ (b' = b \/ edge (bstatus b) (bstatus b')).
Proof.
  intros [->|[u Hs]] Hi; [exists b; auto with maid|].
  destruct (step_by_booking u d d' i b Hs Hi) as (b' & ? & ? & [?|Ha]);
    exists b'; repeat split; auto. right. by eapply authorize_edge.
Qed.

(** ** The history of a booking *)

(** C4. Along any sequence of requests, a booking stays in the store,
    keeps its id, parties, description, amount and creation time, and its
    status moves only along the transition table: a path of [edge]s. *)
Theorem booking_history d d' i b :
  rtc step d d' -> bookings d !! i = Some b ->
  exists b', bookings d' !! i = Some b' /\ frame b b' /\ rtc edge (bstatus b) (bstatus b').
Proof.
  intros Hr. revert b. induction Hr as [d|d1 d2 d3 H12 H23 IH]; intros b Hi.
  - exists b. split; [done|]. split; [apply frame_refl|apply rtc_refl].
  - destruct (step_booking d1 d2 i b H12 Hi) as (b2 & Hi2 & Hf2 & Hst).
    destruct (IH b2 Hi2) as (b3 & Hi3 & Hf3 & He3).
    exists b3. split; [done|]. split; [by eapply frame_trans|].
    destruct Hst as [->|He]; [done|]. by eapply rtc_l.
Qed.

(** C3. A booking in a terminal status ([completed], [declined],
    [cancelled]) keeps that status forever, whoever sends what. *)
Theorem terminal_status_stable d d' i b :
  rtc step d d' -> bookings d !! i = Some b -> terminal (bstatus b) = true ->
  exists b', bookings d' !! i = Some b' /\ bstatus b' = bstatus b.
Proof.
  intros Hr. revert b. induction Hr as [d|d1 d2 d3 H12 H23 IH]; intros b Hi Ht; [by exists b|].
  destruct (step_booking d1 d2 i b H12 Hi) as (b2 & Hi2 & _ & [->|He]).
  - by apply IH.
  - apply edge_not_terminal in He. congruence.
Qed.

(** C2. Only an authorised party changes a booking.  If a step by [u]
    changes booking [i] at all, [u] is its assigned maid following the table,
    or its customer cancelling it while pending.  In particular a maid who is
    not the assigned one never changes it. *)
Theorem only_parties_change_bookings u d d' i b b' :
  step_by u d d' -> bookings d !! i = Some b -> bookings d' !! i = Some b' -> b' <> b ->
  (user_role u = Maid /\ maidId b = JString (user_id u) /\ bstatus b' ∈ allowedTransitions (bstatus b)) \/
  (user_role u = Customer /\ customerId b = user_id u /\ bstatus b = Pending /\ bstatus b' = Cancelled).
Proof.
  intros Hs Hi Hi' Hne.
  destruct (step_by_booking u d d' i b Hs Hi) as (b'' & Hi'' & _ & [->|Ha]); rewrite Hi' in Hi'';
    injection Hi'' as <-; [done|].
  by apply authorize_ok_inv.
Qed.

(** ** Ids *)

Lemma zseq_snoc s n : zseq s (S n) = zseq s n ++ [s + Z.of_nat n].
Proof.
  revert s. induction n as [|n IH]; intros s.
  - simpl. by rewrite Z.add_0_r.
  - change (zseq s (S (S n))) with (s :: zseq (s + 1) (S n)). rewrite IH. simpl.
    replace (s + 1 + Z.of_nat n) with (s + Z.pos (Pos.of_succ_nat n)) by lia. reflexivity.
Qed.

Lemma zseq_ge s n x : In x (zseq s n) -> s <= x.
Proof.
  revert s. induction n as [|n IH]; intros s H; simpl in H; [done|].
  destruct H as [->|H]; [lia|]. apply IH in H. lia.
Qed.

Lemma zseq_NoDup s n : NoDup (zseq s n).
Proof.
  revert s. induction n as [|n IH]; intros s; simpl; constructor; [|done].
  rewrite list_elem_of_In. intros H. apply zseq_ge in H. lia.
Qed.

Lemma wf_ids_unique d : wf d -> ids_unique d.
Proof. intros [Hm _]. unfold ids_unique. rewrite Hm. apply zseq_NoDup. Qed.

#[export] Hint Resolve wf_ids_unique : maid.

Lemma wf_step d d' : wf d -> step d d' -> wf d'.
Proof.
  intros [Hm Hn] [->|[u (h & ps & o & now & ->)]]; [by split|].
  destruct (run_call_handler_cases d h ps u o now)
    as [->|[(p & now' & ->)|(j & bj & s & now' & Hj & Ha & ->)]]; [by split| |]; unfold wf; simpl.
  - rewrite map_app, Hm, length_app. simpl. rewrite Nat.add_1_r, zseq_snoc, Hn.
    split; [do 2 f_equal; lia|lia].
  - rewrite map_insert, length_insert. simpl.
    rewrite list_insert_id; [by split|]. simpl. by apply lookup_map_Some.
Qed.

(** C5. In every reachable store the ids are 1, 2, ..., n in the order of
    creation and the counter is n + 1: ids are unique and never reused. *)
Theorem reachable_wf d : reachable d -> wf d.
Proof. intros Hr. apply (rtc_invariant step wf wf_step initial_db d Hr). split; reflexivity. Qed.

(** ** Racing updates *)

Lemma updateStatus_ok_authorize d u param st now c q d' :
  updateStatus d u param st now = Ok (c, q, d') ->
  exists s b, parse_status st = Some s /\ find_booking d (parseInt10 param) = Some b /\
    authorize u b s = Ok tt.
Proof.
  unfold updateStatus. destruct (parse_status st) as [s|]; [|discriminate].
  pose proof (find_index_find_booking d (parseInt10 param)) as Hf.
  destruct (find_index d _) as [[i b]|]; [|discriminate]. destruct Hf as [Hf _].
  destruct (authorize u b s) as [[]|] eqn:Ha; simpl; [eauto|discriminate].
Qed.

(** After the by-id rewrite, the same id finds the rewritten booking. *)
Lemma find_booking_map_update l id b (f : booking -> booking) :
  (forall x, booking_id (f x) = booking_id x) ->
  List.find (fun x => num_strict_eq (Num (booking_id x)) id) l = Some b ->
  List.find (fun x => num_strict_eq (Num (booking_id x)) id)
    (map (fun x => if booking_id x =? booking_id b then f x else x) l) = Some (f b).
Proof.
  intros Hf Hb. pose proof (find_some _ _ Hb) as [_ Hid].
  induction l as [|x l IH]; cbn [List.find map] in *; [discriminate|].
  destruct (num_strict_eq (Num (booking_id x)) id) eqn:E.
  - injection Hb as ->. rewrite Z.eqb_refl. cbn [List.find]. by rewrite Hf, E.
  - destruct (Z.eqb_spec (booking_id x) (booking_id b)) as [e|]; cbn [List.find].
    + rewrite e in E. congruence.
    + rewrite E. auto.
Qed.

(** C8. Of two updates that race on one booking toward two different
    statuses, each a legal next status of the booking, at most one
    succeeds, in whichever order the server runs them.  The second request
    sees the first one's write, so there is no lost update: the code reads
    and writes inside one handler run, with no compare-and-set. *)
Theorem racing_updates_at_most_one d b param u1 u2 st1 st2 s1 s2 now1 now2 :
  wf d -> find_booking d (parseInt10 param) = Some b ->
  parse_status st1 = Some s1 -> parse_status st2 = Some s2 -> s1 <> s2 ->
  edge (bstatus b) s1 -> edge (bstatus b) s2 ->
  let first := run d (updateStatus d u1 param st1 now1) in
  let second := run (snd first) (updateStatus (snd first) u2 param st2 now2) in
  success (fst first) = false \/ success (fst second) = false.
Proof.
  intros Hwf Hb Hs1 Hs2 Hne He1 He2. simpl.
  destruct (updateStatus d u1 param st1 now1) as [[[c q] d1]|c m] eqn:E1; simpl; [|by left].
  right. apply updateStatus_ok_effect in E1 as (s & b0 & Hs & Hf & Ha & -> & -> & ->); [|by apply wf_ids_unique].
  rewrite Hs1 in Hs. injection Hs as <-. rewrite Hb in Hf. injection Hf as <-.
  destruct (updateStatus _ u2 param st2 now2) as [[[c2 q2] d2]|] eqn:E2; simpl; [|done].
  apply updateStatus_ok_authorize in E2 as (s' & b' & Hs' & Hf' & Ha').
  rewrite Hs2 in Hs'. injection Hs' as <-.
  unfold find_booking in Hf'. cbn [bookings] in Hf'.
  rewrite (find_booking_map_update _ _ b (fun x => set_status x s1 now1)) in Hf'; [|done|done].
  injection Hf' as <-. apply authorize_edge in Ha'. simpl in Ha'.
  exfalso. by apply (edge_siblings (bstatus b) s1 s2).
Qed.

(** ** Requests in sequence *)

(** A request to the bookings router, as the server receives it. *)
Record req : Type := mkReq {
  q_method : meth; q_path : list string; q_auth : result user; q_body : json_obj; q_now : Z
}.

(** The store after a request; a request that no route matches leaves it. *)
Definition serve_db (d : db) (q : req) : db :=
  match bookings_router d (q_method q) (q_path q) (q_auth q) (q_body q) (q_now q) with
  | Some (_, d') => d'
  | None => d
  end.

Fixpoint serve_all (d : db) (qs : list req) : db :=
  match qs with
  | [] => d
  | q :: qs' => serve_all (serve_db d q) qs'
  end.

(** How many requests of [qs] change the status of booking [i]. *)
Fixpoint status_changes (i : nat) (d : db) (qs : list req) : nat :=
  match qs with
  | [] => O
  | q :: qs' =>
      let d' := serve_db d q in
      ((if bool_decide (option_map bstatus (bookings d !! i) = option_map bstatus (bookings d' !! i))
        then 0 else 1) + status_changes i d' qs')%nat
  end.

Lemma serve_db_step d q : step d (serve_db d q).
Proof.
  unfold serve_db. destruct (bookings_router _ _ _ _ _ _) as [[r d']|] eqn:E.
  - by eapply bookings_router_step.
  - by left.
Qed.

Lemma serve_all_rtc d qs : rtc step d (serve_all d qs).
Proof.
  revert d. induction qs as [|q qs IH]; intros d; simpl; [apply rtc_refl|].
  eapply rtc_l; [apply serve_db_step|apply IH].
Qed.

Lemma rank_le_3 s : (rank s <= 3)%nat.
Proof. destruct s; simpl; lia. Qed.

(** C9. Whatever requests arrive, in whatever order, a booking changes
    status at most [rank] times, so at most three times: the number of
    requests that change its status is bounded by the rank of its current
    status, whatever the length of the sequence. *)
Theorem status_changes_bound i d qs b :
  bookings d !! i = Some b -> (status_changes i d qs <= rank (bstatus b) <= 3)%nat.
Proof.
  intros Hi. split; [|apply rank_le_3]. revert d b Hi.
  induction qs as [|q qs IH]; intros d b Hi; simpl; [lia|].
  destruct (step_booking d (serve_db d q) i b (serve_db_step d q) Hi) as (b' & Hi' & _ & Hst).
  rewrite Hi, Hi'. specialize (IH _ _ Hi').
  destruct Hst as [->|He]; [rewrite bool_decide_true by done; lia|].
  apply edge_rank in He. case_bool_decide; lia.
Qed.

(** ** Sample runs *)

Definition order_json : json_obj :=
  [("maidId", JString "m1"); ("service", JString "House Cleaning"); ("date", JString "2026-11-10");
   ("time", JString "10:00"); ("address", JString "12 MG Road"); ("amount", JNumber (Num 800))].

Definition status_json (s : string) : json_obj := [("status", JString s)].

Definition b1 : booking := new_booking initial_db alice alice_order 1.

(** Maria confirms Alice's booking. *)
Definition store2 : db :=
  snd (run store1 (call_handler store1 HUpdate ["1"] maria (status_json "confirmed") 2)).

(** Alice cancels instead. *)
Definition store_cancelled : db :=
  snd (run store1 (call_handler store1 HUpdate ["1"] alice (status_json "cancelled") 2)).

Definition req_update (u : user) (s : string) (now : Z) : req :=
  mkReq PUT ["1"; "status"] (Ok u) (status_json s) now.

Lemma only_parties_change_bookings_witness :
  step_by maria store1 store2 /\ bookings store1 !! 0%nat = Some b1 /\
  bookings store2 !! 0%nat = Some (set_status b1 Confirmed 2) /\ set_status b1 Confirmed 2 <> b1 /\
  ((user_role maria = Maid /\ maidId b1 = JString (user_id maria) /\
    bstatus (set_status b1 Confirmed 2) ∈ allowedTransitions (bstatus b1)) \/
   (user_role maria = Customer /\ customerId b1 = user_id maria /\ bstatus b1 = Pending /\
    bstatus (set_status b1 Confirmed 2) = Cancelled)).
Proof.
  assert (Hs : step_by maria store1 store2) by (exists HUpdate, ["1"], (status_json "confirmed"), 2; reflexivity).
  assert (H0 : bookings store1 !! 0%nat = Some b1) by reflexivity.
  assert (H1 : bookings store2 !! 0%nat = Some (set_status b1 Confirmed 2)) by reflexivity.
  assert (Hne : set_status b1 Confirmed 2 <> b1) by decide_prop.
  repeat split; try assumption. exact (only_parties_change_bookings maria store1 store2 0%nat _ _ Hs H0 H1 Hne).
Defined.

Lemma terminal_status_stable_witness :
  rtc step store_cancelled (serve_db store_cancelled (req_update maria "confirmed" 3)) /\
  bookings store_cancelled !! 0%nat = Some (set_status b1 Cancelled 2) /\
  terminal (bstatus (set_status b1 Cancelled 2)) = true /\
  exists b', bookings (serve_db store_cancelled (req_update maria "confirmed" 3)) !! 0%nat = Some b' /\
    bstatus b' = bstatus (set_status b1 Cancelled 2).
Proof.
  assert (Hr : rtc step store_cancelled (serve_db store_cancelled (req_update maria "confirmed" 3)))
    by (apply rtc_once, serve_db_step).
  assert (H0 : bookings store_cancelled !! 0%nat = Some (set_status b1 Cancelled 2)) by reflexivity.
  assert (Ht : terminal (bstatus (set_status b1 Cancelled 2)) = true) by reflexivity.
  repeat split; try assumption. exact (terminal_status_stable _ _ 0%nat _ Hr H0 Ht).
Defined.

Lemma booking_history_witness :
  rtc step store1 store2 /\ bookings store1 !! 0%nat = Some b1 /\
  exists b', bookings store2 !! 0%nat = Some b' /\ frame b1 b' /\ rtc edge (bstatus b1) (bstatus b').
Proof.
  assert (Hr : rtc step store1 store2)
    by (apply rtc_once; right; exists maria, HUpdate, ["1"], (status_json "confirmed"), 2; reflexivity).
  assert (H0 : bookings store1 !! 0%nat = Some b1) by reflexivity.
  repeat split; try assumption. exact (booking_history store1 store2 0%nat b1 Hr H0).
Defined.

Lemma reachable_wf_witness : reachable store2 /\ wf store2.
Proof.
  assert (Hr : reachable store2).
  { eapply rtc_l; [right; exists alice, HCreate, [], order_json, 1; reflexivity|].
    apply rtc_once. right. exists maria, HUpdate, ["1"], (status_json "confirmed"), 2. reflexivity. }
  split; [exact Hr|]. exact (reachable_wf store2 Hr).
Defined.

Lemma racing_updates_at_most_one_witness :
  wf store1 /\ find_booking store1 (parseInt10 "1") = Some b1 /\
  parse_status (JString "confirmed") = Some Confirmed /\ parse_status (JString "cancelled") = Some Cancelled /\
  Confirmed <> Cancelled /\ edge (bstatus b1) Confirmed /\ edge (bstatus b1) Cancelled /\
  (let first := run store1 (updateStatus store1 maria "1" (JString "confirmed") 2) in
   let second := run (snd first) (updateStatus (snd first) alice "1" (JString "cancelled") 3) in
   success (fst first) = false \/ success (fst second) = false).
Proof.
  assert (Hw : wf store1) by (split; reflexivity).
  assert (Hf : find_booking store1 (parseInt10 "1") = Some b1) by reflexivity.
  assert (H1 : parse_status (JString "confirmed") = Some Confirmed) by reflexivity.
  assert (H2 : parse_status (JString "cancelled") = Some Cancelled) by reflexivity.
  assert (Hne : Confirmed <> Cancelled) by discriminate.
  assert (He1 : edge (bstatus b1) Confirmed) by (apply edge_iff; reflexivity).
  assert (He2 : edge (bstatus b1) Cancelled) by (apply edge_iff; reflexivity).
  repeat split; try assumption.
  exact (racing_updates_at_most_one store1 b1 "1" maria alice _ _ _ _ 2 3 Hw Hf H1 H2 Hne He1 He2).
Defined.

Lemma status_changes_bound_witness :
  bookings store1 !! 0%nat = Some b1 /\
  (status_changes 0%nat store1 [req_update maria "confirmed" 2; req_update alice "cancelled" 3;
                            req_update maria "in_progress" 4; req_update maria "completed" 5;
                            req_update maria "pending" 6] <= rank (bstatus b1) <= 3)%nat.
Proof.
  assert (H0 : bookings store1 !! 0%nat = Some b1) by reflexivity.
  split; [exact H0|]. exact (status_changes_bound 0%nat store1 _ b1 H0).
Defined.
