(* ===== verification/Progress.v ===== *)
(** * Progress: every booking can still be finished

    [Lifecycle] shows what no request can do: a terminal status is final,
    and a booking changes status at most three times.  This file shows the
    converse, a liveness property.  In every reachable store, every booking
    can still be driven to a terminal status, by at most two requests of
    its own parties.  A pending booking is cancelled by its customer.  A
    confirmed or in-progress booking is completed by its maid.  The
    requests are the [PUT /:id/status] calls the dashboards send
    ([status_req]).

    The argument needs one more invariant of reachable stores
    ([maids_named]).  A booking that left [pending] other than by
    cancellation was moved by its maid, so its [maidId] is the maid's id
    as a string.  Without it a confirmed booking whose [maidId] is not a
    string could never move again: [===] never holds for it (see the
    finding on [POST /]). *)

From S2P Require Import Prelude Js Booking Store Router Lifecycle.
Open Scope Z_scope.
Open Scope maid_scope.

(** ** The invariant *)

Definition maid_named (b : booking) : Prop :=
  bstatus b = Pending \/ bstatus b = Cancelled \/ exists m, maidId b = JString m.

Definition maids_named (d : db) : Prop := forall i b, bookings d !! i = Some b -> maid_named b.

(** ** The requests that finish a booking *)

(** [PUT /bookings/${id}/status] with body [{ status }], sent by [u]. *)
Definition status_req (u : user) (b : booking) (s : status) (now : Z) : req :=
  mkReq PUT [number_to_string (booking_id b); "status"] (Ok u) [("status", JString (status_to_string s))] now.

(** The customer cancels a pending booking; the maid named by the booking
    starts and completes a confirmed one, or completes one in progress. *)
Definition finish_reqs (b : booking) (now : Z) : list req :=
  match bstatus b, maidId b with
  | Pending, _ => [status_req (mkUser (customerId b) Customer) b Cancelled now]
  | Confirmed, JString m =>
      [status_req (mkUser m Maid) b InProgress now;
       status_req (mkUser m Maid) (set_status b InProgress now) Completed now]
  | InProgress, JString m => [status_req (mkUser m Maid) b Completed now]
  | _, _ => []
  end.

(** ** Lemmas *)

(** A booking of the store after a step: one that was there, possibly
    rewritten with a status [authorize] allowed, or a new pending one. *)
Lemma step_lookup d d' i b' :
  step d d' -> bookings d' !! i = Some b' ->
  bstatus b' = Pending \/
  exists b, bookings d !! i = Some b /\ maidId b' = maidId b /\
    (bstatus b' = bstatus b \/ exists u, authorize u b (bstatus b') = Ok tt).
Proof.
  intros [->|[u (h & ps & o & now & ->)]]; [intros Hi; right; exists b'; auto|].
  destruct (run_call_handler_cases d h ps u o now)
    as [->|[(p & now' & ->)|(j & bj & s & now' & Hj & Ha & ->)]]; intros Hi; simpl in Hi.
  - right. exists b'. auto.
  - apply lookup_app_Some in Hi as [Hl|[_ Hr]]; [right; exists b'; auto|].
    left. apply list_lookup_singleton_Some in Hr as [_ <-]. reflexivity.
  - right. destruct (decide (j = i)) as [<-|Hne].
    + rewrite list_lookup_insert_eq in Hi by (by eapply lookup_lt_Some). injection Hi as <-.
      exists bj. split; [done|]. split; [done|]. right. by exists u.
    + rewrite list_lookup_insert_ne in Hi by done. exists b'. auto.
Qed.

Lemma maids_named_step d d' : maids_named d -> step d d' -> maids_named d'.
Proof.
  intros Hd Hs i b' Hi. destruct (step_lookup d d' i b' Hs Hi) as [Hp|(b & Hb & Hm & [Hst|(u & Ha)])];
    [by left| |].
  - destruct (Hd i b Hb) as [?|[?|(m & ?)]]; unfold maid_named; [left|right; left|right; right; exists m];
      congruence.
  - apply authorize_ok_inv in Ha as [(_ & Hmaid & _)|(_ & _ & _ & Hc)].
    + right; right. exists (user_id u). congruence.
    + right; left. done.
Qed.

(** A request of [status_req] by a party [authorize] admits rewrites the
    booking in place and keeps the ids unique. *)
Lemma serve_status_req d i b u s now :
  ids_unique d -> bookings d !! i = Some b -> authorize u b s = Ok tt ->
  bookings (serve_db d (status_req u b s now)) !! i = Some (set_status b s now) /\
  ids_unique (serve_db d (status_req u b s now)).
Proof.
  intros Hu Hi Ha.
  change (serve_db d (status_req u b s now))
    with (snd (run d (updateStatus d u (number_to_string (booking_id b)) (JString (status_to_string s)) now))).
  assert (Hin : In b (bookings d)) by (apply list_elem_of_In; by eapply list_elem_of_lookup_2).
  rewrite (updateStatus_by_id d u b s now Hu Hin), Ha.
  simpl. split.
  - rewrite (lookup_map_Some _ _ _ _ Hi). by rewrite Z.eqb_refl.
  - unfold ids_unique. simpl. rewrite map_map.
    erewrite map_ext; [exact Hu|]. intros x. by destruct (_ =? _).
Qed.

Lemma reachable_invariants d : reachable d -> wf d /\ maids_named d.
Proof.
  intros Hr. apply (rtc_invariant step (fun d => wf d /\ maids_named d)) with initial_db; [|done|].
  - intros x y [Hw Hm] Hs. split; [by eapply wf_step|by eapply maids_named_step].
  - split; [split; reflexivity|]. intros i b Hi. discriminate.
Qed.

(** The maid named by a booking passes the ownership check. *)
Lemma authorize_named_maid m b s :
  maidId b = JString m -> s ∈ allowedTransitions (bstatus b) -> authorize (mkUser m Maid) b s = Ok tt.
Proof.
  intros Hm Hs. unfold authorize. simpl. rewrite Hm. simpl. rewrite String.eqb_refl. simpl.
  by rewrite bool_decide_eq_true_2.
Qed.

(** ** Liveness *)

(** C17. In every reachable store every booking can still be finished.
    The requests [finish_reqs], at most two, sent by the booking's own
    customer (a pending booking) or by the maid it names (an accepted one),
    bring it to a terminal status.  A terminal booking needs none. *)
Theorem booking_can_finish d i b now :
  reachable d -> bookings d !! i = Some b ->
  (length (finish_reqs b now) <= 2)%nat /\
  exists b', bookings (serve_all d (finish_reqs b now)) !! i = Some b' /\ terminal (bstatus b') = true.
Proof.
  intros Hr Hi. destruct (reachable_invariants d Hr) as [Hw Hm]. apply wf_ids_unique in Hw.
  destruct (Hm i b Hi) as [Hs|[Hs|(m & Hmaid)]]; unfold finish_reqs.
  - rewrite Hs. split; [simpl; lia|]. simpl.
    destruct (serve_status_req d i b (mkUser (customerId b) Customer) Cancelled now Hw Hi) as [Hi' _].
    { unfold authorize. simpl. rewrite String.eqb_refl, Hs. reflexivity. }
    eexists. split; [exact Hi'|reflexivity].
  - rewrite Hs. split; [simpl; lia|]. exists b. rewrite Hs. done.
  - rewrite Hmaid. destruct (bstatus b) eqn:Hs; split; try (simpl; lia); try (exists b; rewrite Hs; done).
    + simpl. destruct (serve_status_req d i b (mkUser (customerId b) Customer) Cancelled now Hw Hi) as [Hi' _].
      { unfold authorize. simpl. rewrite String.eqb_refl, Hs. reflexivity. }
      eexists. split; [exact Hi'|reflexivity].
    + simpl. destruct (serve_status_req d i b (mkUser m Maid) InProgress now Hw Hi) as [Hi1 Hu1].
      { apply authorize_named_maid; [done|]. rewrite Hs. set_solver. }
      destruct (serve_status_req _ i _ (mkUser m Maid) Completed now Hu1 Hi1) as [Hi2 _].
      { apply authorize_named_maid; [done|]. simpl. set_solver. }
      eexists. split; [exact Hi2|reflexivity].
    + simpl. destruct (serve_status_req d i b (mkUser m Maid) Completed now Hw Hi) as [Hi1 _].
      { apply authorize_named_maid; [done|]. rewrite Hs. set_solver. }
      eexists. split; [exact Hi1|reflexivity].
Qed.

(** ** Sample *)

(** Alice's booking, confirmed by Maria, in a store reached by two requests. *)
Lemma reachable_store2 : reachable store2.
Proof.
  eapply rtc_l; [right; exists alice, HCreate, [], order_json, 1; reflexivity|].
  apply rtc_once. right. exists maria, HUpdate, ["1"], (status_json "confirmed"), 2. reflexivity.
Qed.

Lemma booking_can_finish_witness :
  reachable store2 /\ bookings store2 !! 0%nat = Some (set_status b1 Confirmed 2) /\
  (length (finish_reqs (set_status b1 Confirmed 2) 5) <= 2)%nat /\
  exists b', bookings (serve_all store2 (finish_reqs (set_status b1 Confirmed 2) 5)) !! 0%nat = Some b' /\
    terminal (bstatus b') = true.
Proof.
  assert (H0 : bookings store2 !! 0%nat = Some (set_status b1 Confirmed 2)) by reflexivity.
  refine (conj reachable_store2 (conj H0 _)).
  exact (booking_can_finish store2 0%nat _ 5 reachable_store2 H0).
Defined.
