(* ===== verification/Bounds.v ===== *)
(** * Bounds: booking ids stay safe integers

    [routes/bookings.js] numbers bookings with [nextBookingId++], a
    JavaScript number, and the front end prints an id into a path with
    [`${id}`] for the back end to read back with [parseInt(id, 10)].  A
    double holds every integer up to [Number.MAX_SAFE_INTEGER] = 2^53 - 1
    exactly; above it [++] and [parseInt] round.  The rest of the
    development models numbers as [Z] without a width.

    This file shows that the width is never reached.  Every request adds
    at most one booking, so after [n] requests the ids are among
    [1 .. n] and the counter is at most [n + 1].  A server that has
    answered fewer than 2^53 - 1 requests never holds an id that a double
    rounds, so the exact integers of the model are the doubles of the
    code. *)

From S2P Require Import Prelude Js Booking Store Router Lifecycle.
Open Scope Z_scope.
Open Scope maid_scope.

(** [Number.MAX_SAFE_INTEGER]. *)
Definition max_safe_integer : Z := 2 ^ 53 - 1.

(** ** Lemmas *)

Lemma zseq_range s n x : In x (zseq s n) -> s <= x < s + Z.of_nat n.
Proof.
  revert s. induction n as [|n IH]; intros s H; simpl in H; [done|].
  destruct H as [<-|H]; [lia|]. apply IH in H. lia.
Qed.

(** A step adds at most one booking. *)
Lemma step_length d d' : step d d' -> (length (bookings d') <= S (length (bookings d)))%nat.
Proof.
  intros [->|[u (h & ps & o & now & ->)]]; [lia|].
  destruct (run_call_handler_cases d h ps u o now)
    as [->|[(p & now' & ->)|(j & bj & s & now' & Hj & Ha & ->)]]; simpl;
    rewrite ?length_app, ?length_insert; simpl; lia.
Qed.

Lemma serve_all_length d qs :
  (length (bookings (serve_all d qs)) <= length (bookings d) + length qs)%nat.
Proof.
  revert d. induction qs as [|q qs IH]; intros d; simpl; [lia|].
  specialize (IH (serve_db d q)). pose proof (step_length _ _ (serve_db_step d q)). lia.
Qed.

Lemma reachable_serve_all qs : reachable (serve_all initial_db qs).
Proof. apply serve_all_rtc. Qed.

(** ** Ids against the number of requests *)

(** C22. After any [n] requests to a fresh server, the counter is at most
    [n + 1] and every booking's id lies in [1 .. n].  So as long as the
    server has answered fewer than 2^53 - 1 requests, every id and the
    counter are safe integers: [nextBookingId++] and
    [parseInt(String(id), 10)] are exact on them. *)
Theorem ids_within_requests qs :
  Z.of_nat (length qs) < max_safe_integer ->
  nextBookingId (serve_all initial_db qs) <= Z.of_nat (length qs) + 1 <= max_safe_integer /\
  Forall (fun b => 1 <= booking_id b <= Z.of_nat (length qs)) (bookings (serve_all initial_db qs)).
Proof.
  intros Hn. destruct (reachable_wf _ (reachable_serve_all qs)) as [Hm Hc].
  pose proof (serve_all_length initial_db qs) as Hl. simpl in Hl.
  split; [lia|]. apply List.Forall_forall. intros b Hb.
  assert (Hin : In (booking_id b) (zseq 1 (length (bookings (serve_all initial_db qs))))).
  { rewrite <- Hm. by apply in_map. }
  apply zseq_range in Hin. lia.
Qed.

(** Alice books, Maria confirms: two requests, one booking with id 1. *)
Definition two_requests : list req :=
  [mkReq POST [] (Ok alice) order_json 1; mkReq PUT ["1"; "status"] (Ok maria) (status_json "confirmed") 2].

Lemma ids_within_requests_witness :
  Z.of_nat (length two_requests) < max_safe_integer /\
  nextBookingId (serve_all initial_db two_requests) <= Z.of_nat (length two_requests) + 1 <= max_safe_integer /\
  Forall (fun b => 1 <= booking_id b <= Z.of_nat (length two_requests)) (bookings (serve_all initial_db two_requests)).
Proof.
  assert (H : Z.of_nat (length two_requests) < max_safe_integer) by (vm_compute; reflexivity).
  exact (conj H (ids_within_requests two_requests H)).
Defined.
