(* ===== verification/Auth.v ===== *)
(** * Auth: bearer tokens, the auth middleware and login

    [backend/middleware/auth.js] guards every bookings route.  It reads the
    [Authorization] header and requires the prefix ["Bearer "].  It verifies
    the rest as a JWT, loads the user named by the token's [id], and sets
    [req.user].  Each failure answers 401, with one of three messages.
    [backend/controllers/authController.js] issues the tokens
    ([generateToken], 7 days) on [login], after finding the user by email
    and checking the password with bcrypt.

    JWT signing and bcrypt are libraries the code only calls.  [JwtScheme]
    is the interface the two components rely on: a token signed at time
    [iat] verifies, for the payload's [id], during the next 7 days and not
    after.  [PasswordScheme] says that [compare] accepts exactly the
    passwords with the same bcrypt key as the one that was hashed, and
    that it accepts nothing but a hash.  The key ([pw_key]) is what
    bcryptjs feeds to the cipher for a [$2a$] hash: the password's bytes
    followed by a NUL byte, repeated and cut to 72 bytes.  So two
    passwords that agree on their first 72 bytes are the same password to
    [compare].
    [demo_jwt] and [demo_password] are instances
    showing that the interfaces can be met.  The theorems are stated for
    every instance.  The payload carries the user's [id], the only field
    the middleware reads.  *)

From S2P Require Import Prelude Js Booking.
Open Scope Z_scope.
Open Scope maid_scope.

(** ** Interfaces of the libraries *)

(** [expiresIn: '7d'], in seconds. *)
Definition token_lifetime : Z := 7 * 24 * 60 * 60.

(** Times are seconds since the epoch, so never negative. *)
Class JwtScheme : Type := {
  jwt_sign : Z -> string -> string;
  jwt_verify : Z -> string -> option string;
  jwt_verify_sign : forall iat now id,
    0 <= iat <= now -> now < iat + token_lifetime -> jwt_verify now (jwt_sign iat id) = Some id;
  jwt_verify_expired : forall iat now id,
    0 <= iat -> iat + token_lifetime <= now -> jwt_verify now (jwt_sign iat id) = None;
  jwt_sign_nonempty : forall iat id, jwt_sign iat id <> ""
}.

Fixpoint str_repeat (n : nat) (s : string) : string :=
  match n with O => EmptyString | S n' => s +:+ str_repeat n' s end.

(** The bytes of a password that bcrypt uses: [bcryptjs] appends a NUL
    (for the [$2a$]/[$2b$] prefixes of [genSalt]) and the key schedule
    reads 72 bytes of the result, cycling through it ([streamtoword]);
    the rest of a longer password is ignored. *)
Definition pw_key (p : string) : string :=
  String.substring 0 72 (str_repeat 72 (p +:+ String Ascii.zero EmptyString)).

Class PasswordScheme : Type := {
  pw_hash : string -> string;
  pw_compare : string -> string -> bool;
  pw_compare_hash : forall p q, pw_compare q (pw_hash p) = true <-> pw_key q = pw_key p;
  pw_compare_only_hash : forall q h, pw_compare q h = true -> exists p, h = pw_hash p
}.

(** ** Strings *)

Fixpoint str_drop (n : nat) (s : string) : string :=
  match n, s with
  | O, _ => s
  | S n', String _ r => str_drop n' r
  | S _, EmptyString => EmptyString
  end.

Definition bearer : string := "Bearer ".

(** [authHeader.startsWith('Bearer ')] and [authHeader.substring(7)]. *)
Definition bearer_token (header : option string) : option string :=
  match header with
  | Some h => if String.prefix bearer h then Some (str_drop 7 h) else None
  | None => None
  end.

(** ** The middleware *)

(** A user document: its [_id] as a string, the fields login reads, and
    the role that [req.user.role] gives the handlers. *)
Record user_doc : Type := mkUserDoc {
  doc_id : string; doc_email : string; doc_password : string; doc_role : role
}.

Definition to_user (u : user_doc) : user := mkUser (doc_id u) (doc_role u).

Section Middleware.
Context `{JwtScheme}.
(** [User.findById] on the users collection.  The id comes from a token
    the server signed, a document's [_id], so the cast to an [ObjectId]
    does not throw; a database failure (the [catch], 401 ["Invalid
    token."]) is not modelled. *)
Variable findById : string -> option user_doc.

Definition auth (header : option string) (now : Z) : result user :=
  match bearer_token header with
  | None => Err 401 "Access denied. No valid token provided."
  | Some token =>
      match jwt_verify now token with
      | None => Err 401 "Invalid token."
      | Some id =>
          match findById id with
          | None => Err 401 "Token is no longer valid."
          | Some u => Ok (to_user u)
          end
      end
  end.
End Middleware.

(** ** Login *)

Section Login.
Context `{JwtScheme} `{PasswordScheme}.
(** The users collection, in insertion order. *)
Variable users : list user_doc.

(** [User.findOne({ email })]. *)
Definition findOne_email (email : string) : option user_doc :=
  List.find (fun u => String.eqb (doc_email u) email) users.

(** [generateToken({ id, role, email })]. *)
Definition generateToken (now : Z) (u : user_doc) : string := jwt_sign now (doc_id u).

(** [exports.login]: [valid] is the verdict of [loginValidation]; its
    400 answer lists the errors instead of a message. *)
Definition login (valid : bool) (email password : string) (now : Z) : result (user_doc * string) :=
  ensure valid else 400, "" ;;
  match findOne_email email with
  | None => Err 401 "Invalid email or password"
  | Some u =>
      ensure pw_compare password (doc_password u) else 401, "Invalid email or password" ;;
      Ok (u, generateToken now u)
  end.
End Login.

(** ** Lemmas on the header *)

Lemma bearer_token_bearer t : bearer_token (Some (bearer +:+ t)) = Some t.
Proof. unfold bearer_token. cbn. by destruct t. Qed.

(** ** Interfaces met *)

(** A password scheme: the hash is the bcrypt key behind a fixed tag. *)
Definition demo_hash (p : string) : string := "$2a$12$" +:+ pw_key p.

Lemma demo_hash_inj p q : demo_hash q = demo_hash p -> pw_key q = pw_key p.
Proof. unfold demo_hash. cbn. intros H. by simplify_eq. Qed.

#[export, refine] Instance demo_password : PasswordScheme := {
  pw_hash := demo_hash;
  pw_compare q h := String.eqb (demo_hash q) h
}.
Proof.
  - intros p q. rewrite String.eqb_eq. split; [apply demo_hash_inj|unfold demo_hash; congruence].
  - intros q h E. apply String.eqb_eq in E. by exists q.
Defined.

(** A token scheme: the issue time in decimal, a dot, the id. *)
Definition demo_sign (iat : Z) (id : string) : string := number_to_string iat +:+ String "."%char id.

Definition demo_verify (now : Z) (t : string) : option string :=
  let '(iat, k, rest) := read_digits 0 0 t in
  match rest with
  | String c id =>
      if Ascii.eqb c "."%char && negb (k =? 0)%nat && (iat <=? now) && (now <? iat + token_lifetime)
      then Some id else None
  | EmptyString => None
  end.

Lemma demo_read iat id : 0 <= iat ->
  exists k, (k <> 0)%nat /\ read_digits 0 0 (demo_sign iat id) = (iat, k, String "."%char id).
Proof.
  intros Hi. unfold demo_sign, number_to_string. destruct (Z.ltb_spec iat 0); [lia|].
  destruct (decimal_digits_spec (Z.to_nat iat) iat) as (Hall & Hfold & Hne); [lia|lia|].
  exists (length (decimal_digits (Z.to_nat iat) iat)). split.
  - destruct (decimal_digits _ _); simpl; [done|lia].
  - rewrite read_digits_app, Hfold by done. reflexivity.
Qed.

#[export, refine] Instance demo_jwt : JwtScheme := {
  jwt_sign := demo_sign;
  jwt_verify := demo_verify
}.
Proof.
  - intros iat now id Hi Hn. unfold demo_verify. destruct (demo_read iat id) as (k & Hk & ->); [lia|].
    cbn -[Z.add Z.ltb Z.leb]. destruct k; [done|]. simpl.
    rewrite (proj2 (Z.leb_le _ _)), (proj2 (Z.ltb_lt _ _)) by lia. reflexivity.
  - intros iat now id Hi Hn. unfold demo_verify. destruct (demo_read iat id) as (k & Hk & ->); [lia|].
    cbn -[Z.add Z.ltb Z.leb]. rewrite (proj2 (Z.ltb_ge _ _)) by lia. by rewrite !andb_false_r.
  - intros iat id. unfold demo_sign. by destruct (number_to_string iat).
Defined.

(** ** What login and the middleware guarantee together *)

Section Guarantees.
Context `{JwtScheme} `{PasswordScheme}.

Lemma login_ok users valid email password iat u t :
  login users valid email password iat = Ok (u, t) ->
  valid = true /\ findOne_email users email = Some u /\
  pw_compare password (doc_password u) = true /\ t = jwt_sign iat (doc_id u).
Proof.
  unfold login. destruct valid; [|discriminate]. simpl.
  destruct (findOne_email users email) as [v|]; [|discriminate].
  destruct (pw_compare password (doc_password v)) eqn:E; simpl; [|discriminate].
  intros [= -> <-]. auto.
Qed.

(** C19. A token issued by [login] opens the guarded routes for seven
    days.  Within that time, the middleware accepts the header ["Bearer "
    + token] and sets [req.user] to the user's current document. *)
Theorem login_token_accepted users findById email password iat now u t u' :
  0 <= iat <= now -> now < iat + token_lifetime ->
  login users true email password iat = Ok (u, t) ->
  findById (doc_id u) = Some u' ->
  auth findById (Some (bearer +:+ t)) now = Ok (to_user u').
Proof.
  intros Hi Hn Hl Hf. apply login_ok in Hl as (_ & _ & _ & ->).
  unfold auth. rewrite bearer_token_bearer, jwt_verify_sign by done. by rewrite Hf.
Qed.

(** C20. Seven days after login the same token is refused with 401
    ["Invalid token."]. *)
Theorem login_token_expires users findById email password iat now u t :
  0 <= iat -> iat + token_lifetime <= now ->
  login users true email password iat = Ok (u, t) ->
  auth findById (Some (bearer +:+ t)) now = Err 401 "Invalid token.".
Proof.
  intros Hi Hn Hl. apply login_ok in Hl as (_ & _ & _ & ->).
  unfold auth. by rewrite bearer_token_bearer, jwt_verify_expired.
Qed.

(** C21. Login succeeds for the first user with the email exactly when
    the password has the same bcrypt key as the one hashed into the
    document: the same 72 bytes of the password and bcryptjs's trailing
    NUL, repeated.  A
    password of 72 bytes or more is accepted with anything after its
    72nd byte changed. *)
Theorem login_password users email p q iat u :
  findOne_email users email = Some u -> doc_password u = pw_hash p ->
  login users true email q iat =
    if String.eqb (pw_key q) (pw_key p) then Ok (u, generateToken iat u)
    else Err 401 "Invalid email or password".
Proof.
  intros Hf Hp. unfold login. simpl. rewrite Hf, Hp.
  destruct (String.eqb_spec (pw_key q) (pw_key p)) as [E|Hne].
  - by rewrite (proj2 (pw_compare_hash p q) E).
  - destruct (pw_compare q (pw_hash p)) eqn:E; [|done].
    apply pw_compare_hash in E. contradiction.
Qed.
End Guarantees.

(** ** Sample *)

Definition alice_doc : user_doc := mkUserDoc "c1" "alice@example.com" (demo_hash "secret1") Customer.

Definition find_alice (id : string) : option user_doc :=
  if String.eqb id "c1" then Some alice_doc else None.

Lemma login_token_accepted_witness :
  0 <= 1000 <= 5000 /\ 5000 < 1000 + token_lifetime /\
  login [alice_doc] true "alice@example.com" "secret1" 1000 = Ok (alice_doc, demo_sign 1000 "c1") /\
  find_alice (doc_id alice_doc) = Some alice_doc /\
  auth find_alice (Some (bearer +:+ demo_sign 1000 "c1")) 5000 = Ok (to_user alice_doc).
Proof.
  assert (H1 : 0 <= 1000 <= 5000) by lia.
  assert (H2 : 5000 < 1000 + token_lifetime) by (vm_compute; reflexivity).
  assert (H3 : login [alice_doc] true "alice@example.com" "secret1" 1000 = Ok (alice_doc, demo_sign 1000 "c1"))
    by reflexivity.
  assert (H4 : find_alice (doc_id alice_doc) = Some alice_doc) by reflexivity.
  refine (conj H1 (conj H2 (conj H3 (conj H4 _)))).
  exact (login_token_accepted _ _ _ _ _ _ _ _ _ H1 H2 H3 H4).
Defined.

Lemma login_token_expires_witness :
  0 <= 1000 /\ 1000 + token_lifetime <= 700000 /\
  login [alice_doc] true "alice@example.com" "secret1" 1000 = Ok (alice_doc, demo_sign 1000 "c1") /\
  auth find_alice (Some (bearer +:+ demo_sign 1000 "c1")) 700000 = Err 401 "Invalid token.".
Proof.
  assert (H1 : 0 <= 1000) by lia.
  assert (H2 : 1000 + token_lifetime <= 700000) by (vm_compute; discriminate).
  assert (H3 : login [alice_doc] true "alice@example.com" "secret1" 1000 = Ok (alice_doc, demo_sign 1000 "c1"))
    by reflexivity.
  refine (conj H1 (conj H2 (conj H3 _))).
  exact (login_token_expires _ find_alice _ _ _ _ _ _ H1 H2 H3).
Defined.

(** A 72-byte password, and a user registered with it. *)
Definition a72 : string := "aaaaaaaaaaaaaaaaaaaaaaaaaaaaaaaaaaaaaaaaaaaaaaaaaaaaaaaaaaaaaaaaaaaaaaaa".
Definition carol_doc : user_doc := mkUserDoc "c3" "carol@example.com" (demo_hash a72) Customer.

(** Carol logs in with her password followed by anything. *)
Lemma login_password_witness :
  findOne_email [carol_doc] "carol@example.com" = Some carol_doc /\ doc_password carol_doc = pw_hash a72 /\
  login [carol_doc] true "carol@example.com" (a72 +:+ "-anything") 1000 = Ok (carol_doc, generateToken 1000 carol_doc).
Proof.
  assert (H1 : findOne_email [carol_doc] "carol@example.com" = Some carol_doc) by reflexivity.
  assert (H2 : doc_password carol_doc = pw_hash a72) by reflexivity.
  refine (conj H1 (conj H2 _)).
  exact (login_password _ _ a72 (a72 +:+ "-anything") 1000 _ H1 H2).
Defined.
