(* ===== verification/Services.v ===== *)
(** * Services: the service catalogue of [routes/services.js]

    The catalogue is a constant array of four services.  [GET /] returns
    it.  [GET /:id] looks a service up with [parseInt(req.params.id)].
    That call has no radix, so a parameter written ["0x..."] is read in
    hexadecimal.  Neither route is behind [auth].  *)

From S2P Require Import Prelude Js.
Open Scope Z_scope.
Open Scope maid_scope.

Record service_item : Type := mkService {
  svc_id : Z; svc_name : string; svc_description : string;
  basePrice : Z; duration : Z; category : string
}.

Definition services : list service_item :=
  [ mkService 1 "House Cleaning"
      "Regular house cleaning including dusting, vacuuming, and bathroom cleaning" 80 2 "residential";
    mkService 2 "Deep Cleaning"
      "Thorough deep cleaning including inside appliances and detailed work" 150 4 "residential";
    mkService 3 "Office Cleaning" "Professional office space cleaning" 100 3 "commercial";
    mkService 4 "Move-in/Move-out Cleaning" "Complete cleaning for moving situations" 200 5 "specialized" ].

(** ** [parseInt(s)] without a radix *)

Definition hex_digit_value (c : Ascii.ascii) : option Z :=
  let n := Ascii.nat_of_ascii c in
  if (48 <=? n)%nat && (n <=? 57)%nat then Some (Z.of_nat n - 48)
  else if (97 <=? n)%nat && (n <=? 102)%nat then Some (Z.of_nat n - 87)
  else if (65 <=? n)%nat && (n <=? 70)%nat then Some (Z.of_nat n - 55)
  else None.

Fixpoint read_hex (acc : Z) (k : nat) (s : string) : Z * nat * string :=
  match s with
  | String c r =>
      match hex_digit_value c with
      | Some d => read_hex (acc * 16 + d) (S k) r
      | None => (acc, k, s)
      end
  | EmptyString => (acc, k, EmptyString)
  end.

(** The rest of the string after a ["0x"] or ["0X"] prefix, if it has one. *)
Definition strip_hex_prefix (s : string) : option string :=
  match s with
  | String "0"%char (String x r) =>
      if Ascii.eqb x "x"%char || Ascii.eqb x "X"%char then Some r else None
  | _ => None
  end.

(** ParseInt with radix [undefined]: after white space and sign, a ["0x"]
    prefix selects radix 16, anything else radix 10. *)
Definition parseInt_auto (s : string) : jsnum :=
  let '(sg, r) := sign_split (trim_start s) in
  match strip_hex_prefix r with
  | Some h => let '(v, k, _) := read_hex 0 0 h in if (k =? 0)%nat then NaN else Num (sg * v)
  | None => let '(v, k, _) := read_digits 0 0 r in if (k =? 0)%nat then NaN else Num (sg * v)
  end.

(** ** Routes *)

(** [GET /]: the whole catalogue. *)
Definition listServices : list service_item := services.

(** [GET /:id]. *)
Definition getService (param : string) : result service_item :=
  match List.find (fun s => num_strict_eq (Num (svc_id s)) (parseInt_auto param)) services with
  | None => Err 404 "Service not found"
  | Some s => Ok s
  end.

(** ** Lemmas *)

(** A printed natural number has no hex prefix: its second character, if
    any, is a digit. *)
Lemma strip_hex_prefix_digits ds : Forall is_digit ds -> strip_hex_prefix (string_of_digits ds) = None.
Proof.
  intros Hall. destruct ds as [|d1 [|d2 ds]]; [done| |].
  - destruct (Forall_cons_1 _ _ _ Hall) as [H1 _].
    destruct (digit_cases d1 H1) as [->|[->|[->|[->|[->|[->|[->|[->|[->| ->]]]]]]]]]; reflexivity.
  - destruct (Forall_cons_1 _ _ _ Hall) as [H1 H2']. destruct (Forall_cons_1 _ _ _ H2') as [H2 _].
    simpl. destruct (digit_cases d1 H1) as [->|[->|[->|[->|[->|[->|[->|[->|[->| ->]]]]]]]]];
      try reflexivity;
      destruct (digit_cases d2 H2) as [->|[->|[->|[->|[->|[->|[->|[->|[->| ->]]]]]]]]]; reflexivity.
Qed.

Lemma parseInt_auto_decimal s :
  strip_hex_prefix (snd (sign_split (trim_start s))) = None -> parseInt_auto s = parseInt10 s.
Proof.
  unfold parseInt_auto, parseInt10. destruct (sign_split (trim_start s)) as [sg r]. simpl.
  intros ->. reflexivity.
Qed.

Lemma parseInt_auto_number_to_string n : parseInt_auto (number_to_string n) = Num n.
Proof.
  rewrite parseInt_auto_decimal; [apply parseInt10_number_to_string|].
  unfold number_to_string. destruct (Z.ltb_spec n 0).
  - simpl. apply strip_hex_prefix_digits, digits_all. lia.
  - destruct (digits_string_head n) as (d & r & Hd & Hs); [lia|].
    destruct (digit_char_facts d r Hd) as (_ & Hsp & Hsg).
    rewrite Hs. cbn [trim_start]. rewrite Hsp, Hsg. cbn [snd]. rewrite <- Hs.
    apply strip_hex_prefix_digits, digits_all. lia.
Qed.

(** ** What the routes answer *)

(** [GET /api/services/<n>] with the decimal id [n] answers the
    catalogue entry with id [n] when there is one, and 404 ["Service not
    found"] otherwise. *)
Theorem getService_printed_id n :
  getService (number_to_string n) =
  match List.find (fun s => svc_id s =? n) services with
  | Some s => Ok s
  | None => Err 404 "Service not found"
  end.
Proof.
  unfold getService. rewrite parseInt_auto_number_to_string.
  reflexivity.
Qed.

(** The id parameter is parsed loosely: ["0x2"] is read in
    hexadecimal and ["2abc"] stops at the first non-digit, so both return
    the Deep Cleaning service; ["abc"] is [NaN] and gives 404. *)
Example getService_loose_ids :
  getService "0x2" = Ok (mkService 2 "Deep Cleaning"
      "Thorough deep cleaning including inside appliances and detailed work" 150 4 "residential") /\
  getService "2abc" = getService "2" /\ getService "abc" = Err 404 "Service not found".
Proof. vm_compute. repeat split. Qed.
