(* ===== verification/Payments.v ===== *)
(** * Payments: [routes/payments.js]

    Three routes.  [POST /create-order] (behind [auth]) checks the amount,
    converts it to paise with [Math.round(amount * 100)] and asks the
    Razorpay SDK for an order.  [POST /verify] (behind [auth]) recomputes
    the HMAC-SHA256 of ["order_id|payment_id"] under the key secret and
    compares it with the signature the client sent.  [POST /webhook] is
    meant to check Razorpay's signature over the raw request body.

    The SDK call and HMAC are libraries.  [orders_create] is the SDK call:
    [None] when its promise rejects, which the handler answers with 500.
    [HmacScheme] is HMAC-SHA256 as a hex string.  An unset environment
    variable is [None]: [createHmac] then throws, and the handler's catch
    answers 500.  [JSON.parse] is the test [json_valid] on the text it
    parses.  *)

From S2P Require Import Prelude Js Booking.
Open Scope Z_scope.
Open Scope maid_scope.

Class HmacScheme : Type := { hmac_hex : string -> string -> string }.

(** [amount <= 0] for any value: both sides go through [Number]. *)
Definition js_le_zero (v : jsval) : bool :=
  match to_number v with Num z => z <=? 0 | NaN => false end.

(** [Math.round(amount * 100)] on the integer domain. *)
Definition paise (v : jsval) : jsnum :=
  match to_number v with Num z => Num (z * 100) | NaN => NaN end.

(** A destructuring default [{ x = d }]: used only for [undefined]. *)
Definition default_undef (v d : jsval) : jsval :=
  match v with JUndefined => d | _ => v end.

Record order_options : Type := mkOptions {
  o_amount : jsnum; o_currency : jsval; o_receipt : jsval; o_userId : string
}.

Record rz_order : Type := mkRzOrder { rz_id : string; rz_amount : jsnum; rz_currency : jsval }.

(** The [data] of a successful [create-order]: [orderId], [amount],
    [currency] and the public [key]. *)
Record order_reply : Type := mkReply {
  r_orderId : string; r_amount : jsnum; r_currency : jsval; r_key : option string
}.

(** The body the webhook handler receives: a [Buffer] of the raw bytes,
    or, when an earlier body parser has already consumed them, the object
    or the array that [express.json()] parsed. *)
Inductive webhook_body : Type :=
| BodyBuffer (raw : string)
| BodyObject (o : json_obj)
| BodyArray (elems : list jsval).

(** [req.body.toString('utf8')]: an object's and an array's [toString]
    ignore the encoding argument. *)
Definition body_to_string (b : webhook_body) : string :=
  match b with BodyBuffer s => s | BodyObject _ => "[object Object]" | BodyArray es => array_join es end.

Section Payments.
Context `{HmacScheme}.
Variable orders_create : order_options -> option rz_order.
(** [process.env.RAZORPAY_KEY_ID], [RAZORPAY_KEY_SECRET], [RAZORPAY_WEBHOOK_SECRET]. *)
Variable key_id key_secret webhook_secret : option string.
Variable json_valid : string -> bool.

(** The [options] object given to [razorpay.orders.create]. *)
Definition order_options_of (u : user) (body : json_obj) (now_ms : Z) : order_options :=
  {| o_amount := paise (field body "amount");
     o_currency := default_undef (field body "currency") (JString "INR");
     o_receipt := js_or (field body "receipt") (JString ("order_" +:+ number_to_string now_ms));
     o_userId := user_id u |}.

Definition createOrder (u : user) (body : json_obj) (now_ms : Z) : result order_reply :=
  let amount := field body "amount" in
  ensure (truthy amount && negb (js_le_zero amount)) else 400, "Invalid amount" ;;
  match orders_create (order_options_of u body now_ms) with
  | None => Err 500 "Payment order creation failed"
  | Some o => Ok {| r_orderId := rz_id o; r_amount := rz_amount o; r_currency := rz_currency o; r_key := key_id |}
  end.

(** The string the verify route signs: [`${order_id}|${payment_id}`]. *)
Definition signed_text (oid pid : jsval) : string := js_to_string oid +:+ "|" +:+ js_to_string pid.

Definition verifyPayment (body : json_obj) : result (jsval * jsval) :=
  let oid := field body "razorpay_order_id" in
  let pid := field body "razorpay_payment_id" in
  let sig := field body "razorpay_signature" in
  ensure (truthy oid && truthy pid && truthy sig) else 400, "Missing payment verification fields" ;;
  match key_secret with
  | None => Err 500 "Payment verification failed"
  | Some k =>
      ensure strict_eq (JString (hmac_hex k (signed_text oid pid))) sig
        else 400, "Invalid payment signature" ;;
      Ok (oid, pid)
  end.

(** The webhook; its 500 answer is [{ success: false }] with no message. *)
Definition webhook (body : webhook_body) (signature : option string) : result unit :=
  match webhook_secret with
  | None => Err 500 ""
  | Some k =>
      let digest := hmac_hex k (body_to_string body) in
      let sig := match signature with Some s => JString s | None => JUndefined end in
      ensure strict_eq (JString digest) sig else 400, "Invalid webhook signature" ;;
      ensure json_valid (body_to_string body) else 500, "" ;;
      Ok tt
  end.
End Payments.

(** ** Lemmas *)

Lemma string_to_number_empty : string_to_number "" = Num 0.
Proof. reflexivity. Qed.

(** A value whose [Number] is a non-zero integer is truthy. *)
Lemma to_number_nonzero_truthy v a : to_number v = Num a -> a <> 0 -> truthy v = true.
Proof.
  destruct v as [| |[]|[|z]|s| |es]; simpl; intros H Ha; try congruence.
  - injection H as <-. by apply negb_true_iff, Z.eqb_neq.
  - destruct (String.eqb_spec s ""); [subst; rewrite string_to_number_empty in H; congruence|done].
Qed.

(** ** What the routes do *)

Section Guarantees.
Context `{HmacScheme}.
Variable orders_create : order_options -> option rz_order.
Variable key_id key_secret webhook_secret : option string.
Variable json_valid : string -> bool.

(** C24. [create-order] refuses with 400 ["Invalid amount"] every amount
    whose [Number] is zero or negative. *)
Theorem createOrder_rejects_nonpositive u body now a :
  to_number (field body "amount") = Num a -> a <= 0 ->
  createOrder orders_create key_id u body now = Err 400 "Invalid amount".
Proof.
  intros Ha Hle. unfold createOrder, js_le_zero. rewrite Ha.
  rewrite (proj2 (Z.leb_le _ _) Hle), andb_false_r. reflexivity.
Qed.

(** C25. A positive amount of [a] rupees passes the check and the SDK is
    asked for an order of [100 * a] paise, in the requested currency (INR by
    default), for the caller.  The answer carries what the SDK returned,
    and 500 when the SDK call fails. *)
Theorem createOrder_sends_paise u body now a :
  to_number (field body "amount") = Num a -> 0 < a ->
  o_amount (order_options_of u body now) = Num (100 * a) /\
  o_userId (order_options_of u body now) = user_id u /\
  createOrder orders_create key_id u body now =
    match orders_create (order_options_of u body now) with
    | None => Err 500 "Payment order creation failed"
    | Some o => Ok {| r_orderId := rz_id o; r_amount := rz_amount o; r_currency := rz_currency o; r_key := key_id |}
    end.
Proof.
  intros Ha Hpos. unfold createOrder, order_options_of, paise, js_le_zero. rewrite Ha. simpl.
  rewrite (to_number_nonzero_truthy _ a Ha) by lia. rewrite (proj2 (Z.leb_gt _ _) Hpos).
  split; [f_equal; lia|split; reflexivity].
Qed.

Lemma verifyPayment_accepts body oid pid :
  verifyPayment key_secret body = Ok (oid, pid) <->
  oid = field body "razorpay_order_id" /\ pid = field body "razorpay_payment_id" /\
  truthy oid = true /\ truthy pid = true /\ truthy (field body "razorpay_signature") = true /\
  exists k, key_secret = Some k /\
    field body "razorpay_signature" = JString (hmac_hex k (signed_text oid pid)).
Proof.
  unfold verifyPayment.
  destruct (truthy (field body "razorpay_order_id")) eqn:Ho; cbn [andb];
    [|split; [discriminate|intros (-> & _ & H1 & _); congruence]].
  destruct (truthy (field body "razorpay_payment_id")) eqn:Hp; cbn [andb];
    [|split; [discriminate|intros (_ & -> & _ & H1 & _); congruence]].
  destruct (truthy (field body "razorpay_signature")) eqn:Hs;
    [|split; [discriminate|intros (_ & _ & _ & _ & H1 & _); congruence]].
  destruct key_secret as [k|]; [|split; [discriminate|intros (_&_&_&_&_&k&?&_); discriminate]].
  destruct (strict_eq (JString (hmac_hex k (signed_text (field body "razorpay_order_id")
      (field body "razorpay_payment_id")))) (field body "razorpay_signature")) eqn:Eq;
    rewrite strict_eq_sym in Eq.
  - apply strict_eq_string in Eq. split.
    + intros Hok. inversion Hok; subst. do 5 (split; [done|]). by exists k.
    + intros (-> & -> & _ & _ & _ & k' & [= <-] & Hsig). reflexivity.
  - apply strict_eq_string_false in Eq. split; [discriminate|].
    intros (-> & -> & _ & _ & _ & k' & [= <-] & Hsig). contradiction.
Qed.

(** C26. [verify] on every branch.  It accepts exactly a body whose three
    fields are truthy and whose signature is the HMAC, under the key
    secret, of ["order_id|payment_id"].  A missing field answers 400
    ["Missing payment verification fields"]; with the three fields present,
    an unset key secret answers 500 ["Payment verification failed"] (the
    [createHmac] call throws), and a wrong signature answers 400 ["Invalid
    payment signature"]. *)
Theorem verifyPayment_ok_iff body oid pid :
  (verifyPayment key_secret body = Ok (oid, pid) <->
   oid = field body "razorpay_order_id" /\ pid = field body "razorpay_payment_id" /\
   truthy oid = true /\ truthy pid = true /\ truthy (field body "razorpay_signature") = true /\
   exists k, key_secret = Some k /\
     field body "razorpay_signature" = JString (hmac_hex k (signed_text oid pid))) /\
  (truthy (field body "razorpay_order_id") && truthy (field body "razorpay_payment_id")
     && truthy (field body "razorpay_signature") = false ->
   verifyPayment key_secret body = Err 400 "Missing payment verification fields") /\
  (truthy (field body "razorpay_order_id") && truthy (field body "razorpay_payment_id")
     && truthy (field body "razorpay_signature") = true ->
   (key_secret = None -> verifyPayment key_secret body = Err 500 "Payment verification failed") /\
   (forall k, key_secret = Some k ->
      field body "razorpay_signature" <>
        JString (hmac_hex k (signed_text (field body "razorpay_order_id") (field body "razorpay_payment_id"))) ->
      verifyPayment key_secret body = Err 400 "Invalid payment signature")).
Proof.
  split; [|split].
  - apply verifyPayment_accepts.
  - intros Hf. unfold verifyPayment. by rewrite Hf.
  - intros Hf. split.
    + intros Hk. unfold verifyPayment. by rewrite Hf, Hk.
    + intros k Hk Hs. unfold verifyPayment. rewrite Hf, Hk. cbn [negb].
      rewrite strict_eq_sym. destruct (strict_eq _ _) eqn:E; [|done].
      apply strict_eq_string in E. contradiction.
Qed.

(** The webhook never confirms an event whose body reached it as an
    object: the digest is computed over ["[object Object]"], and even a
    matching signature ends in [JSON.parse("[object Object]")], which
    throws.  Only a raw [Buffer] body could be verified. *)
Lemma webhook_object_body_fails o signature :
  json_valid "[object Object]" = false ->
  is_ok (webhook webhook_secret json_valid (BodyObject o) signature) = false.
Proof.
  intros Hj. unfold webhook. destruct webhook_secret as [k|]; [|done]. cbn [body_to_string].
  destruct (strict_eq (JString (hmac_hex k "[object Object]"))
    (match signature with Some s => JString s | None => JUndefined end)); [|done].
  by rewrite Hj.
Qed.
End Guarantees.

(** ** Samples *)

#[export] Instance demo_hmac : HmacScheme := {
  hmac_hex k m := "hmac(" +:+ k +:+ "," +:+ m +:+ ")"
}.

Definition demo_orders (o : order_options) : option rz_order :=
  Some (mkRzOrder "order_1" (o_amount o) (o_currency o)).

Definition payer : user := mkUser "c1" Customer.

(** A stand-in for [JSON.parse] succeeding: the text is an object literal. *)
Definition demo_json_valid (s : string) : bool :=
  match s with String "{"%char _ => true | _ => false end.

Lemma createOrder_rejects_nonpositive_witness :
  to_number (field [("amount", JNumber (Num 0))] "amount") = Num 0 /\ 0 <= 0 /\
  createOrder demo_orders (Some "rzp_key") payer [("amount", JNumber (Num 0))] 0 = Err 400 "Invalid amount".
Proof.
  assert (H1 : to_number (field [("amount", JNumber (Num 0))] "amount") = Num 0) by reflexivity.
  assert (H2 : 0 <= 0) by lia.
  refine (conj H1 (conj H2 _)). exact (createOrder_rejects_nonpositive _ _ _ _ _ _ H1 H2).
Defined.

Lemma createOrder_sends_paise_witness :
  to_number (field [("amount", JNumber (Num 800))] "amount") = Num 800 /\ 0 < 800 /\
  o_amount (order_options_of payer [("amount", JNumber (Num 800))] 0) = Num (100 * 800) /\
  o_userId (order_options_of payer [("amount", JNumber (Num 800))] 0) = user_id payer /\
  createOrder demo_orders (Some "rzp_key") payer [("amount", JNumber (Num 800))] 0 =
    match demo_orders (order_options_of payer [("amount", JNumber (Num 800))] 0) with
    | None => Err 500 "Payment order creation failed"
    | Some o => Ok {| r_orderId := rz_id o; r_amount := rz_amount o; r_currency := rz_currency o;
                      r_key := Some "rzp_key" |}
    end.
Proof.
  assert (H1 : to_number (field [("amount", JNumber (Num 800))] "amount") = Num 800) by reflexivity.
  assert (H2 : 0 < 800) by lia.
  refine (conj H1 (conj H2 _)). exact (createOrder_sends_paise demo_orders _ _ _ _ _ H1 H2).
Defined.

(** ** Amounts that are words *)

(** An ASCII letter other than [I].  A string of such letters is no
    numeric literal of JavaScript (those need a digit, or [Infinity]), so
    [Number] gives [NaN] for it in the code and in the model alike. *)
Definition word_char (c : Ascii.ascii) : bool :=
  let n := Ascii.nat_of_ascii c in
  ((65 <=? n)%nat && (n <=? 90)%nat && negb (n =? 73)%nat) || ((97 <=? n)%nat && (n <=? 122)%nat).

Fixpoint all_word_chars (s : string) : bool :=
  match s with
  | EmptyString => true
  | String c r => word_char c && all_word_chars r
  end.

Definition is_word (s : string) : bool := negb (String.eqb s "") && all_word_chars s.

Lemma word_char_facts c :
  word_char c = true ->
  is_js_space c = false /\ digit_value c = None /\ c <> "-"%char /\ c <> "+"%char.
Proof. destruct c as [[] [] [] [] [] [] [] []]; vm_compute; first [discriminate | intros _; repeat split; discriminate]. Qed.

Lemma trim_end_cons_nonempty c r : is_js_space c = false -> trim_end (String c r) <> "".
Proof. simpl. intros ->. simpl. discriminate. Qed.

Lemma is_word_NaN s : is_word s = true -> string_to_number s = NaN /\ s <> "".
Proof.
  unfold is_word. destruct s as [|c r]; [discriminate|]. simpl. rewrite andb_true_iff.
  intros [Hc _]. destruct (word_char_facts c Hc) as (Hsp & Hd & Hm & Hp). split; [|discriminate].
  unfold string_to_number. simpl trim_start. rewrite Hsp.
  destruct (trim_end (String c r)) as [|c' r'] eqn:E; [by apply trim_end_cons_nonempty in E|].
  simpl in E. rewrite Hsp in E. simpl in E. injection E as <- <-.
  cbn [String.eqb]. unfold sign_split.
  destruct c as [[] [] [] [] [] [] [] []]; try (exfalso; by apply Hm); try (exfalso; by apply Hp);
    cbn [read_digits]; rewrite Hd; reflexivity.
Qed.

(** C28. The amount check lets a word through: an amount such as
    ["abc"] or ["free"] (ASCII letters, no [Infinity]) is truthy, its
    [Number] is [NaN], and [NaN <= 0] is false.  For such an amount the
    handler asks the SDK for an order of [NaN] paise and answers whatever
    the SDK does (500 when it rejects), never the 400 meant for an invalid
    amount. *)
Theorem createOrder_non_numeric_amount orders_create key_id u body now s :
  field body "amount" = JString s -> is_word s = true ->
  o_amount (order_options_of u body now) = NaN /\
  createOrder orders_create key_id u body now =
    match orders_create (order_options_of u body now) with
    | None => Err 500 "Payment order creation failed"
    | Some o => Ok {| r_orderId := rz_id o; r_amount := rz_amount o; r_currency := rz_currency o; r_key := key_id |}
    end.
Proof.
  intros Hf Hw. destruct (is_word_NaN s Hw) as [Hn Hs].
  unfold createOrder, order_options_of, paise, js_le_zero. rewrite Hf. simpl. rewrite Hn.
  split; [done|]. by rewrite (proj2 (String.eqb_neq s "")).
Qed.

Lemma createOrder_non_numeric_amount_witness :
  field [("amount", JString "abc")] "amount" = JString "abc" /\ is_word "abc" = true /\
  o_amount (order_options_of payer [("amount", JString "abc")] 0) = NaN /\
  createOrder (fun _ => None) (Some "rzp_key") payer [("amount", JString "abc")] 0
    = Err 500 "Payment order creation failed".
Proof.
  assert (H1 : field [("amount", JString "abc")] "amount" = JString "abc") by reflexivity.
  assert (H2 : is_word "abc" = true) by reflexivity.
  exact (conj H1 (conj H2
    (createOrder_non_numeric_amount (fun _ => None) (Some "rzp_key") payer _ 0 "abc" H1 H2))).
Defined.

(** A complete body while [RAZORPAY_KEY_SECRET] is unset. *)
Definition verify_body : json_obj :=
  [("razorpay_order_id", JString "order_1"); ("razorpay_payment_id", JString "pay_1");
   ("razorpay_signature", JString "sig")].

Lemma verifyPayment_ok_iff_witness :
  truthy (field verify_body "razorpay_order_id") && truthy (field verify_body "razorpay_payment_id")
    && truthy (field verify_body "razorpay_signature") = true /\
  verifyPayment None verify_body = Err 500 "Payment verification failed".
Proof.
  assert (Hf : truthy (field verify_body "razorpay_order_id") && truthy (field verify_body "razorpay_payment_id")
                 && truthy (field verify_body "razorpay_signature") = true) by reflexivity.
  exact (conj Hf (proj1 (proj2 (proj2 (verifyPayment_ok_iff None verify_body JUndefined JUndefined)) Hf) eq_refl)).
Defined.
