(* ===== verification/App.v ===== *)
(** * App: the Express application of [backend/server.js]

    [server.js] installs, in order: helmet, cors and the rate limiter,
    [express.json()] and
    [express.urlencoded()], the five routers under [/api/auth],
    [/api/users], [/api/services], [/api/bookings] and [/api/payments],
    [GET /health], and finally [notFound] and [errorHandler]
    ([middleware/errorHandler.js]).  Express runs the layers in this
    order.  A router that has no route for the rest of the path passes the
    request on to the next layer.  A body parser that fails hands its error
    to [errorHandler].

    [app_dispatch] is the layer that answers a path.  [app_layers] puts
    in front of it the rate limiter, whose verdict is an input (its window
    and limit are library configuration), and the body parsers, whose
    error [errorHandler] answers.  helmet and cors only set response
    headers on the requests modelled here.  [parse_body] is the two body
    parsers, seen from the handlers: after them [req.body] is an object,
    or an array when the JSON text is one.  The webhook route's own
    [express.raw] therefore never gets the raw bytes, which [app_webhook]
    makes precise.  *)

From S2P Require Import Prelude Js Booking Store Router Payments.
Open Scope Z_scope.
Open Scope maid_scope.

(** ** Mounts and route tables *)

Inductive mount : Type := MAuth | MUsers | MServices | MBookings | MPayments.

#[export] Instance mount_eq_dec : EqDecision mount.
Proof. solve_decision. Defined.

(** The routes each router declares, by method and pattern, in order. *)
Definition route_table (m : mount) : list (meth * list segment) :=
  match m with
  | MAuth => [(POST, [Lit "register"]); (POST, [Lit "login"]); (GET, [Lit "profile"]);
              (PUT, [Lit "profile"]); (POST, [Lit "logout"])]
  | MUsers => [(GET, [Lit "maids"])]
  | MServices => [(GET, []); (GET, [Param])]
  | MBookings => map (fun r => (r_method r, r_path r)) bookings_routes
  | MPayments => [(POST, [Lit "create-order"]); (POST, [Lit "verify"]); (POST, [Lit "webhook"])]
  end.

(** [app.use(prefix, router)], in the order of [server.js]. *)
Definition mounts : list (list string * mount) :=
  [ (["api"; "auth"], MAuth); (["api"; "users"], MUsers); (["api"; "services"], MServices);
    (["api"; "bookings"], MBookings); (["api"; "payments"], MPayments) ].

(** A mount path matches a prefix of the request path, case-insensitively. *)
Fixpoint strip_prefix (pre path : list string) : option (list string) :=
  match pre, path with
  | [], _ => Some path
  | p :: pre', s :: path' => if String.eqb (lower p) (lower s) then strip_prefix pre' path' else None
  | _ :: _, [] => None
  end.

Definition table_matches (m : meth) (path : list string) (t : list (meth * list segment)) : bool :=
  existsb (fun r => bool_decide (fst r = m) && bool_decide (is_Some (match_path (snd r) path))) t.

Inductive layer : Type :=
| ByRouter (mt : mount) (rest : list string)
| Health
| NotFound.

Fixpoint dispatch_mounts (ms : list (list string * mount)) (m : meth) (path : list string) : option layer :=
  match ms with
  | [] => None
  | (pre, mt) :: ms' =>
      match strip_prefix pre path with
      | Some rest => if table_matches m rest (route_table mt) then Some (ByRouter mt rest)
                     else dispatch_mounts ms' m path
      | None => dispatch_mounts ms' m path
      end
  end.

(** The layer of [server.js] that answers a request. *)
Definition app_dispatch (m : meth) (path : list string) : layer :=
  match dispatch_mounts mounts m path with
  | Some l => l
  | None => if bool_decide (m = GET) && bool_decide (is_Some (match_path [Lit "health"] path)) then Health else NotFound
  end.

(** ** Errors *)

(** [req.originalUrl] of a path. *)
Fixpoint original_url (path : list string) : string :=
  match path with
  | [] => ""
  | s :: path' => "/" +:+ s +:+ original_url path'
  end.

(** [errorHandler]: [err.statusCode || 500] and [err.message || 'Server Error']. *)
Definition errorHandler (statusCode message : jsval) : Z * string :=
  (match statusCode with JNumber (Num c) => if c =? 0 then 500 else c | _ => 500 end,
   match message with JString m => if String.eqb m "" then "Server Error" else m | _ => "Server Error" end).

(** [notFound] creates the error that [errorHandler] answers. *)
Definition notFound (path : list string) : jsval * jsval :=
  (JNumber (Num 404), JString ("Not Found - " +:+ original_url path)).

(** ** Body parsing *)

Inductive content_type : Type := CTJson | CTForm | CTOther.

(** What [express.json()] yields: with its default [strict: true] only
    a JSON object or a JSON array is accepted. *)
Inductive parsed_body : Type := PObj (o : json_obj) | PArr (elems : list jsval).

(** The body the handlers see after [express.json()] and
    [express.urlencoded()].  For its content type a parser yields the
    parsed body or its error, with the library's status and message,
    which [errorHandler] answers.  [urlencoded] always yields an object.
    A body that neither parser takes leaves [req.body] as [{}]. *)
Definition parse_body (json_parse : string -> result parsed_body) (form_parse : string -> result json_obj)
    (ct : content_type) (raw : string) : result parsed_body :=
  match ct with
  | CTJson => json_parse raw
  | CTForm => o <- form_parse raw ;; Ok (PObj o)
  | CTOther => Ok (PObj [])
  end.

Definition webhook_body_of (b : parsed_body) : webhook_body :=
  match b with PObj o => BodyObject o | PArr es => BodyArray es end.

(** ** The layers ahead of the routers *)

Inductive app_answer : Type :=
| AnsRouter (mt : mount) (rest : list string)
| AnsHealth
| AnsNotFound
| AnsError (code : Z) (msg : string).

(** The rate limiter ([Some] answer when it refuses the request), then
    the body parsers (their error goes to [errorHandler]), then the
    routers, the health check and [notFound]. *)
Definition app_layers (limiter : option (Z * string)) (parsed : result parsed_body)
    (m : meth) (path : list string) : app_answer :=
  match limiter with
  | Some (c, msg) => AnsError c msg
  | None =>
      match parsed with
      | Err c msg => let '(c', msg') := errorHandler (JNumber (Num c)) (JString msg) in AnsError c' msg'
      | Ok _ =>
          match app_dispatch m path with
          | ByRouter mt rest => AnsRouter mt rest
          | Health => AnsHealth
          | NotFound => AnsNotFound
          end
      end
  end.

(** [POST /api/payments/webhook] through the whole app: the body parsers
    run first, then the router's [express.raw], which finds the body
    already read and leaves the object in place. *)
Definition app_webhook `{HmacScheme} (webhook_secret : option string) (json_valid : string -> bool)
    (json_parse : string -> result parsed_body) (form_parse : string -> result json_obj)
    (ct : content_type) (raw : string) (signature : option string) : result unit :=
  b <- parse_body json_parse form_parse ct raw ;;
  webhook webhook_secret json_valid (webhook_body_of b) signature.

(** The value of a parse that succeeded. *)
Definition Some_of_ok {A : Type} (r : result A) : option A := match r with Ok a => Some a | Err _ _ => None end.

(** ** Lemmas *)

(** The app's view of a router's table agrees with the router's own
    first-match search. *)
Lemma table_matches_route rs m path :
  table_matches m path (map (fun r => (r_method r, r_path r)) rs) = bool_decide (is_Some (route_request rs m path)).
Proof.
  induction rs as [|r rs IH]; [done|]. cbn [map table_matches existsb route_request fst snd].
  fold (table_matches m path (map (fun r => (r_method r, r_path r)) rs)). rewrite IH.
  destruct (bool_decide (r_method r = m)); simpl; [|done].
  destruct (match_path (r_path r) path); simpl.
  - by rewrite ?bool_decide_eq_true_2 by eauto.
  - by rewrite ?(bool_decide_eq_false_2 (is_Some None)) by (by intros [? ?]).
Qed.

Lemma app_dispatch_bookings m rest :
  app_dispatch m ("api" :: "bookings" :: rest) =
  if table_matches m rest (route_table MBookings) then ByRouter MBookings rest else NotFound.
Proof.
  unfold app_dispatch. cbn [dispatch_mounts mounts strip_prefix lower ascii_lower].
  vm_compute (String.eqb _ _). cbn iota.
  destruct (table_matches m rest (route_table MBookings)); [reflexivity|].
  vm_compute (String.eqb _ _). cbn iota. by destruct m.
Qed.

(** A webhook call that the handler confirms came with an array body,
    signed over the array's text. *)
Lemma webhook_confirms_array `{HmacScheme} webhook_secret json_valid b signature :
  json_valid "[object Object]" = false ->
  webhook webhook_secret json_valid (webhook_body_of b) signature = Ok tt ->
  exists k es, webhook_secret = Some k /\ b = PArr es /\ signature = Some (hmac_hex k (array_join es)).
Proof.
  intros Hj Hw. destruct b as [o|es].
  - pose proof (webhook_object_body_fails webhook_secret json_valid o signature Hj) as Hf.
    cbn [webhook_body_of] in Hw. by rewrite Hw in Hf.
  - revert Hw. unfold webhook. destruct webhook_secret as [k|]; [|discriminate]. cbn [webhook_body_of body_to_string].
    destruct (strict_eq _ _) eqn:E; [|discriminate]. intros _. exists k, es. split; [done|]. split; [done|].
    rewrite strict_eq_sym in E. destruct signature as [sg|]; [|discriminate].
    apply strict_eq_string in E. by injection E as ->.
Qed.

(** ** What the app does *)

(** C27. No Razorpay event sent to [POST /api/payments/webhook] is ever
    confirmed.  The app-wide body parsers run before the route's
    [express.raw], so the handler never sees the raw bytes.  For a JSON
    object, the form of every Razorpay event, it hashes ["[object
    Object]"] and [JSON.parse] of that text throws: the answer is 400 or
    500.  The handler confirms a request only when its body is a JSON array
    and the signature is the HMAC of the array's comma-joined elements,
    never of the bytes that were sent. *)
Theorem app_webhook_confirms_only_arrays `{HmacScheme} webhook_secret json_valid json_parse form_parse ct raw signature :
  json_valid "[object Object]" = false ->
  app_webhook webhook_secret json_valid json_parse form_parse ct raw signature = Ok tt ->
  exists k es, webhook_secret = Some k /\ parse_body json_parse form_parse ct raw = Ok (PArr es) /\
    signature = Some (hmac_hex k (array_join es)).
Proof.
  intros Hj. unfold app_webhook. destruct (parse_body json_parse form_parse ct raw) as [b|c m]; [|discriminate].
  cbn [rbind]. intros Hw. destruct (webhook_confirms_array _ _ _ _ Hj Hw) as (k & es & Hk & -> & Hs). eauto.
Qed.

(** [JSON.parse] that accepts everything but ["[object Object]"], and the
    body [[1]], signed over ["1"]. *)
Definition lenient_json (s : string) : bool := negb (String.eqb s "[object Object]").

Lemma app_webhook_confirms_only_arrays_witness :
  lenient_json "[object Object]" = false /\
  app_webhook (Some "whsec") lenient_json (fun _ => Ok (PArr [JNumber (Num 1)])) (fun _ => Ok []) CTJson "[1]"
    (Some (hmac_hex "whsec" "1")) = Ok tt /\
  exists k es, Some "whsec" = Some k /\
    parse_body (fun _ => Ok (PArr [JNumber (Num 1)])) (fun _ => Ok []) CTJson "[1]" = Ok (PArr es) /\
    Some (hmac_hex "whsec" "1") = Some (hmac_hex k (array_join es)).
Proof.
  assert (H1 : lenient_json "[object Object]" = false) by reflexivity.
  assert (H2 : app_webhook (Some "whsec") lenient_json (fun _ => Ok (PArr [JNumber (Num 1)])) (fun _ => Ok []) CTJson
                 "[1]" (Some (hmac_hex "whsec" "1")) = Ok tt) by reflexivity.
  exact (conj H1 (conj H2 (app_webhook_confirms_only_arrays _ _ _ _ _ _ _ H1 H2))).
Defined.

(** C29. A request under [/api/bookings] that the rate limiter admits and
    whose body the parsers accept reaches the bookings router exactly when
    the router's own first-match search finds a route for the rest of the
    path; otherwise it falls through every later layer to [notFound].  A
    request the limiter refuses, or whose body does not parse, is answered
    before any router. *)
Theorem app_bookings_paths m rest :
  (forall b, app_layers None (Ok b) m ("api" :: "bookings" :: rest) =
     if bool_decide (is_Some (route_request bookings_routes m rest)) then AnsRouter MBookings rest
     else AnsNotFound) /\
  (forall limiter parsed, (limiter <> None \/ ~ is_Some (Some_of_ok parsed)) ->
     exists c msg, app_layers limiter parsed m ("api" :: "bookings" :: rest) = AnsError c msg).
Proof.
  split.
  - intros b. unfold app_layers. rewrite app_dispatch_bookings. cbn [route_table].
    rewrite table_matches_route. by case_bool_decide.
  - intros [[c msg]|] parsed Hr; [by eexists _, _|].
    destruct Hr as [Hr|Hr]; [done|]. destruct parsed as [b|c msg]; [by destruct Hr; eexists|].
    cbn. by eexists _, _.
Qed.

(** A request the limiter refuses never reaches the bookings router. *)
Lemma app_bookings_paths_witness :
  (Some (429, "Too many requests") <> None \/ ~ is_Some (Some_of_ok (Ok (PObj [])))) /\
  exists c msg, app_layers (Some (429, "Too many requests")) (Ok (PObj [])) GET ("api" :: "bookings" :: []) = AnsError c msg.
Proof.
  assert (H : Some (429, "Too many requests") <> None \/ ~ is_Some (Some_of_ok (Ok (PObj [])))) by (left; discriminate).
  exact (conj H (proj2 (app_bookings_paths GET []) _ _ H)).
Defined.
