(* ===== verification/Dashboard.v ===== *)
(** * Dashboard: the maid's and the customer's dashboards of the frontend

    [frontend/src/pages/MaidDashboard.js] loads [GET /api/bookings] and
    [GET /api/bookings/stats].  It splits the bookings into three lists by
    their [status] string: pending, active ([confirmed] or [in_progress])
    and completed.  Each card carries buttons that send
    [PUT /api/bookings/:id/status] with a fixed status.
    [CustomerDashboard.js] loads the stats only.

    The backend side of every request is the [Router] model.  So the
    theorems here are end to end: what the page sends and what the backend
    answers.  Axios rejects any answer whose status is not 2xx, and the
    page's [catch] decides what is shown.

    The last definitions make the maid's page a state machine: its state
    [maid_page], the loads, [refresh_all], a button [press] (the request,
    then [refreshAll] or an alert) and a [maid_session] of presses.  The
    invariant [synced] says the page shows the store as her own actions
    left it.  A request by someone else in between is not seen until the
    next refresh. *)

From S2P Require Import Prelude Js Booking Store Router.
Open Scope Z_scope.
Open Scope maid_scope.

(** ** The maid's three lists (MaidDashboard.js, [loadBookings]) *)

(** [b.status === s] on the JSON of a booking. *)
Definition status_is (b : booking) (s : string) : bool :=
  String.eqb (status_to_string (bstatus b)) s.

Definition pending_list (l : list booking) : list booking :=
  List.filter (fun b => status_is b "pending") l.

Definition active_list (l : list booking) : list booking :=
  List.filter (fun b => status_is b "confirmed" || status_is b "in_progress") l.

Definition completed_list (l : list booking) : list booking :=
  List.filter (fun b => status_is b "completed") l.

(** ** Buttons *)

Inductive section : Type := SPending | SActive | SCompleted.

(** The statuses the buttons of a card send: Accept and Decline on a
    pending card, Start on a confirmed one and Complete on every active
    card that is not completed, nothing on a completed card. *)
Definition card_actions (sec : section) (b : booking) : list status :=
  match sec with
  | SPending => [Confirmed; Declined]
  | SActive => (if status_is b "confirmed" then [InProgress] else [])
               ++ (if negb (status_is b "completed") then [Completed] else [])
  | SCompleted => []
  end.

(** Every button of the page, with the booking of its card. *)
Definition dashboard_buttons (l : list booking) : list (booking * status) :=
  flat_map (fun b => map (pair b) (card_actions SPending b)) (pending_list l) ++
  flat_map (fun b => map (pair b) (card_actions SActive b)) (active_list l) ++
  flat_map (fun b => map (pair b) (card_actions SCompleted b)) (completed_list l).

(** [updateStatus(id, status)]: [axios.put(`.../bookings/${id}/status`,
    { status })] with the maid's token, answered by the bookings router. *)
Definition click (d : db) (u : user) (b : booking) (s : status) (now : Z) : option (response * db) :=
  bookings_router d PUT [number_to_string (booking_id b); "status"] (Ok u)
    [("status", JString (status_to_string s))] now.

(** ** The stats cards *)

(** Axios resolves on a 2xx status and rejects on every other one. *)
Definition axios_ok (r : response) : bool := (200 <=? code r) && (code r <? 300).

Definition zero_stats : stats := mkStats 0 0 0 0.

(** [loadStats] of either dashboard: [setStats(data?.data || ...)] with
    the [data] of a 2xx answer, or, when axios rejects, the previous
    summary and [e.response.data.message || 'Failed to load stats']
    ([CustomerDashboard] shows it, [MaidDashboard] is silent).  A request
    that no router takes is answered by [notFound] with 404 and rejected
    too. *)
Definition loadStats (prev : payload) (r : option (response * db)) : payload * option string :=
  match r with
  | Some (resp, _) =>
      if axios_ok resp then (body resp, None)
      else (prev, Some (match body resp with
                        | PMessage m => if String.eqb m "" then "Failed to load stats" else m
                        | _ => "Failed to load stats"
                        end))
  | None => (prev, Some "Not Found - /api/bookings/stats")
  end.

(** The summary a dashboard shows after its first load, from the initial
    [useState] zeros. *)
Definition dashboard_stats (d : db) (u : user) (now : Z) : payload * option string :=
  loadStats (PStats zero_stats) (bookings_router d GET ["stats"] (Ok u) [] now).

(** ** The maid's page as a state machine *)

(** The page's state: the three lists, the summary, [loading] and [err]. *)
Record maid_page : Type := mkMaidPage {
  mp_pending : list booking; mp_active : list booking; mp_completed : list booking;
  mp_summary : payload; mp_loading : bool; mp_err : string
}.

(** The first render: empty lists, the zero summary, loading. *)
Definition initial_maid_page : maid_page := mkMaidPage [] [] [] (PStats zero_stats) true "".

(** [loadBookings]: on a 2xx answer the three lists of
    [data?.data?.bookings || []] and no error; on a rejection the lists as
    they were and [e?.response?.data?.message || 'Failed to load
    bookings']. *)
Definition load_bookings (p : maid_page) (r : option (response * db)) : maid_page :=
  match r with
  | Some (resp, _) =>
      if axios_ok resp then
        let l := match body resp with PBookings l => l | _ => [] end in
        mkMaidPage (pending_list l) (active_list l) (completed_list l) (mp_summary p) false ""
      else
        mkMaidPage (mp_pending p) (mp_active p) (mp_completed p) (mp_summary p) false
          (match body resp with
           | PMessage m => if String.eqb m "" then "Failed to load bookings" else m
           | _ => "Failed to load bookings"
           end)
  | None => mkMaidPage (mp_pending p) (mp_active p) (mp_completed p) (mp_summary p) false "Not Found - /api/bookings"
  end.

(** The maid page's [loadStats]: [setSummary(data?.data || ...)] on a 2xx
    answer, silent otherwise. *)
Definition load_summary (p : maid_page) (r : option (response * db)) : maid_page :=
  match r with
  | Some (resp, _) =>
      if axios_ok resp
      then mkMaidPage (mp_pending p) (mp_active p) (mp_completed p) (body resp) (mp_loading p) (mp_err p)
      else p
  | None => p
  end.

(** [refreshAll]: both loads against the same store; they set disjoint
    parts of the state, so their order does not matter. *)
Definition refresh_all (d : db) (u : user) (now : Z) (p : maid_page) : maid_page :=
  load_summary (load_bookings p (bookings_router d GET [] (Ok u) [] now))
               (bookings_router d GET ["stats"] (Ok u) [] now).

(** [updateStatus(id, status)] of the page: the request, then [refreshAll]
    when it succeeds, or the [alert] with the answer's message. *)
Definition press (d : db) (u : user) (p : maid_page) (b : booking) (s : status) (now : Z)
    : db * maid_page * option string :=
  match click d u b s now with
  | Some (resp, d') =>
      if axios_ok resp then (d', refresh_all d' u now p, None)
      else (d', p, Some (match body resp with
                         | PMessage m => if String.eqb m "" then "Failed to update status" else m
                         | _ => "Failed to update status"
                         end))
  | None => (d, p, Some "Failed to update status")
  end.

(** A maid's session: her button presses, each at its time, in order. *)
Fixpoint maid_session (d : db) (u : user) (p : maid_page) (cs : list (booking * status * Z)) : db * maid_page :=
  match cs with
  | [] => (d, p)
  | (b, s, now) :: cs' => let '(d', p', _) := press d u p b s now in maid_session d' u p' cs'
  end.

(** The four cards: [String(summary.pending)], [String(summary.completed)],
    the fixed ["₹0"] of "This Month", and the rating text
    [user?.profile?.rating?.average?.toFixed?.(1) || '4.8'], given as the
    formatted average when the user object carries one. *)
Definition maid_cards (summary : payload) (rating : option string) : list (string * string) :=
  let field_of (f : stats -> Z) := match summary with PStats s => number_to_string (f s) | _ => "undefined" end in
  [("Pending Requests", field_of st_pending); ("Completed Jobs", field_of st_completed);
   ("This Month", "₹0");
   ("Rating", match rating with Some r => if String.eqb r "" then "4.8" else r | None => "4.8" end)].

(** The page shows the store: its lists are the partition of the maid's
    bookings, and the summary is still the zeros. *)
Definition synced (d : db) (u : user) (p : maid_page) : Prop :=
  mp_pending p = pending_list (user_bookings d u) /\ mp_active p = active_list (user_bookings d u) /\
  mp_completed p = completed_list (user_bookings d u) /\ mp_summary p = PStats zero_stats.

(** ** Lemmas *)

Lemma status_is_iff b s : status_is b (status_to_string s) = true <-> bstatus b = s.
Proof.
  unfold status_is. rewrite String.eqb_eq.
  split; [|by intros ->]. destruct (bstatus b), s; simpl; congruence.
Qed.

(** A button's booking is on the page, and its status is one of four
    (status, request) pairs. *)
Lemma dashboard_buttons_cases l b s :
  In (b, s) (dashboard_buttons l) ->
  In b l /\
  ((bstatus b = Pending /\ (s = Confirmed \/ s = Declined)) \/
   (bstatus b = Confirmed /\ (s = InProgress \/ s = Completed)) \/
   (bstatus b = InProgress /\ s = Completed)).
Proof.
  unfold dashboard_buttons, pending_list, active_list, completed_list.
  rewrite !in_app_iff, !in_flat_map.
  intros [(b0 & Hb & Hs)|[(b0 & Hb & Hs)|(b0 & Hb & Hs)]];
    apply filter_In in Hb as [Hin Hst]; apply in_map_iff in Hs as (s0 & Hp & Hs); injection Hp as <- <-;
    split; try done; unfold card_actions, status_is in *;
    destruct (bstatus b0); simpl in *; intuition congruence.
Qed.

(** A click reaches [updateStatus] with the printed id and the status. *)
Lemma click_updateStatus d u b s now :
  click d u b s now =
  Some (run d (updateStatus d u (number_to_string (booking_id b)) (JString (status_to_string s)) now)).
Proof. reflexivity. Qed.

(** A maid's own booking passes the ownership check of [authorize]. *)
Lemma maid_owns d u b :
  user_role u = Maid -> In b (user_bookings d u) -> strict_eq (maidId b) (JString (user_id u)) = true.
Proof. unfold user_bookings. intros ->. by intros [_ ?]%filter_In. Qed.

(** ** What the dashboards show *)

(** C30. Every button of the maid dashboard reaches the backend's status
    handler for the booking of its card.  Each is accepted with 200 and the
    new status, with one exception: Complete on a confirmed booking, which
    the page offers and the backend refuses with 400. *)
Theorem maid_buttons_answer d u b s now :
  ids_unique d -> user_role u = Maid -> In (b, s) (dashboard_buttons (user_bookings d u)) ->
  option_map fst (click d u b s now) =
  Some (if bool_decide (bstatus b = Confirmed /\ s = Completed)
        then mkResp 400 (PMessage "Invalid transition from confirmed to completed")
        else mkResp 200 (PBooking (set_status b s now))).
Proof.
  intros Hu Hr Hin. pose proof (maid_owns d u b Hr (proj1 (dashboard_buttons_cases _ _ _ Hin))) as Hown.
  apply dashboard_buttons_cases in Hin as [Hin Hcases].
  assert (Hb : In b (bookings d)) by (unfold user_bookings in Hin; rewrite Hr in Hin; by apply filter_In in Hin as [? _]).
  rewrite click_updateStatus, (updateStatus_by_id d u b s now Hu Hb). unfold authorize. rewrite Hr, Hown.
  destruct Hcases as [[Hs [-> | ->]]|[[Hs [-> | ->]]|[Hs ->]]]; rewrite Hs; reflexivity.
Qed.

(** [GET /stats] is taken by [GET /:id]: 404 ["Booking not found"],
    and the store is unchanged. *)
Lemma stats_request_404 d u now :
  bookings_router d GET ["stats"] (Ok u) [] now = Some (mkResp 404 (PMessage "Booking not found"), d).
Proof.
  unfold bookings_router. rewrite route_stats_path.
  change (call_handler d HGet ["stats"] u [] now) with (getBooking d u "stats").
  unfold getBooking. rewrite parseInt10_stats, find_booking_NaN. reflexivity.
Qed.

(** Both dashboards keep their initial zeros; the customer's page shows
    "Booking not found". *)
Lemma dashboard_stats_stay_zero d u now :
  dashboard_stats d u now = (PStats zero_stats, Some "Booking not found").
Proof. unfold dashboard_stats. by rewrite stats_request_404. Qed.

Lemma updateStatus_ok_code d u param st now c q d' :
  updateStatus d u param st now = Ok (c, q, d') -> c = 200.
Proof.
  unfold updateStatus. destruct (parse_status st); [|discriminate].
  destruct (find_index d _) as [[i b]|]; [|discriminate].
  destruct (authorize u b _) as [[]|]; simpl; congruence.
Qed.

(** A refused press leaves the store as it was. *)
Lemma click_refused_store d u b s now resp d' :
  click d u b s now = Some (resp, d') -> axios_ok resp = false -> d' = d.
Proof.
  rewrite click_updateStatus. destruct (updateStatus _ _ _ _ _) as [[[c q] d'']|c m] eqn:E;
    intros [= <- <-]; [|done].
  apply updateStatus_ok_code in E as ->. discriminate.
Qed.

Lemma refresh_all_synced d u now p : mp_summary p = PStats zero_stats -> synced d u (refresh_all d u now p).
Proof.
  intros Hs. unfold refresh_all. rewrite stats_request_404.
  assert (Hl : bookings_router d GET [] (Ok u) [] now = Some (mkResp 200 (PBookings (user_bookings d u)), d))
    by reflexivity.
  rewrite Hl. cbn. by repeat split.
Qed.

Lemma press_synced d u p b s now : synced d u p -> synced (press d u p b s now).1.1 u (press d u p b s now).1.2.
Proof.
  intros Hp. unfold press. destruct (click d u b s now) as [[resp d']|] eqn:E; [|done].
  destruct (axios_ok resp) eqn:Ho; simpl.
  - apply refresh_all_synced. apply Hp.
  - by rewrite (click_refused_store _ _ _ _ _ _ _ E Ho).
Qed.

Lemma maid_session_synced d u p cs : synced d u p -> synced (maid_session d u p cs).1 u (maid_session d u p cs).2.
Proof.
  revert d p. induction cs as [|[[b s] t] cs IH]; intros d p Hp; [done|]. simpl.
  pose proof (press_synced d u p b s t Hp) as Hn.
  destruct (press d u p b s t) as [[d' p'] a]. by apply IH.
Qed.

(** C31. The maid's page always shows the store as the maid's own
    actions left it.  After the first load and after any sequence of
    button presses, accepted or refused, its three lists are exactly the
    partition of her bookings in the current store.  Its summary cards,
    fed by [GET /stats], never leave their initial zeros. *)
Theorem maid_page_in_sync d u now cs :
  synced (maid_session d u (refresh_all d u now initial_maid_page) cs).1 u
         (maid_session d u (refresh_all d u now initial_maid_page) cs).2.
Proof. apply maid_session_synced. by apply refresh_all_synced. Qed.

(** A declined or cancelled booking is on none of the maid's three
    lists, and every other booking is on exactly the list of its status. *)
Theorem maid_lists_partition l b :
  In b l ->
  (In b (pending_list l) <-> bstatus b = Pending) /\
  (In b (active_list l) <-> bstatus b = Confirmed \/ bstatus b = InProgress) /\
  (In b (completed_list l) <-> bstatus b = Completed).
Proof.
  intros Hin. unfold pending_list, active_list, completed_list. rewrite !filter_In.
  unfold status_is. destruct (bstatus b); simpl; intuition congruence.
Qed.

(** ** Samples *)

(** Maria's page over a store with one booking of each status she acts on. *)
Definition store_dash : db :=
  {| bookings := [sample_booking 1 Pending 80; sample_booking 2 Confirmed 150; sample_booking 3 InProgress 100;
                  sample_booking 4 Declined 80];
     nextBookingId := 5 |}.

Lemma maid_buttons_answer_witness :
  ids_unique store_dash /\ user_role maria = Maid /\
  In (sample_booking 2 Confirmed 150, Completed) (dashboard_buttons (user_bookings store_dash maria)) /\
  option_map fst (click store_dash maria (sample_booking 2 Confirmed 150) Completed 7) =
  Some (mkResp 400 (PMessage "Invalid transition from confirmed to completed")).
Proof.
  assert (H1 : ids_unique store_dash) by (unfold ids_unique; decide_prop).
  assert (H2 : user_role maria = Maid) by reflexivity.
  assert (H3 : In (sample_booking 2 Confirmed 150, Completed) (dashboard_buttons (user_bookings store_dash maria)))
    by (vm_compute; tauto).
  refine (conj H1 (conj H2 (conj H3 _))). exact (maid_buttons_answer _ _ _ _ 7 H1 H2 H3).
Defined.

Lemma maid_lists_partition_witness :
  In (sample_booking 4 Declined 80) (bookings store_dash) /\
  ((In (sample_booking 4 Declined 80) (pending_list (bookings store_dash)) <-> bstatus (sample_booking 4 Declined 80) = Pending) /\
   (In (sample_booking 4 Declined 80) (active_list (bookings store_dash)) <->
      bstatus (sample_booking 4 Declined 80) = Confirmed \/ bstatus (sample_booking 4 Declined 80) = InProgress) /\
   (In (sample_booking 4 Declined 80) (completed_list (bookings store_dash)) <-> bstatus (sample_booking 4 Declined 80) = Completed)).
Proof.
  assert (H : In (sample_booking 4 Declined 80) (bookings store_dash)) by (simpl; tauto).
  exact (conj H (maid_lists_partition _ _ H)).
Defined.

(** However many requests are pending, the maid's Pending Requests card
    reads 0 after any session of presses. *)
Lemma maid_pending_card_zero d u now cs rating :
  List.In ("Pending Requests", "0")
    (maid_cards (mp_summary (maid_session d u (refresh_all d u now initial_maid_page) cs).2) rating).
Proof.
  destruct (maid_session_synced d u _ cs (refresh_all_synced d u now initial_maid_page eq_refl)) as (_ & _ & _ & ->).
  by left.
Qed.
