(* ===== verification/Views.v ===== *)
(** * Views: what the pages render from the bookings

    Two pages show bookings as the back end stores them.
    [frontend/src/pages/BookingHistory.js] loads [GET /api/bookings] and
    shows one table row per booking.  The [BookingCard] of
    [MaidDashboard.js] shows one card per booking of the maid's three lists
    (see [Dashboard]).  Both put the booking's [service], [date], [time],
    [address] and [amount] in JSX text, and its status through a class
    table and [status.replace('_', ' ')].

    React renders a string or a number in text position as its text and
    [null], [undefined] or a boolean as nothing, and an array as its
    elements one after the other.  An object there, also inside an array,
    throws
    ("Objects are not valid as a React child"), and with no error boundary
    the page does not render at all.  [render_text] is that rule: [None]
    is the throw, and the view of a page is [None] when one of its rows
    throws ([mapM] of the option monad).

    [POST /api/bookings] stores [service], [date], [time] and [address] as
    the request sent them and only checks that they are truthy, and an
    object is truthy.  So a customer can store a booking that no page can
    render (the last section).

    The file also holds the other pages' link choices: the hero and
    closing buttons of [Home.js] and its service cards, and the cards of
    [CustomerDashboard.js].  *)

From S2P Require Import Prelude Js Booking Store Router Payments Dashboard.
Open Scope Z_scope.
Open Scope maid_scope.

(** ** Text in JSX *)

Fixpoint render_text (v : jsval) : option string :=
  match v with
  | JString s => Some s
  | JNumber n => Some (js_to_string (JNumber n))
  | JUndefined | JNull | JBool _ => Some ""
  | JObject => None
  | JArray es =>
      (fix children (es : list jsval) : option string :=
         match es with
         | [] => Some ""
         | e :: es' => x ← render_text e; r ← children es'; Some (x +:+ r)
         end) es
  end.

(** A value that holds an object, at its top or in an array. *)
Fixpoint holds_object (v : jsval) : bool :=
  match v with
  | JObject => true
  | JArray es => existsb holds_object es
  | _ => false
  end.

(** [s.replace('_', ' ')]: a string pattern replaces its first match only. *)
Fixpoint replace_first (c r : Ascii.ascii) (s : string) : string :=
  match s with
  | EmptyString => EmptyString
  | String x s' => if Ascii.eqb x c then String r s' else String x (replace_first c r s')
  end.

Definition status_label (s : status) : string := replace_first "_" " " (status_to_string s).

(** [statusClass] of [BookingHistory.js]; every status has an entry. *)
Definition status_class (s : status) : string :=
  match s with
  | Completed => "bg-green-100 text-green-800"
  | InProgress => "bg-yellow-100 text-yellow-800"
  | Confirmed => "bg-blue-100 text-blue-800"
  | Pending => "bg-gray-100 text-gray-800"
  | Declined | Cancelled => "bg-red-100 text-red-800"
  end.

Definition rupee : string := "₹".

(** [{b.service || 'Cleaning Service'}], [{b.date}], [{b.time}] and
    [{b.address}], which both pages render. *)
Definition render_fields (b : booking) : option (string * string * string * string) :=
  s ← render_text (js_or (service b) (JString "Cleaning Service"));
  dt ← render_text (date b);
  tm ← render_text (time b);
  ad ← render_text (address b);
  Some (s, dt, tm, ad).

(** ** BookingHistory.js *)

Record history_row : Type := mkRow {
  row_service : string; row_date : string; row_time : string; row_address : string;
  row_amount : string; row_class : string; row_label : string
}.

(** One [<tr>]: [b.service || 'Cleaning Service'], the date, time and
    address, [₹{b.amount}] and the status. *)
Definition history_row_of (b : booking) : option history_row :=
  '(s, dt, tm, ad) ← render_fields b;
  Some (mkRow s dt tm ad (rupee +:+ number_to_string (amount b)) (status_class (bstatus b)) (status_label (bstatus b))).

(** The page's state: [bookings], [loading] and [err]. *)
Record history : Type := mkHistory { h_bookings : list booking; h_loading : bool; h_err : string }.

(** [load]: on a 2xx answer [data?.data?.bookings || []] and no error; on
    a rejection the previous rows and [e?.response?.data?.message ||
    'Failed to load bookings']. *)
Definition history_load (prev : history) (r : option (response * db)) : history :=
  match r with
  | Some (resp, _) =>
      if axios_ok resp then
        mkHistory (match body resp with PBookings l => l | _ => [] end) false ""
      else
        mkHistory (h_bookings prev)  false
          (match body resp with
           | PMessage m => if String.eqb m "" then "Failed to load bookings" else m
           | _ => "Failed to load bookings"
           end)
  | None => mkHistory (h_bookings prev) false "Not Found - /api/bookings"
  end.

(** The table: its rows, and whether the "No bookings found." row shows. *)
Definition history_view (h : history) : option (list history_row * bool) :=
  rows ← mapM history_row_of (h_bookings h);
  Some (rows, bool_decide (h_bookings h = []) && negb (h_loading h)).

(** The page after mounting with the caller's token. *)
Definition history_page (d : db) (u : result user) (now : Z) : history :=
  history_load (mkHistory [] true "") (bookings_router d GET [] u [] now).

(** ** MaidDashboard.js, [BookingCard] *)

(** The card's text: service, date, time, address, [₹{item.amount}] (the
    amount is always a number) and the status.  The back end's bookings
    have no [customerName], so that line is never shown. *)
Definition maid_card_of (b : booking) : option (list string) :=
  '(s, dt, tm, ad) ← render_fields b;
  Some [s; dt; tm; ad; rupee +:+ number_to_string (amount b); status_label (bstatus b)].

(** The three sections of the page, in their order. *)
Definition maid_dashboard_view (l : list booking) : option (list (list string)) :=
  mapM maid_card_of (pending_list l ++ active_list l ++ completed_list l).

(** ** Home.js and CustomerDashboard.js *)

(** The hero buttons: for a signed-in customer "Book a Service", for any
    other signed-in role "View Requests" on the maid dashboard, and for a
    visitor "Get Started" and "Sign In".  The closing "Sign Up Today" is
    shown to visitors only. *)
Definition home_links (u : option role) : list (string * string) :=
  match u with
  | Some Customer => [("/customer/book-service", "Book a Service")]
  | Some _ => [("/maid/dashboard", "View Requests")]
  | None => [("/register", "Get Started"); ("/login", "Sign In"); ("/register", "Sign Up Today")]
  end.

(** The service cards of the home page, with their printed prices. *)
Definition home_services : list (string * string) :=
  [("House Cleaning", "$80"); ("Deep Cleaning", "$150"); ("Office Cleaning", "$100"); ("Move-in/out", "$200")].

(** The four cards of [CustomerDashboard.js]; [toLocaleString] is the
    browser's number formatting. *)
Definition customer_cards (to_locale : Z -> string) (s : stats) : list (string * string) :=
  [("Total Bookings", number_to_string (st_total s)); ("Completed", number_to_string (st_completed s));
   ("Pending", number_to_string (st_pending s)); ("Total Spent", rupee +:+ to_locale (st_totalSpent s))].

(** ** Lemmas *)

(** A field that holds an object. *)
Definition object_field (b : booking) : Prop :=
  holds_object (service b) = true \/ holds_object (date b) = true \/
  holds_object (time b) = true \/ holds_object (address b) = true.

Lemma render_text_None v : render_text v = None <-> holds_object v = true.
Proof.
  induction v as [| | | | | |es IH] using jsval_ind'; simpl; try (split; congruence).
  induction IH as [|e es He _ IHes]; simpl; [split; congruence|].
  rewrite orb_true_iff, <- He, <- IHes.
  destruct (render_text e); simpl; [|naive_solver]. destruct (_ es); simpl; naive_solver.
Qed.

Lemma js_or_object v t : holds_object (js_or v (JString t)) = holds_object v.
Proof. unfold js_or. destruct v as [| | |[]|[]| |]; simpl; try done; by case_match. Qed.

Lemma render_fields_None b : render_fields b = None <-> object_field b.
Proof.
  unfold render_fields, object_field. rewrite <- js_or_object with (t := "Cleaning Service").
  rewrite <- !render_text_None.
  destruct (render_text (js_or _ _)), (render_text (date b)), (render_text (time b)), (render_text (address b));
    simpl; naive_solver.
Qed.

Lemma history_row_of_None b : history_row_of b = None <-> object_field b.
Proof. rewrite <- render_fields_None. unfold history_row_of. destruct (render_fields b) as [[[[? ?] ?] ?]|]; naive_solver. Qed.

Lemma maid_card_of_None b : maid_card_of b = None <-> object_field b.
Proof. rewrite <- render_fields_None. unfold maid_card_of. destruct (render_fields b) as [[[[? ?] ?] ?]|]; naive_solver. Qed.

(** The maid's page renders exactly when no booking on its lists has an
    object field. *)
Lemma maid_dashboard_view_None l :
  maid_dashboard_view l = None <->
  exists b, In b (pending_list l ++ active_list l ++ completed_list l) /\ object_field b.
Proof.
  unfold maid_dashboard_view. rewrite mapM_None, List.Exists_exists.
  by setoid_rewrite maid_card_of_None.
Qed.

(** The history after its first load: the caller's bookings from
    [GET /], or the middleware's message when the token is refused. *)
Lemma history_page_ok d u now : history_page d (Ok u) now = mkHistory (user_bookings d u) false "".
Proof. reflexivity. Qed.

Lemma history_page_refused d c m now :
  400 <= c < 500 -> m <> "" -> history_page d (Err c m) now = mkHistory [] false m.
Proof.
  intros Hc Hm. unfold history_page, history_load, bookings_router. cbn.
  repeat case_bool_decide; try congruence. unfold axios_ok. cbn. rewrite (proj2 (Z.leb_le 200 c)) by lia.
  rewrite (proj2 (Z.ltb_ge c 300)) by lia. cbn. by rewrite (proj2 (String.eqb_neq m "")).
Qed.

(** ** A booking no page can render *)

(** C32. Any customer can take down the dashboard of any maid.  [POST /]
    accepts a booking naming the maid whose [service] is a JSON object
    (it is truthy).  From then on the booking is on the maid's pending
    list, and [MaidDashboard.js] throws while rendering its card, so the
    page shows nothing, not even the buttons that would decline it.  The
    customer's own [BookingHistory.js] fails the same way. *)
Theorem object_booking_breaks_pages d c m p now :
  user_role c = Customer -> m <> "" -> b_maidId p = JString m -> b_service p = JObject ->
  truthy (b_date p) && truthy (b_time p) && truthy (b_address p) = true ->
  exists b d', createBooking d c p now = Ok (201, PBooking b, d') /\
    In b (pending_list (user_bookings d' (mkUser m Maid))) /\
    maid_dashboard_view (user_bookings d' (mkUser m Maid)) = None /\
    history_view (history_page d' (Ok c) now) = None.
Proof.
  intros Hc Hm Hmaid Hs Hf. set (b := new_booking d c p now).
  assert (Hb : maid_card_of b = None /\ history_row_of b = None).
  { rewrite maid_card_of_None, history_row_of_None. split; left; unfold b, new_booking; cbn; by rewrite Hs. }
  assert (Hin : In b (pending_list (user_bookings {| bookings := bookings d ++ [b];
                                                       nextBookingId := nextBookingId d + 1 |} (mkUser m Maid)))).
  { unfold pending_list, user_bookings. simpl. rewrite !filter_In, in_app_iff. simpl.
    unfold b, new_booking, status_is. simpl. rewrite Hmaid. simpl. rewrite String.eqb_refl. auto. }
  exists b, {| bookings := bookings d ++ [b]; nextBookingId := nextBookingId d + 1 |}. split; [|split; [done|split]].
  - unfold createBooking. rewrite bool_decide_eq_true_2 by done. cbn [negb].
    rewrite Hmaid, Hs. simpl. rewrite (proj2 (String.eqb_neq m "")) by done. simpl.
    by rewrite Hf.
  - apply (mapM_None_in _ _ b); [|apply Hb]. by rewrite !in_app_iff; left.
  - unfold history_view. rewrite history_page_ok. cbn [h_bookings].
    rewrite (mapM_None_in _ _ b); [done| |apply Hb].
    unfold user_bookings. rewrite Hc. simpl. apply filter_In. rewrite in_app_iff. simpl.
    split; [auto|]. unfold b, new_booking. simpl. apply String.eqb_refl.
Qed.

(** Alice books Maria with [{ "service": {} }]. *)
Definition object_order : create_body :=
  {| b_maidId := JString "m1"; b_service := JObject;
     b_date := JString "2026-11-10"; b_time := JString "10:00"; b_address := JString "12 MG Road";
     b_amount := JNumber (Num 800); b_specialInstructions := JUndefined |}.

Lemma object_booking_breaks_pages_witness :
  user_role alice = Customer /\ "m1" <> "" /\ b_maidId object_order = JString "m1" /\
  b_service object_order = JObject /\
  truthy (b_date object_order) && truthy (b_time object_order) && truthy (b_address object_order) = true /\
  exists b d', createBooking initial_db alice object_order 1 = Ok (201, PBooking b, d') /\
    In b (pending_list (user_bookings d' (mkUser "m1" Maid))) /\
    maid_dashboard_view (user_bookings d' (mkUser "m1" Maid)) = None /\
    history_view (history_page d' (Ok alice) 1) = None.
Proof.
  assert (H1 : user_role alice = Customer) by reflexivity.
  assert (H2 : "m1" <> "") by discriminate.
  assert (H3 : b_maidId object_order = JString "m1") by reflexivity.
  assert (H4 : b_service object_order = JObject) by reflexivity.
  assert (H5 : truthy (b_date object_order) && truthy (b_time object_order) && truthy (b_address object_order) = true)
    by reflexivity.
  exact (conj H1 (conj H2 (conj H3 (conj H4 (conj H5
    (object_booking_breaks_pages initial_db alice "m1" object_order 1 H1 H2 H3 H4 H5)))))).
Defined.

(** ** The pages' texts *)

(** Only the first underscore is replaced; every status has at most one,
    so every label is free of underscores. *)
Example status_labels :
  map status_label [Pending; Confirmed; InProgress; Completed; Declined; Cancelled]
  = ["pending"; "confirmed"; "in progress"; "completed"; "declined"; "cancelled"].
Proof. reflexivity. Qed.

(** An administrator's home button leads to the maid dashboard too. *)
Example home_admin_link : home_links (Some Admin) = [("/maid/dashboard", "View Requests")].
Proof. reflexivity. Qed.
