(* ===== verification/BookingFlow.v ===== *)
(** * BookingFlow: booking a service from the frontend

    [frontend/src/pages/ServiceBooking.js] shows a form.  Its [onSubmit]
    picks the service from the page's own price list, checks that a maid is
    selected, and passes the booking data to [PaymentPage.js].  There
    [RazorpayPayment.js] first asks [POST /api/payments/create-order] for
    an order of the page's price.  Once the payment is verified,
    [handlePaymentSuccess] posts the booking to [POST /api/bookings].

    The payment itself happens in the Razorpay widget and is not modelled.
    The two requests are modelled by the backend's [createOrder] (from
    [Payments]) and by the bookings router (from [Router]). *)

From S2P Require Import Prelude Js Booking Store Router Payments Services.
Open Scope Z_scope.
Open Scope maid_scope.

(** ** The form (ServiceBooking.js) *)

(** The page's own catalogue, with prices in rupees. *)
Record fe_service : Type := mkFeService { fe_id : string; fe_name : string; fe_price : Z }.

Definition fe_services : list fe_service :=
  [ mkFeService "1" "House Cleaning" 800; mkFeService "2" "Deep Cleaning" 1500;
    mkFeService "3" "Office Cleaning" 1200; mkFeService "4" "Move-in/Move-out" 2000 ].

(** The form's state, every field a string from an input. *)
Record form : Type := mkForm {
  f_serviceId : string; f_address : string; f_date : string; f_time : string;
  f_specialInstructions : string; f_maidId : string
}.

(** The [bookingData] handed to the payment page. *)
Record booking_data : Type := mkBookingData {
  bd_serviceId : string; bd_serviceName : string; bd_amount : Z; bd_date : string;
  bd_time : string; bd_address : string; bd_specialInstructions : string; bd_maidId : string
}.

Definition nonempty (s : string) : bool := negb (String.eqb s "").

(** The [required] attributes of the maid select and of the address, date
    and time inputs: the browser submits the form only when they are set. *)
Definition html_required (f : form) : bool :=
  nonempty (f_maidId f) && nonempty (f_address f) && nonempty (f_date f) && nonempty (f_time f).

(** [onSubmit]: the error it shows, or the data it navigates with. *)
Definition onSubmit (f : form) : string + booking_data :=
  match List.find (fun s => String.eqb (fe_id s) (f_serviceId f)) fe_services with
  | None => inl "Invalid service"
  | Some svc =>
      if negb (nonempty (f_maidId f)) then inl "Please select a maid"
      else inr {| bd_serviceId := fe_id svc; bd_serviceName := fe_name svc; bd_amount := fe_price svc;
                  bd_date := f_date f; bd_time := f_time f; bd_address := f_address f;
                  bd_specialInstructions := f_specialInstructions f; bd_maidId := f_maidId f |}
  end.

(** ** The requests (RazorpayPayment.js, PaymentPage.js) *)

(** The body of [POST /payments/create-order]; [notes] is an object. *)
Definition order_request (bd : booking_data) : json_obj :=
  [("amount", JNumber (Num (bd_amount bd))); ("currency", JString "INR"); ("notes", JObject)].

(** The body of [POST /bookings] in [handlePaymentSuccess]. *)
Definition booking_request (bd : booking_data) : json_obj :=
  [("service", JString (bd_serviceName bd)); ("date", JString (bd_date bd)); ("time", JString (bd_time bd));
   ("address", JString (bd_address bd)); ("amount", JNumber (Num (bd_amount bd)));
   ("specialInstructions", js_or (JString (bd_specialInstructions bd)) (JString ""));
   ("maidId", JString (bd_maidId bd))].

(** [handlePaymentSuccess] against the bookings router, with the
    customer's token. *)
Definition handlePaymentSuccess (d : db) (u : user) (bd : booking_data) (now : Z) : option (response * db) :=
  bookings_router d POST [] (Ok u) (booking_request bd) now.

(** ** Lemmas *)

(** Every service of the page has a positive price and a name. *)
Lemma fe_services_wf svc : In svc fe_services -> 0 < fe_price svc /\ nonempty (fe_name svc) = true.
Proof. simpl. intros Hin. repeat destruct Hin as [<-|Hin]; try done; split; first [lia | done]. Qed.

Lemma nonempty_truthy s : nonempty s = true -> truthy (JString s) = true.
Proof. done. Qed.

Lemma booking_request_body bd :
  create_body_of (booking_request bd) =
  {| b_maidId := JString (bd_maidId bd); b_service := JString (bd_serviceName bd);
     b_date := JString (bd_date bd); b_time := JString (bd_time bd); b_address := JString (bd_address bd);
     b_amount := JNumber (Num (bd_amount bd));
     b_specialInstructions := js_or (JString (bd_specialInstructions bd)) (JString "") |}.
Proof. reflexivity. Qed.

(** The booking request goes to [POST /] of the bookings router. *)
Lemma handlePaymentSuccess_create d u bd now :
  handlePaymentSuccess d u bd now = Some (run d (createBooking d u (create_body_of (booking_request bd)) now)).
Proof. reflexivity. Qed.

(** The fields of [bookingData] that [POST /bookings] requires. *)
Definition bd_complete (bd : booking_data) : bool :=
  nonempty (bd_maidId bd) && nonempty (bd_serviceName bd) && nonempty (bd_date bd) &&
  nonempty (bd_time bd) && nonempty (bd_address bd).

(** A customer's booking request with every required field creates the
    booking. *)
Lemma handlePaymentSuccess_ok d u bd now :
  user_role u = Customer -> bd_complete bd = true ->
  handlePaymentSuccess d u bd now =
    Some (mkResp 201 (PBooking (new_booking d u (create_body_of (booking_request bd)) now)),
          {| bookings := bookings d ++ [new_booking d u (create_body_of (booking_request bd)) now];
             nextBookingId := nextBookingId d + 1 |}).
Proof.
  intros Hr Hc. unfold bd_complete in Hc. rewrite !andb_true_iff in Hc.
  destruct Hc as [[[[Hm Hs] Hd] Ht] Ha].
  rewrite handlePaymentSuccess_create. unfold createBooking. rewrite booking_request_body.
  cbn [b_maidId b_service b_date b_time b_address].
  by rewrite (bool_decide_eq_true_2 _ Hr), !nonempty_truthy.
Qed.

(** ** What the flow does *)

(** C33. For a form the browser submits, on a service of the page's list,
    [onSubmit] passes on the page's price.  The payment order is for 100
    times that price in paise.  After payment, the booking request of a
    customer creates one pending booking with 201.  The new booking has
    the page's price, the service's name, the form's maid, date, time and
    address, and the customer as owner. *)
Theorem booking_flow_creates d u f svc now :
  user_role u = Customer -> html_required f = true ->
  List.find (fun s => String.eqb (fe_id s) (f_serviceId f)) fe_services = Some svc ->
  exists bd, onSubmit f = inr bd /\ bd_amount bd = fe_price svc /\
    o_amount (order_options_of u (order_request bd) now) = Num (100 * fe_price svc) /\
    let b := new_booking d u (create_body_of (booking_request bd)) now in
    handlePaymentSuccess d u bd now =
      Some (mkResp 201 (PBooking b), {| bookings := bookings d ++ [b]; nextBookingId := nextBookingId d + 1 |}) /\
    bstatus b = Pending /\ amount b = fe_price svc /\ service b = JString (fe_name svc) /\
    maidId b = JString (f_maidId f) /\ date b = JString (f_date f) /\ time b = JString (f_time f) /\
    address b = JString (f_address f) /\ customerId b = user_id u.
Proof.
  intros Hr Hreq Hf. unfold html_required in Hreq. rewrite !andb_true_iff in Hreq.
  destruct Hreq as [[[Hm Ha] Hd] Ht].
  destruct (fe_services_wf svc (proj1 (find_some _ _ Hf))) as [Hpos Hn].
  unfold onSubmit. rewrite Hf, Hm. eexists. split; [reflexivity|]. cbn [bd_amount].
  split; [done|]. split.
  { unfold order_options_of, paise. simpl. f_equal. lia. }
  cbv zeta. rewrite handlePaymentSuccess_create. unfold createBooking. rewrite booking_request_body.
  cbn [b_maidId b_service b_date b_time b_address bd_maidId bd_serviceName bd_date bd_time bd_address].
  rewrite (bool_decide_eq_true_2 _ Hr), !nonempty_truthy by done.
  split; [reflexivity|]. unfold new_booking. cbn.
  repeat split.
Qed.

(** The page's prices are not the catalogue's.  It charges 800,
    1500, 1200 and 2000 rupees for the four services, while
    [GET /api/services/:id] lists base prices 80, 150, 100 and 200.  The
    amount of a booking is whatever the page sends: the backend never
    reads the catalogue when it creates a booking or an order. *)
Example fe_prices_not_catalogue :
  map fe_price fe_services = [800; 1500; 1200; 2000] /\
  map (fun n => match getService (number_to_string n) with Ok s => basePrice s | Err _ _ => 0 end) [1; 2; 3; 4]
    = [80; 150; 100; 200].
Proof. split; vm_compute; reflexivity. Qed.

(** ** Samples *)

Definition alice_form : form :=
  {| f_serviceId := "2"; f_address := "12 MG Road"; f_date := "2026-11-10"; f_time := "10:00";
     f_specialInstructions := ""; f_maidId := "m1" |}.

Lemma booking_flow_creates_witness :
  user_role alice = Customer /\ html_required alice_form = true /\
  List.find (fun s => String.eqb (fe_id s) (f_serviceId alice_form)) fe_services
    = Some (mkFeService "2" "Deep Cleaning" 1500) /\
  exists bd, onSubmit alice_form = inr bd /\ bd_amount bd = 1500 /\
    o_amount (order_options_of alice (order_request bd) 1) = Num (100 * 1500) /\
    let b := new_booking initial_db alice (create_body_of (booking_request bd)) 1 in
    handlePaymentSuccess initial_db alice bd 1 =
      Some (mkResp 201 (PBooking b), {| bookings := bookings initial_db ++ [b];
                                         nextBookingId := nextBookingId initial_db + 1 |}) /\
    bstatus b = Pending /\ amount b = 1500 /\ service b = JString "Deep Cleaning" /\
    maidId b = JString (f_maidId alice_form) /\ date b = JString (f_date alice_form) /\
    time b = JString (f_time alice_form) /\ address b = JString (f_address alice_form) /\
    customerId b = user_id alice.
Proof.
  assert (H1 : user_role alice = Customer) by reflexivity.
  assert (H2 : html_required alice_form = true) by reflexivity.
  assert (H3 : List.find (fun s => String.eqb (fe_id s) (f_serviceId alice_form)) fe_services
                 = Some (mkFeService "2" "Deep Cleaning" 1500)) by reflexivity.
  refine (conj H1 (conj H2 (conj H3 _))).
  exact (booking_flow_creates initial_db alice alice_form _ 1 H1 H2 H3).
Defined.
