(* ===== verification/Checkout.v ===== *)
(** * Checkout: the payment button of [RazorpayPayment.js]

    [frontend/src/components/RazorpayPayment.js] is the button of the
    payment page.  Its [pay] loads Razorpay's script, asks
    [POST /api/payments/create-order] for an order of the booking's
    amount, and opens the Razorpay widget with the order id and
    [amount * 100] paise.  When the customer pays, the widget calls the
    options' [handler] with Razorpay's response.  The handler posts that
    response to [POST /api/payments/verify] and calls [onSuccess] with the
    verified ids, or [onFailure].

    The two requests run against the back end's [createOrder] and
    [verifyPayment] of [Payments], behind the same [auth] verdict (the
    axios default header of [AuthContext.js]).  Loading the script is the
    boolean [sdk_loaded].  The widget is [checkout]: the response its
    handler receives, or [None] when the customer closes it without
    paying.  A non-2xx answer makes axios reject with the message
    ["Request failed with status code " + code], which the [catch] passes
    to [onFailure].  [pay_outcome] records which callback ran.

    [PaymentPage.js] passes the two callbacks: [after_payment] posts the
    booking and navigates to the history, or alerts; [payment_page] also
    covers a visit without [bookingData].  *)

From S2P Require Import Prelude Js Booking Store Router Payments Dashboard Views BookingFlow.
Open Scope Z_scope.
Open Scope maid_scope.

(** The [options] given to [new window.Razorpay]. *)
Record checkout_options : Type := mkCheckout {
  co_key : option string; co_amount : Z; co_currency : string; co_order_id : string
}.

(** [onSuccess(verify.data.data)] with the verified order and payment ids,
    [onFailure(msg)], or neither while the widget is open or was closed. *)
Inductive pay_outcome : Type :=
| PaySucceeded (orderId paymentId : jsval)
| PayFailed (msg : string)
| PayOpen.

(** The message of axios's error for a non-2xx answer. *)
Definition axios_error (code : Z) : string := "Request failed with status code " +:+ number_to_string code.

(** The response the widget hands to the handler. *)
Definition rz_response (oid pid sig : string) : json_obj :=
  [("razorpay_payment_id", JString pid); ("razorpay_order_id", JString oid); ("razorpay_signature", JString sig)].

(** What [PaymentPage.js] ends with: the page it navigates to with its
    message, an [alert], the widget still open, or the page without
    [bookingData]. *)
Inductive page_result : Type :=
| Navigate (path message : string)
| Alert (msg : string)
| Waiting
| NoData.

(** [handlePaymentSuccess] and [handlePaymentFailure] of [PaymentPage.js]:
    [POST /bookings] with the page's token, then [navigate] to the
    history, or the [alert]. *)
Definition after_payment (d : db) (auth : result user) (bd : booking_data) (po : pay_outcome) (now : Z)
    : db * page_result :=
  match po with
  | PaySucceeded _ _ =>
      match bookings_router d POST [] auth (booking_request bd) now with
      | Some (resp, d') =>
          if axios_ok resp then (d', Navigate "/customer/bookings" "Booking confirmed and payment completed!")
          else (d', Alert (match body resp with
                           | PMessage m => if String.eqb m "" then "Booking creation failed after payment" else m
                           | _ => "Booking creation failed after payment"
                           end))
      | None => (d, Alert "Booking creation failed after payment")
      end
  | PayFailed m => (d, Alert ("Payment failed: " +:+ m))
  | PayOpen => (d, Waiting)
  end.

Section Checkout.
Context `{HmacScheme}.
Variable orders_create : order_options -> option rz_order.
Variable key_id key_secret : option string.
Variable sdk_loaded : bool.
Variable checkout : checkout_options -> option json_obj.

Definition checkout_of (bd : booking_data) (r : order_reply) : checkout_options :=
  {| co_key := r_key r; co_amount := bd_amount bd * 100; co_currency := "INR"; co_order_id := r_orderId r |}.

(** The options' [handler]: [POST /payments/verify] with the response. *)
Definition on_payment (auth : result user) (resp : json_obj) : pay_outcome :=
  match (_ <- auth ;; verifyPayment key_secret resp) with
  | Ok (oid, pid) => PaySucceeded oid pid
  | Err _ _ => PayFailed "Verification error"
  end.

(** [pay]; [data.success] is [true] on every 2xx answer of
    [create-order], so the [throw] after it is not taken. *)
Definition pay (auth : result user) (bd : booking_data) (now_ms : Z) : pay_outcome :=
  if negb sdk_loaded then PayFailed "Razorpay SDK failed to load" else
  match (u <- auth ;; createOrder orders_create key_id u (order_request bd) now_ms) with
  | Err c _ => PayFailed (axios_error c)
  | Ok r =>
      match checkout (checkout_of bd r) with
      | None => PayOpen
      | Some resp => on_payment auth resp
      end
  end.

(** The payment page: without [location.state.bookingData] it shows the
    error; otherwise the button's outcome decides. *)
Definition payment_page (d : db) (auth : result user) (obd : option booking_data) (now_ms : Z) : db * page_result :=
  match obd with
  | None => (d, NoData)
  | Some bd => after_payment d auth bd (pay auth bd now_ms) now_ms
  end.
End Checkout.

(** ** Lemmas *)

Section Lemmas.
Context `{HmacScheme}.

(** A booking of positive amount passes [create-order]'s check. *)
Lemma createOrder_request orders_create key_id u bd now :
  0 < bd_amount bd ->
  createOrder orders_create key_id u (order_request bd) now =
  match orders_create (order_options_of u (order_request bd) now) with
  | None => Err 500 "Payment order creation failed"
  | Some o => Ok {| r_orderId := rz_id o; r_amount := rz_amount o; r_currency := rz_currency o; r_key := key_id |}
  end.
Proof.
  intros Ha. unfold createOrder, js_le_zero. cbn.
  rewrite (proj2 (Z.eqb_neq _ 0)), (proj2 (Z.leb_gt _ 0)) by lia. reflexivity.
Qed.

(** Razorpay's genuine signature, a non-empty hex string, over a
    non-empty order and payment id is accepted. *)
Lemma verify_genuine k oid pid :
  oid <> "" -> pid <> "" -> hmac_hex k (oid +:+ "|" +:+ pid) <> "" ->
  verifyPayment (Some k) (rz_response oid pid (hmac_hex k (oid +:+ "|" +:+ pid))) = Ok (JString oid, JString pid).
Proof.
  intros Ho Hp Hs. set (sg := hmac_hex k _) in *. unfold verifyPayment.
  change (field (rz_response oid pid sg) "razorpay_order_id") with (JString oid).
  change (field (rz_response oid pid sg) "razorpay_payment_id") with (JString pid).
  change (field (rz_response oid pid sg) "razorpay_signature") with (JString sg).
  cbn [truthy signed_text js_to_string].
  rewrite (proj2 (String.eqb_neq oid "")), (proj2 (String.eqb_neq pid "")), (proj2 (String.eqb_neq sg "")) by done.
  cbn -[strict_eq]. by rewrite (proj2 (strict_eq_string _ _) eq_refl).
Qed.

(** What [verify] accepts carries the HMAC of the ids it answers. *)
Lemma verifyPayment_signed ks body oid pid :
  verifyPayment ks body = Ok (oid, pid) ->
  exists k, ks = Some k /\ field body "razorpay_signature" = JString (hmac_hex k (signed_text oid pid)).
Proof.
  unfold verifyPayment. destruct (_ && _ && _); [|discriminate].
  destruct ks as [k|]; [|discriminate]. destruct (strict_eq _ _) eqn:E; [|discriminate].
  intros [= <- <-]. exists k. split; [done|]. rewrite strict_eq_sym in E. by apply strict_eq_string in E.
Qed.
End Lemmas.

(** ** What the button does *)

Section Guarantees.
Context `{HmacScheme}.
Variable orders_create : order_options -> option rz_order.
Variable key_id key_secret : option string.
Variable sdk_loaded : bool.
Variable checkout : checkout_options -> option json_obj.

Lemma pay_genuine u bd now o pid k :
  sdk_loaded = true -> key_secret = Some k -> 0 < bd_amount bd ->
  orders_create (order_options_of u (order_request bd) now) = Some o ->
  rz_id o <> "" -> pid <> "" -> hmac_hex k (rz_id o +:+ "|" +:+ pid) <> "" ->
  checkout (checkout_of bd {| r_orderId := rz_id o; r_amount := rz_amount o; r_currency := rz_currency o;
                              r_key := key_id |})
    = Some (rz_response (rz_id o) pid (hmac_hex k (rz_id o +:+ "|" +:+ pid))) ->
  pay orders_create key_id key_secret sdk_loaded checkout (Ok u) bd now = PaySucceeded (JString (rz_id o)) (JString pid).
Proof.
  intros Hl Hk Ha Ho Hoid Hpid Hs Hc.
  unfold pay. rewrite Hl. cbn [negb rbind]. rewrite createOrder_request, Ho by done.
  rewrite Hc. unfold on_payment. cbn [rbind]. rewrite Hk, verify_genuine by done. reflexivity.
Qed.

(** C18. The payment button reports a payment exactly when it is signed.
    (1) For a signed-in customer and a booking of positive amount, when
    Razorpay creates the order and the widget returns Razorpay's genuine
    signature over the order's id and a payment id, the widget was opened
    for the same [amount * 100] paise that the order asked for, and
    [onSuccess] receives the two ids.  (2) Whatever the widget returns and
    whoever is signed in, [onSuccess] runs only for a response whose
    signature is the HMAC, under the server's key secret, of the ids it
    receives. *)
Theorem pay_confirms_signed_payments :
  (forall u bd now o pid k,
     sdk_loaded = true -> key_secret = Some k -> 0 < bd_amount bd ->
     orders_create (order_options_of u (order_request bd) now) = Some o ->
     rz_id o <> "" -> pid <> "" -> hmac_hex k (rz_id o +:+ "|" +:+ pid) <> "" ->
     let r := {| r_orderId := rz_id o; r_amount := rz_amount o; r_currency := rz_currency o; r_key := key_id |} in
     checkout (checkout_of bd r) = Some (rz_response (rz_id o) pid (hmac_hex k (rz_id o +:+ "|" +:+ pid))) ->
     o_amount (order_options_of u (order_request bd) now) = Num (co_amount (checkout_of bd r)) /\
     pay orders_create key_id key_secret sdk_loaded checkout (Ok u) bd now = PaySucceeded (JString (rz_id o)) (JString pid)) /\
  (forall auth bd now oid pid,
     pay orders_create key_id key_secret sdk_loaded checkout auth bd now = PaySucceeded oid pid ->
     exists k r resp, key_secret = Some k /\ checkout (checkout_of bd r) = Some resp /\
       field resp "razorpay_signature" = JString (hmac_hex k (signed_text oid pid))).
Proof.
  split.
  - intros u bd now o pid k Hl Hk Ha Ho Hoid Hpid Hs r Hc. split; [cbn; f_equal; lia|].
    by apply (pay_genuine u bd now o pid k).
  - intros auth bd now oid pid. unfold pay. destruct sdk_loaded; [|discriminate]. cbn [negb].
    destruct (rbind auth _) as [r|]; [|discriminate].
    destruct (checkout (checkout_of bd r)) as [resp|] eqn:Ec; [|discriminate].
    unfold on_payment. destruct auth; [|discriminate]. cbn [rbind].
    destruct (verifyPayment key_secret resp) as [[o p]|] eqn:Ev; [|discriminate]. intros [= <- <-].
    apply verifyPayment_signed in Ev as (k & Hk & Hs). by exists k, r, resp.
Qed.

(** From the payment button to the history.  A signed-in customer with a
    complete booking pays, Razorpay confirms with a genuine signature, and
    the page creates the pending booking and opens the history, which lists
    it with the amount paid. *)
Lemma checkout_end_to_end d u bd now o pid k :
  user_role u = Customer -> bd_complete bd = true ->
  sdk_loaded = true -> key_secret = Some k -> 0 < bd_amount bd ->
  orders_create (order_options_of u (order_request bd) now) = Some o ->
  rz_id o <> "" -> pid <> "" -> hmac_hex k (rz_id o +:+ "|" +:+ pid) <> "" ->
  checkout (checkout_of bd {| r_orderId := rz_id o; r_amount := rz_amount o; r_currency := rz_currency o;
                              r_key := key_id |})
    = Some (rz_response (rz_id o) pid (hmac_hex k (rz_id o +:+ "|" +:+ pid))) ->
  let b := new_booking d u (create_body_of (booking_request bd)) now in
  let d' := {| bookings := bookings d ++ [b]; nextBookingId := nextBookingId d + 1 |} in
  payment_page orders_create key_id key_secret sdk_loaded checkout d (Ok u) (Some bd) now
    = (d', Navigate "/customer/bookings" "Booking confirmed and payment completed!") /\
  bstatus b = Pending /\ amount b = bd_amount bd /\ In b (h_bookings (history_page d' (Ok u) now)).
Proof.
  intros Hr Hc Hl Hk Ha Ho Hoid Hpid Hs Hw b d'. unfold payment_page.
  rewrite (pay_genuine u bd now o pid k) by done. unfold after_payment.
  change (bookings_router d POST [] (Ok u) (booking_request bd) now) with (handlePaymentSuccess d u bd now).
  rewrite handlePaymentSuccess_ok by done. split; [reflexivity|]. split; [reflexivity|]. split.
  - reflexivity.
  - rewrite history_page_ok. unfold user_bookings. rewrite Hr. cbn [h_bookings].
    apply filter_In. split; [unfold d'; cbn [bookings]; rewrite in_app_iff; simpl; auto|]. apply String.eqb_refl.
Qed.
End Guarantees.

(** ** Sample *)

Definition demo_bd : booking_data :=
  mkBookingData "2" "Deep Cleaning" 1500 "2026-11-10" "10:00" "12 MG Road" "" "m1".

(** A widget whose customer pays as [pay_1] and that Razorpay signs with
    the key secret ["secret"]. *)
Definition demo_checkout (opts : checkout_options) : option json_obj :=
  Some (rz_response (co_order_id opts) "pay_1" (hmac_hex "secret" (co_order_id opts +:+ "|" +:+ "pay_1"))).

Definition demo_order : rz_order := mkRzOrder "order_1" (Num 150000) (JString "INR").

Lemma pay_confirms_signed_payments_witness :
  0 < bd_amount demo_bd /\
  demo_orders (order_options_of payer (order_request demo_bd) 0) = Some demo_order /\
  o_amount (order_options_of payer (order_request demo_bd) 0) = Num 150000 /\
  pay demo_orders (Some "rzp_key") (Some "secret") true demo_checkout (Ok payer) demo_bd 0
    = PaySucceeded (JString "order_1") (JString "pay_1").
Proof.
  assert (Ha : 0 < bd_amount demo_bd) by (vm_compute; reflexivity).
  assert (Ho : demo_orders (order_options_of payer (order_request demo_bd) 0) = Some demo_order) by reflexivity.
  assert (Hs : hmac_hex "secret" (rz_id demo_order +:+ "|" +:+ "pay_1") <> "") by discriminate.
  destruct (proj1 (pay_confirms_signed_payments demo_orders (Some "rzp_key") (Some "secret") true demo_checkout)
              payer demo_bd 0 demo_order "pay_1" "secret" eq_refl eq_refl Ha Ho ltac:(discriminate)
              ltac:(discriminate) Hs eq_refl) as [Hamt Hpay].
  exact (conj Ha (conj Ho (conj Hamt Hpay))).
Defined.
