(* ===== verification/Users.v ===== *)
(** * Users: registration and the profile routes

    [backend/controllers/authController.js] registers users, returns the
    profile, and updates it.  The users collection of [models/User.js] is
    a list of [user_doc] (from [Auth]) with a counter that stands for the
    fresh [ObjectId] of each new document.  The schema's [pre('save')]
    hook hashes the password when a document is saved.
    [findByIdAndUpdate] writes the update directly and runs the schema's
    validators ([runValidators: true]), but not the [save] hook.

    The fields of the schema that this model does not keep (name, phone,
    address, profile, isActive) are not modelled, nor are updates to them.
    The [express-validator] chains of [routes/auth.js] are the verdict
    [valid], as in [Auth.login].  The email reaches the handler already
    normalised (lower case), so the schema's [lowercase] leaves it.  Of the
    schema validators that [save] runs, the chains imply [required],
    [minlength] and [maxlength]; the [enum] of [role] and the [match] of
    [email] ([email_match]) are checked on [save]. *)

From S2P Require Import Prelude Js Booking Router Auth Payments.
Open Scope Z_scope.
Open Scope maid_scope.

Record users_db : Type := mkUsers { udocs : list user_doc; next_uid : Z }.

(** ** Casting body values to the schema's types *)

(** The [enum: ['customer', 'maid', 'admin']] of [role]. *)
Definition role_of_string (s : string) : option role :=
  if String.eqb s "customer" then Some Customer
  else if String.eqb s "maid" then Some Maid
  else if String.eqb s "admin" then Some Admin
  else None.

(** A [String] path: numbers and booleans are cast to their text; [null]
    fails the [required] validator; an object is a cast error. *)
Definition cast_string (v : jsval) : option string :=
  match v with
  | JString s => Some s
  | JNumber _ | JBool _ => Some (js_to_string v)
  | _ => None
  end.

Definition role_field (v : jsval) : option role :=
  match cast_string v with Some s => role_of_string s | None => None end.

(** ** The schema's [match] test on [email]

    [/^\w+([\.-]?\w+)*@\w+([\.-]?\w+)*(\.\w{2,3})+$/].  The language of
    [\w+([\.-]?\w+)*] is the non-empty strings of word characters, [.]
    and [-] that start and end with a word character and have no two
    separators side by side ([word_runs]).  [\w] has no [@], so an
    accepted address has one [@].  Its domain ends with a group
    [\.\w{2,3}], which holds the last [.] of the domain, and the groups
    before it continue [\w+([\.-]?\w+)*]; so a domain matches exactly when
    it splits at its last [.] into such a run and two or three word
    characters ([domain_match]). *)

(** [\w]: an ASCII letter, a digit or [_]. *)
Definition is_word_char (c : Ascii.ascii) : bool :=
  let n := Ascii.nat_of_ascii c in
  ((48 <=? n) && (n <=? 57) || (65 <=? n) && (n <=? 90) || (97 <=? n) && (n <=? 122) || (n =? 95))%nat.

(** [\w+([\.-]?\w+)*]; [after_word] tells whether the previous character
    was a word character. *)
Fixpoint word_runs (after_word : bool) (s : string) : bool :=
  match s with
  | EmptyString => after_word
  | String c r =>
      if is_word_char c then word_runs true r
      else if after_word && (Ascii.eqb c "."%char || Ascii.eqb c "-"%char) then word_runs false r
      else false
  end.

Fixpoint all_word (s : string) : bool :=
  match s with EmptyString => true | String c r => is_word_char c && all_word r end.

(** The text before the first [c] and the text after it. *)
Fixpoint split_first (c : Ascii.ascii) (s : string) : option (string * string) :=
  match s with
  | EmptyString => None
  | String x r =>
      if Ascii.eqb x c then Some (EmptyString, r)
      else option_map (fun '(p, w) => (String x p, w)) (split_first c r)
  end.

(** The text before the last [c] and the text after it. *)
Fixpoint split_last (c : Ascii.ascii) (s : string) : option (string * string) :=
  match s with
  | EmptyString => None
  | String x r =>
      match split_last c r with
      | Some (p, w) => Some (String x p, w)
      | None => if Ascii.eqb x c then Some (EmptyString, r) else None
      end
  end.

Definition domain_match (d : string) : bool :=
  match split_last "."%char d with
  | Some (p, w) => word_runs false p && all_word w && (2 <=? String.length w)%nat && (String.length w <=? 3)%nat
  | None => false
  end.

Definition email_match (e : string) : bool :=
  match split_first "@"%char e with
  | Some (l, d) => word_runs false l && domain_match d
  | None => false
  end.

(** ** [register] *)

(** [exports.register]: the 400 of [validationResult] lists the errors
    instead of a message.  [role || 'customer'] is cast to the enum; a
    value outside it fails the save, which the catch answers with 500. *)
Definition register `{JwtScheme} `{PasswordScheme} (valid : bool) (us : users_db)
    (email password : string) (role : jsval) (now : Z) : result (user_doc * string * users_db) :=
  ensure valid else 400, "" ;;
  match findOne_email (udocs us) email with
  | Some _ => Err 400 "User with this email already exists"
  | None =>
      match role_field (js_or role (JString "customer")) with
      | None => Err 500 "Internal server error during registration"
      | Some r =>
          ensure email_match email else 500, "Internal server error during registration" ;;
          let u := mkUserDoc (number_to_string (next_uid us)) email (pw_hash password) r in
          Ok (u, generateToken now u, {| udocs := udocs us ++ [u]; next_uid := next_uid us + 1 |})
      end
  end.

(** ** [getProfile] and [updateProfile] *)

(** [User.findById]. *)
Definition findById_doc (us : users_db) (id : string) : option user_doc :=
  List.find (fun u => String.eqb (doc_id u) id) (udocs us).

Definition getProfile (us : users_db) (id : string) : result user_doc :=
  match findById_doc us id with
  | None => Err 404 "User not found"
  | Some u => Ok u
  end.

(** The update validators of the three kept paths; an absent field leaves
    the path as it is.  The password is written as sent: [minlength: 6]
    is checked, the [save] hook that hashes is not run. *)
Definition update_role (u : user_doc) (v : jsval) : result user_doc :=
  match v with
  | JUndefined => Ok u
  | _ => match role_field v with
         | Some r => Ok (mkUserDoc (doc_id u) (doc_email u) (doc_password u) r)
         | None => Err 500 "Internal server error"
         end
  end.

Definition update_password (u : user_doc) (v : jsval) : result user_doc :=
  match v with
  | JUndefined => Ok u
  | _ => match cast_string v with
         | Some s => if (String.length s <? 6)%nat then Err 500 "Internal server error"
                     else Ok (mkUserDoc (doc_id u) (doc_email u) s (doc_role u))
         | None => Err 500 "Internal server error"
         end
  end.

(** [lowercase: true], the schema's [match] test [email_ok] and the unique
    index: an email that another user has is a duplicate key error. *)
Definition update_email (email_ok : string -> bool) (us : users_db) (u : user_doc) (v : jsval)
    : result user_doc :=
  match v with
  | JUndefined => Ok u
  | _ => match cast_string v with
         | Some s =>
             let e := lower s in
             ensure email_ok e else 500, "Internal server error" ;;
             ensure negb (existsb (fun x => String.eqb (doc_email x) e && negb (String.eqb (doc_id x) (doc_id u)))
                                  (udocs us)) else 500, "Internal server error" ;;
             Ok (mkUserDoc (doc_id u) e (doc_password u) (doc_role u))
         | None => Err 500 "Internal server error"
         end
  end.

(** [exports.updateProfile]: [findByIdAndUpdate(req.user.id, req.body)].
    With no document it resolves to [null], answered 200 with [user: null]. *)
Definition updateProfile (email_ok : string -> bool) (us : users_db) (id : string) (updates : json_obj)
    : result (option user_doc * users_db) :=
  match findById_doc us id with
  | None => Ok (None, us)
  | Some u =>
      u1 <- update_role u (field updates "role") ;;
      u2 <- update_password u1 (field updates "password") ;;
      u3 <- update_email email_ok us u2 (field updates "email") ;;
      Ok (Some u3, {| udocs := map (fun x => if String.eqb (doc_id x) id then u3 else x) (udocs us);
                      next_uid := next_uid us |})
  end.

(** [exports.logout]: the server keeps no session; the token stays valid. *)
Definition logout : Z * string := (200, "Logout successful").

(** ** Well-formed collections *)

(** Ids and emails are unique (the [_id] key and the [unique] index), and
    every id was drawn from the counter before its current value. *)
Definition users_wf (us : users_db) : Prop :=
  NoDup (map doc_id (udocs us)) /\ NoDup (map doc_email (udocs us)) /\
  Forall (fun u => exists n, n < next_uid us /\ doc_id u = number_to_string n) (udocs us).

Definition initial_users : users_db := {| udocs := []; next_uid := 1 |}.

(** ** Lemmas *)

Lemma number_to_string_inj m n : number_to_string m = number_to_string n -> m = n.
Proof.
  intros E. apply (f_equal parseInt10) in E. rewrite !parseInt10_number_to_string in E. congruence.
Qed.

Lemma findOne_email_None l email : findOne_email l email = None -> ~ In email (map doc_email l).
Proof.
  unfold findOne_email. intros Hf (x & Hx & Hin)%in_map_iff.
  pose proof (find_none _ _ Hf x Hin) as E. simpl in E. rewrite Hx, String.eqb_refl in E. discriminate.
Qed.

Lemma register_ok `{JwtScheme} `{PasswordScheme} valid us email pw role now u t us' :
  register valid us email pw role now = Ok (u, t, us') ->
  valid = true /\ email_match email = true /\ findOne_email (udocs us) email = None /\
  role_field (js_or role (JString "customer")) = Some (doc_role u) /\
  u = mkUserDoc (number_to_string (next_uid us)) email (pw_hash pw) (doc_role u) /\
  t = generateToken now u /\ us' = {| udocs := udocs us ++ [u]; next_uid := next_uid us + 1 |}.
Proof.
  unfold register. destruct valid; [|discriminate]. simpl.
  destruct (findOne_email (udocs us) email); [discriminate|].
  destruct (role_field _) as [r|] eqn:Hr; [|discriminate].
  destruct (email_match email); [|discriminate]. intros [= <- <- <-]. auto 10.
Qed.

Lemma update_role_ok u v u' :
  update_role u v = Ok u' ->
  doc_id u' = doc_id u /\ doc_email u' = doc_email u /\ doc_password u' = doc_password u.
Proof. unfold update_role. intros H. repeat case_match; simplify_eq/=; auto. Qed.

Lemma update_password_ok u v u' :
  update_password u v = Ok u' ->
  doc_id u' = doc_id u /\ doc_email u' = doc_email u /\
  (forall q, v <> JUndefined -> cast_string v = Some q -> doc_password u' = q).
Proof.
  unfold update_password. intros H. repeat case_match; simplify_eq/=;
    (split; [done|split; [done|]]); intros q Hv Hq; simplify_eq/=; done.
Qed.

Lemma update_email_ok email_ok us u v u' :
  update_email email_ok us u v = Ok u' ->
  doc_id u' = doc_id u /\ doc_password u' = doc_password u /\
  (doc_email u' = doc_email u \/
   forall x, In x (udocs us) -> doc_id x <> doc_id u -> doc_email x <> doc_email u').
Proof.
  unfold update_email. intros H. repeat case_match; simplify_eq/=; auto;
    (split; [done|split; [done|right]]); intros x Hx Hid He;
    match goal with E : negb (existsb _ _) = true |- _ =>
      apply negb_true_iff in E; pose proof (existsb_false_In _ _ x E Hx) as Ex end;
    simpl in Ex; rewrite He, String.eqb_refl in Ex; simpl in Ex;
    apply negb_false_iff, String.eqb_eq in Ex; contradiction.
Qed.

Lemma updateProfile_ok email_ok us id upd u3 us' :
  updateProfile email_ok us id upd = Ok (Some u3, us') ->
  exists u, findById_doc us id = Some u /\ doc_id u = id /\ doc_id u3 = id /\
    (doc_email u3 = doc_email u \/
     forall x, In x (udocs us) -> doc_id x <> id -> doc_email x <> doc_email u3) /\
    (forall q, field upd "password" <> JUndefined -> cast_string (field upd "password") = Some q ->
               doc_password u3 = q) /\
    us' = {| udocs := map (fun x => if String.eqb (doc_id x) id then u3 else x) (udocs us);
             next_uid := next_uid us |}.
Proof.
  unfold updateProfile. destruct (findById_doc us id) as [u|] eqn:Hf; [|discriminate].
  intros H. apply rbind_ok in H as (u1 & H1 & H). apply rbind_ok in H as (u2 & H2 & H).
  apply rbind_ok in H as (u3' & H3 & [= <- <-]).
  apply update_role_ok in H1 as (Hi1 & He1 & Hp1). apply update_password_ok in H2 as (Hi2 & He2 & Hp2).
  apply update_email_ok in H3 as (Hi3 & Hp3 & He3).
  assert (Hid : doc_id u = id).
  { unfold findById_doc in Hf. apply find_some in Hf as [_ E]. by apply String.eqb_eq in E. }
  exists u. split; [done|]. split; [done|]. split; [congruence|]. split.
  - destruct He3 as [E|E]; [left; congruence|right]. intros x Hx Hne. apply E; [done|congruence].
  - split; [|done]. intros q Hv Hq. rewrite Hp3. by apply Hp2.
Qed.

(** With no document for the id, nothing changes. *)
Lemma updateProfile_None email_ok us id upd us' :
  updateProfile email_ok us id upd = Ok (None, us') -> us' = us.
Proof.
  unfold updateProfile. destruct (findById_doc us id); [|congruence].
  destruct (update_role _ _); simpl; [|discriminate].
  destruct (update_password _ _); simpl; [|discriminate].
  destruct (update_email _ _ _ _); simpl; discriminate.
Qed.

(** A fresh counter value names no document of a well-formed collection. *)
Lemma fresh_id_None us : users_wf us -> findById_doc us (number_to_string (next_uid us)) = None.
Proof.
  intros (_ & _ & Hids). unfold findById_doc. apply find_None_intro. intros x Hx.
  rewrite List.Forall_forall in Hids. destruct (Hids x Hx) as (n & Hn & ->).
  apply String.eqb_neq. intros E%number_to_string_inj. lia.
Qed.

(** ** What registration and the profile routes guarantee *)

Section Guarantees.
Context `{JwtScheme} `{PasswordScheme}.

(** C35. Registration round trip.  A user registered in a well-formed
    collection is stored with the hash of the password and the role the
    body asked for (customer by default).  [GET /profile] finds them by
    the new id, and [login] with the same email and password succeeds at
    any later time. *)
Theorem register_then_login us email pw role now now' u t us' :
  users_wf us -> register true us email pw role now = Ok (u, t, us') ->
  doc_password u = pw_hash pw /\ role_field (js_or role (JString "customer")) = Some (doc_role u) /\
  getProfile us' (doc_id u) = Ok u /\ login (udocs us') true email pw now' = Ok (u, generateToken now' u).
Proof.
  intros Hwf Hr. apply register_ok in Hr as (_ & _ & Hfree & Hrole & Hu & _ & ->).
  split; [by rewrite Hu|]. split; [done|]. split.
  - pose proof (fresh_id_None us Hwf) as Hnone. unfold getProfile, findById_doc in *. simpl.
    rewrite Hu. simpl. rewrite (find_app_None _ _ _ Hnone). simpl. by rewrite String.eqb_refl.
  - unfold login, findOne_email in *. simpl. rewrite (find_app_None _ _ _ Hfree).
    rewrite Hu. simpl. rewrite String.eqb_refl. simpl. by rewrite (proj2 (pw_compare_hash pw pw) eq_refl).
Qed.

(** C36. Every registration and every profile update keeps the users
    collection well formed: ids and emails stay unique, and ids come from
    the counter. *)
Theorem users_wf_preserved email_ok us :
  users_wf us ->
  (forall valid email pw role now u t us', register valid us email pw role now = Ok (u, t, us') -> users_wf us') /\
  (forall id upd r us', updateProfile email_ok us id upd = Ok (r, us') -> users_wf us').
Proof.
  intros Hwf. split.
  - intros valid email pw role now u t us' Hr.
    apply register_ok in Hr as (_ & _ & Hfree & _ & Hu & _ & ->). destruct Hwf as (Hid & Hem & Hrange).
    unfold users_wf. simpl. rewrite !map_app. split; [|split].
    + apply list.NoDup_app. split; [done|]. split; [|apply NoDup_singleton].
      intros x Hx ->%list_elem_of_singleton. rewrite Hu in Hx. simpl in Hx.
      apply list_elem_of_In, in_map_iff in Hx as (y & Hy & Hin).
      rewrite List.Forall_forall in Hrange. destruct (Hrange y Hin) as (n & Hn & Hyn).
      rewrite Hyn in Hy. apply number_to_string_inj in Hy. lia.
    + apply list.NoDup_app. split; [done|]. split; [|apply NoDup_singleton].
      intros x Hx ->%list_elem_of_singleton. rewrite Hu in Hx. simpl in Hx.
      by apply (findOne_email_None _ _ Hfree), list_elem_of_In.
    + apply Forall_app. split.
      * eapply List.Forall_impl; [|exact Hrange]. intros y (n & Hn & E). exists n. split; [lia|done].
      * apply Forall_singleton. exists (next_uid us). rewrite Hu. split; [lia|done].
  - intros id upd [u3|] us' Hup; [|by rewrite (updateProfile_None _ _ _ _ _ Hup)].
    apply updateProfile_ok in Hup as (u & Hf & Hid & Hid3 & Hem3 & _ & ->).
    destruct Hwf as (Hids & Hems & Hrange). unfold users_wf. simpl.
    assert (Hin : In u (udocs us)) by (unfold findById_doc in Hf; by apply find_some in Hf as [? _]).
    assert (Hkeys : map doc_id (map (fun x => if String.eqb (doc_id x) id then u3 else x) (udocs us))
                    = map doc_id (udocs us)).
    { rewrite map_map. apply map_ext. intros x. destruct (String.eqb_spec (doc_id x) id); congruence. }
    split; [|split].
    + by rewrite Hkeys.
    + rewrite map_map.
      rewrite (map_ext (fun x => doc_email (if String.eqb (doc_id x) id then u3 else x))
                       (fun x => if String.eqb (doc_id x) id then doc_email u3 else doc_email x))
        by (intros x; by destruct (String.eqb _ _)).
      apply (NoDup_map_replace doc_id doc_email _ id); [intros; apply String.eqb_eq|done|done|].
      intros x Hx Hne%String.eqb_neq E. destruct Hem3 as [E3|E3]; [|by apply (E3 x)].
      apply Hne. rewrite <- Hid. f_equal. apply (NoDup_map_In_inj doc_email (udocs us)); [done..|congruence].
    + rewrite Forall_map. rewrite List.Forall_forall in Hrange |- *. intros x Hx.
      destruct (String.eqb_spec (doc_id x) id) as [E|E]; [|by apply Hrange].
      rewrite Hid3, <- Hid. by apply Hrange.
Qed.

(** C37. [PUT /profile] with a new password locks the user out.  The
    update skips the hashing hook, so the document stores the password as
    sent.  [bcrypt.compare] accepts only a hash, so no later login, with
    any password, ever returns this user. *)
Theorem profile_password_locks_out email_ok us id upd q u3 us' :
  updateProfile email_ok us id upd = Ok (Some u3, us') ->
  cast_string (field upd "password") = Some q -> (forall p, pw_hash p <> q) ->
  doc_password u3 = q /\ forall email pw now t, login (udocs us') true email pw now <> Ok (u3, t).
Proof.
  intros Hup Hq Hnh. apply updateProfile_ok in Hup as (_ & _ & _ & _ & _ & Hp & _).
  assert (Hpw : doc_password u3 = q) by (apply Hp; [intros E; rewrite E in Hq; discriminate|done]).
  split; [done|]. intros email pw now t Hl. apply login_ok in Hl as (_ & _ & Hc & _).
  apply pw_compare_only_hash in Hc as (p & Hc). apply (Hnh p). congruence.
Qed.
End Guarantees.

(** Rewriting the document with a given id and looking it up again finds
    the new document. *)
Lemma find_map_replace (l : list user_doc) id v :
  doc_id v = id -> (exists x, In x l /\ doc_id x = id) ->
  List.find (fun x => String.eqb (doc_id x) id) (map (fun x => if String.eqb (doc_id x) id then v else x) l) = Some v.
Proof.
  intros Hv. induction l as [|x l IH]; intros (y & Hy & Hyid); [done|]. simpl.
  destruct (String.eqb_spec (doc_id x) id) as [E|E]; simpl.
  - by rewrite Hv, String.eqb_refl.
  - rewrite (proj2 (String.eqb_neq _ _) E). apply IH.
    destruct Hy as [<-|Hy]; [contradiction|eauto].
Qed.

(** C38. Any caller can make themselves an administrator.  [register]
    takes the role from the body and only checks it against the enum, so
    any registration with a free email and [role: 'admin'] that passes the
    validators creates an admin.  [PUT /profile] writes [role] from the
    body, so any signed-in user who sends [{ role: 'admin' }] becomes one,
    keeping their id. *)
Theorem anyone_becomes_admin `{JwtScheme} `{PasswordScheme} email_ok us email password now id u :
  (email_match email = true -> findOne_email (udocs us) email = None ->
     exists u' t us', register true us email password (JString "admin") now = Ok (u', t, us') /\
       doc_role u' = Admin /\ doc_email u' = email) /\
  (findById_doc us id = Some u ->
     exists u' us', updateProfile email_ok us id [("role", JString "admin")] = Ok (Some u', us') /\
       doc_role u' = Admin /\ doc_id u' = doc_id u /\ findById_doc us' id = Some u').
Proof.
  split.
  - intros Hm Hf. unfold register. cbn [negb]. rewrite Hf. cbn. rewrite Hm.
    do 3 eexists. split; [reflexivity|]. done.
  - intros Hf. pose proof Hf as Hf'. unfold findById_doc in Hf'.
    apply find_some in Hf' as [Hin Hid]. apply String.eqb_eq in Hid.
    unfold updateProfile. rewrite Hf. cbn. do 2 eexists. split; [reflexivity|].
    split; [done|]. split; [done|]. unfold findById_doc. cbn [udocs].
    apply find_map_replace; [done|eauto].
Qed.

(** ** Samples *)

Definition bob_doc : user_doc := mkUserDoc "1" "bob@example.com" (demo_hash "secret1") Customer.

Definition users1 : users_db := {| udocs := [bob_doc]; next_uid := 2 |}.

Lemma users_wf_initial : users_wf initial_users.
Proof. split; [constructor|split; constructor]. Qed.

Lemma users_wf_users1 : users_wf users1.
Proof.
  split; [apply NoDup_singleton|split; [apply NoDup_singleton|]].
  constructor; [|constructor]. exists 1. split; reflexivity.
Qed.

Lemma register_then_login_witness :
  users_wf initial_users /\
  register true initial_users "bob@example.com" "secret1" JUndefined 0 = Ok (bob_doc, generateToken 0 bob_doc, users1) /\
  doc_password bob_doc = pw_hash "secret1" /\
  role_field (js_or JUndefined (JString "customer")) = Some (doc_role bob_doc) /\
  getProfile users1 (doc_id bob_doc) = Ok bob_doc /\
  login (udocs users1) true "bob@example.com" "secret1" 100 = Ok (bob_doc, generateToken 100 bob_doc).
Proof.
  assert (H2 : register true initial_users "bob@example.com" "secret1" JUndefined 0
               = Ok (bob_doc, generateToken 0 bob_doc, users1)) by reflexivity.
  refine (conj users_wf_initial (conj H2 _)).
  exact (register_then_login _ _ _ _ _ 100 _ _ _ users_wf_initial H2).
Defined.

Lemma users_wf_preserved_witness :
  users_wf users1 /\
  (forall valid email pw role now u t us', register valid users1 email pw role now = Ok (u, t, us') -> users_wf us') /\
  (forall id upd r us', updateProfile (fun _ => true) users1 id upd = Ok (r, us') -> users_wf us').
Proof. exact (conj users_wf_users1 (users_wf_preserved (fun _ => true) users1 users_wf_users1)). Defined.

Lemma profile_password_locks_out_witness :
  updateProfile (fun _ => true) users1 "1" [("password", JString "newpass1")]
    = Ok (Some (mkUserDoc "1" "bob@example.com" "newpass1" Customer),
          {| udocs := [mkUserDoc "1" "bob@example.com" "newpass1" Customer]; next_uid := 2 |}) /\
  cast_string (field [("password", JString "newpass1")] "password") = Some "newpass1" /\
  (forall p, pw_hash p <> "newpass1") /\
  doc_password (mkUserDoc "1" "bob@example.com" "newpass1" Customer) = "newpass1" /\
  forall email pw now t, login [mkUserDoc "1" "bob@example.com" "newpass1" Customer] true email pw now
                         <> Ok (mkUserDoc "1" "bob@example.com" "newpass1" Customer, t).
Proof.
  assert (H1 : updateProfile (fun _ => true) users1 "1" [("password", JString "newpass1")]
    = Ok (Some (mkUserDoc "1" "bob@example.com" "newpass1" Customer),
          {| udocs := [mkUserDoc "1" "bob@example.com" "newpass1" Customer]; next_uid := 2 |})) by reflexivity.
  assert (H2 : cast_string (field [("password", JString "newpass1")] "password") = Some "newpass1") by reflexivity.
  assert (H3 : forall p, pw_hash p <> "newpass1") by (intros p; cbn; discriminate).
  refine (conj H1 (conj H2 (conj H3 _))).
  exact (profile_password_locks_out _ _ _ _ _ _ _ H1 H2 H3).
Defined.

Lemma anyone_becomes_admin_witness :
  email_match "eve@example.com" = true /\ findOne_email (udocs users1) "eve@example.com" = None /\
  findById_doc users1 "1" = Some bob_doc /\
  (exists u' t us', register true users1 "eve@example.com" "pw123456" (JString "admin") 0 = Ok (u', t, us') /\
     doc_role u' = Admin /\ doc_email u' = "eve@example.com") /\
  (exists u' us', updateProfile (fun _ => true) users1 "1" [("role", JString "admin")] = Ok (Some u', us') /\
     doc_role u' = Admin /\ doc_id u' = doc_id bob_doc /\ findById_doc us' "1" = Some u').
Proof.
  assert (H1 : email_match "eve@example.com" = true) by reflexivity.
  assert (H2 : findOne_email (udocs users1) "eve@example.com" = None) by reflexivity.
  assert (H3 : findById_doc users1 "1" = Some bob_doc) by reflexivity.
  destruct (anyone_becomes_admin (fun _ => true) users1 "eve@example.com" "pw123456" 0 "1" bob_doc) as [A B].
  exact (conj H1 (conj H2 (conj H3 (conj (A H1 H2) (B H3))))).
Defined.

(** An address that [isEmail()] accepts but whose last label has four
    letters fails the schema's [match]: its registration passes the
    validators and is answered 500. *)
Lemma register_info_address_fails `{JwtScheme} `{PasswordScheme} :
  email_match "ann@example.info" = false /\
  register true users1 "ann@example.info" "pw123456" JUndefined 0 = Err 500 "Internal server error during registration".
Proof. split; reflexivity. Qed.
