(* ===== verification/Maids.v ===== *)
(** * Maids: the public listing [GET /api/users/maids]

    [backend/routes/users.js] has one route, mounted by [server.js] under
    [/api/users] with no [auth] in front:

      User.find({ role: 'maid', isActive: true })
          .select('-password').sort({ 'profile.rating.average': -1 })

    The query reads two paths of [models/User.js] that [Users] does not
    keep: [isActive] (default [true]) and [profile.rating.average]
    (default [0], a JavaScript number, here a rational [Q]).  A [member]
    is a document of the collection seen through those paths.  A
    document that [register] creates has the defaults ([member_of]).

    [find_maids] is the filter of the query.  The descending sort is
    Stdlib's merge sort over the order "rating at least" ([RatingDesc]).
    MongoDB does not fix the order of two maids with the same rating, so
    the theorems only use what every correct sort gives: a permutation in
    which the ratings never increase.  [select('-password')] is [public],
    which drops the hash.  The [catch] answers 500 on a database error,
    which is not modelled.

    The last section is the client of the route: [loadMaids] of
    [ServiceBooking.js], which fills the maid select and preselects the
    first maid of the list, so the best-rated one.  *)

From S2P Require Import Prelude Js Booking Auth Users.
From Stdlib Require Import QArith Sorting.Mergesort Sorting.Sorted.
Open Scope Z_scope.
Open Scope maid_scope.

(** ** The documents the query reads *)

Record member : Type := mkMember {
  m_doc : user_doc;
  m_isActive : bool;        (* isActive *)
  m_rating : Q              (* profile.rating.average *)
}.

(** A new document: [isActive] and [rating.average] take their defaults. *)
Definition member_of (u : user_doc) : member := mkMember u true 0%Q.

(** A document without its password. *)
Record public_member : Type := mkPublic {
  p_id : string; p_email : string; p_role : role; p_isActive : bool; p_rating : Q
}.

Definition public (m : member) : public_member :=
  mkPublic (doc_id (m_doc m)) (doc_email (m_doc m)) (doc_role (m_doc m)) (m_isActive m) (m_rating m).

(** ** The route *)

(** [{ role: 'maid', isActive: true }]. *)
Definition is_listed (m : member) : bool :=
  bool_decide (doc_role (m_doc m) = Maid) && m_isActive m.

Definition find_maids (ms : list member) : list member := List.filter is_listed ms.

(** [sort({ 'profile.rating.average': -1 })]: [a] may come before [b]
    when its rating is at least [b]'s. *)
Module RatingDesc <: Orders.TotalLeBool'.
Definition t := member.
Definition leb (a b : member) : bool := Qle_bool (m_rating b) (m_rating a).
Infix "<=?" := leb (at level 70, no associativity).
Theorem leb_total : forall a b, (a <=? b) = true \/ (b <=? a) = true.
Proof.
  intros a b. unfold leb. rewrite !Qle_bool_iff.
  destruct (Qlt_le_dec (m_rating b) (m_rating a)) as [H|H]; [left; apply Qlt_le_weak|right]; exact H.
Qed.
End RatingDesc.

Module RatingSort := Sort RatingDesc.

(** The handler: the answer [{ success: true, data: { maids } }]. *)
Definition getMaids (ms : list member) : result (list public_member) :=
  Ok (map public (RatingSort.sort (find_maids ms))).

(** ** Lemmas *)

Lemma is_listed_true m : is_listed m = true <-> doc_role (m_doc m) = Maid /\ m_isActive m = true.
Proof. unfold is_listed. rewrite andb_true_iff, bool_decide_eq_true. done. Qed.

Lemma in_find_maids ms m : In m (find_maids ms) <-> In m ms /\ doc_role (m_doc m) = Maid /\ m_isActive m = true.
Proof. unfold find_maids. by rewrite filter_In, is_listed_true. Qed.

Lemma sorted_public l :
  Sorted (fun a b => RatingDesc.leb a b = true) l ->
  Sorted (fun p q => (p_rating q <= p_rating p)%Q) (map public l).
Proof.
  intros Hs. apply (sorted_map public (fun a b => RatingDesc.leb a b = true)); [|done].
  intros a b H. unfold RatingDesc.leb in H. by apply Qle_bool_iff in H.
Qed.

(** What the listing holds. *)
Lemma in_getMaids ms p :
  In p (map public (RatingSort.sort (find_maids ms))) <->
  exists m, In m ms /\ doc_role (m_doc m) = Maid /\ m_isActive m = true /\ p = public m.
Proof.
  pose proof (Permutation_map public (RatingSort.Permuted_sort (find_maids ms))) as Hp. split.
  - intros Hin. apply Permutation_sym in Hp. eapply Permutation_in in Hin; [|exact Hp].
    apply in_map_iff in Hin as (m & <- & Hm). apply in_find_maids in Hm as (? & ? & ?). eauto.
  - intros (m & Hm & Hr & Ha & ->). eapply Permutation_in; [exact Hp|].
    apply in_map. by apply in_find_maids.
Qed.

(** ** The listing *)

(** C34. [GET /api/users/maids] answers, to anyone, exactly the active
    maids of the collection, each without its password hash but with its
    email, ordered so that the ratings never increase: a permutation of the
    query's result, sorted by [profile.rating.average] descending. *)
Theorem getMaids_correct ms :
  exists l, getMaids ms = Ok l /\
    (forall p, In p l <-> exists m, In m ms /\ doc_role (m_doc m) = Maid /\ m_isActive m = true /\ p = public m) /\
    Permutation (map public (find_maids ms)) l /\
    Sorted (fun p q => (p_rating q <= p_rating p)%Q) l.
Proof.
  eexists. split; [reflexivity|]. split; [apply in_getMaids|]. split.
  - apply Permutation_map, RatingSort.Permuted_sort.
  - apply sorted_public, RatingSort.Sorted_sort.
Qed.

Lemma register_appends `{JwtScheme} `{PasswordScheme} valid us email password role now u t us' :
  register valid us email password role now = Ok (u, t, us') -> udocs us' = udocs us ++ [u].
Proof.
  intros Hr. by apply register_ok in Hr as (_ & _ & _ & _ & _ & _ & ->).
Qed.

(** A maid who registers is listed at once: if [ms] is the collection
    seen through the query's paths, after [register] the collection is
    [ms] with the new document at its defaults, and the listing shows her
    with rating 0. *)
Lemma registered_maid_listed `{JwtScheme} `{PasswordScheme} valid us ms email password role now u t us' :
  map m_doc ms = udocs us ->
  register valid us email password role now = Ok (u, t, us') -> doc_role u = Maid ->
  map m_doc (ms ++ [member_of u]) = udocs us' /\
  exists l, getMaids (ms ++ [member_of u]) = Ok l /\ In (public (member_of u)) l.
Proof.
  intros Hms Hr Hm. split; [rewrite map_app, Hms; by rewrite (register_appends _ _ _ _ _ _ _ _ _ Hr)|].
  eexists. split; [reflexivity|]. apply in_getMaids. exists (member_of u). rewrite in_app_iff. simpl. auto.
Qed.

(** ** The booking page's maid list (ServiceBooking.js) *)

(** [m.id || m._id || m.email]: a document's JSON has no [id] (the schema
    does not ask for virtuals in [toJSON]), so the value is [_id], the
    string [req.user.id] gives the same maid in the [auth] middleware. *)
Definition maid_option_value (p : public_member) : string := p_id p.

(** [loadMaids]: the list, the preselected [maidId] ([list[0]]'s id, or
    the form's [''] when the list is empty) and the error shown. *)
Definition loadMaids (r : result (list public_member)) : list public_member * string * string :=
  match r with
  | Ok l => (l, match l with p :: _ => maid_option_value p | [] => "" end, "")
  | Err _ m => ([], "", if String.eqb m "" then "Failed to load maids" else m)
  end.

Lemma rating_order_trans : Transitive (fun p q : public_member => (p_rating q <= p_rating p)%Q).
Proof. intros x y z Hxy Hyz. eapply Qle_trans; eauto. Qed.

(** The page preselects the best-rated active maid: the first of the
    list, a listed maid whose rating is at least every other's.  With no
    active maid the list is empty and nothing is selected. *)
Lemma loadMaids_preselects_best ms :
  (find_maids ms = [] /\ loadMaids (getMaids ms) = ([], "", "")) \/
  exists p l, loadMaids (getMaids ms) = (p :: l, maid_option_value p, "") /\
    (exists m, In m ms /\ doc_role (m_doc m) = Maid /\ m_isActive m = true /\ p = public m) /\
    forall q, In q (p :: l) -> (p_rating q <= p_rating p)%Q.
Proof.
  pose proof (in_getMaids ms) as Hin.
  pose proof (sorted_public _ (RatingSort.Sorted_sort (find_maids ms))) as Hs.
  unfold loadMaids, getMaids. destruct (map public (RatingSort.sort (find_maids ms))) as [|p l] eqn:E.
  - left. split; [|done]. apply map_eq_nil in E.
    apply Permutation_nil. rewrite <- E. symmetry. apply RatingSort.Permuted_sort.
  - right. exists p, l. split; [done|]. split; [apply Hin; by left|].
    apply Sorted_StronglySorted in Hs; [|apply rating_order_trans].
    apply StronglySorted_inv in Hs as [_ Hf]. intros q [<-|Hq]; [apply Qle_refl|].
    by apply (proj1 (List.Forall_forall _ _) Hf).
Qed.
