(* ===== verification/Session.v ===== *)
(** * Session: the client's login state and its routes

    [frontend/src/context/AuthContext.js] keeps the session in three
    places: the React state [token] (with [user] and [loading]),
    [localStorage] under ['token'], and axios's default [Authorization]
    header.  Two effects run whenever [token] changes.  The first sets or
    deletes the header.  The second, when there is a token, asks
    [GET /api/auth/profile] for the user and logs out if that fails.
    [login], [register], [updateProfile] and [logout] are the four ways the
    pages change the session.

    The model is a [session] record and one function per handler.  The
    effects are [on_token_change], run after a handler exactly when it
    changed the token, as React does.  The backend answers are section
    variables ([api_profile], [api_login], ...).  [profile_route] is the
    real backend answer to the profile request: the [auth] middleware
    followed by [getProfile].  [Register.js], [Profile.js], [Header.js] and
    the route table of [App.js] are modelled by what they send and where
    they lead.  [App.js] imports [Login], [Layout] and [ProtectedRoute],
    which are not in the repository, so the guard of a protected route is
    recorded but not modelled. *)

From S2P Require Import Prelude Js Booking Auth Users.
Open Scope Z_scope.
Open Scope maid_scope.

(** ** State *)

Record session : Type := mkSession {
  s_user : option user_doc;
  s_token : option string;
  s_loading : bool;
  s_storage : option string;   (* localStorage.getItem('token') *)
  s_header : option string     (* axios.defaults.headers.common.Authorization *)
}.

(** [if (token)]: a stored token is truthy unless it is the empty string. *)
Definition token_truthy (t : option string) : bool :=
  match t with Some x => negb (String.eqb x "") | None => false end.

(** The first effect: [`Bearer ${token}`] when the token is truthy, no
    header otherwise. *)
Definition bearer_of (t : option string) : option string :=
  match t with Some x => if token_truthy t then Some (bearer +:+ x) else None | None => None end.

Definition opt_string_eqb (a b : option string) : bool :=
  match a, b with
  | Some x, Some y => String.eqb x y
  | None, None => true
  | _, _ => false
  end.

Inductive event : Type :=
| ELogin (email password : string)
| ERegister (payload : json_obj)
| EUpdateProfile (profile : json_obj)
| ELogout.

Section Client.
(** The backend's answers: the profile request with the given header, a
    login, a registration, and a profile update with the given header.
    An [Err] is a rejected promise. *)
Variable api_profile : option string -> result user_doc.
Variable api_login : string -> string -> result (user_doc * string).
Variable api_register : json_obj -> result (user_doc * string).
Variable api_update : option string -> json_obj -> result (option user_doc).

(** [logout]: clear the user, the token, the storage and the header. *)
Definition logout_state (s : session) : session :=
  {| s_user := None; s_token := None; s_loading := s_loading s; s_storage := None; s_header := None |}.

(** The two effects on [[token]], in their order in the file. *)
Definition on_token_change (s : session) : session :=
  let s1 := {| s_user := s_user s; s_token := s_token s; s_loading := s_loading s;
               s_storage := s_storage s; s_header := bearer_of (s_token s) |} in
  if negb (token_truthy (s_token s1)) then
    {| s_user := s_user s1; s_token := s_token s1; s_loading := false;
       s_storage := s_storage s1; s_header := s_header s1 |}
  else
    match api_profile (s_header s1) with
    | Ok u => {| s_user := Some u; s_token := s_token s1; s_loading := false;
                 s_storage := s_storage s1; s_header := s_header s1 |}
    | Err _ _ =>
        let s2 := logout_state s1 in
        {| s_user := s_user s2; s_token := s_token s2; s_loading := false;
           s_storage := s_storage s2; s_header := s_header s2 |}
    end.

(** A state update, followed by the effects when the token changed. *)
Definition commit (s s' : session) : session :=
  if opt_string_eqb (s_token s) (s_token s') then s' else on_token_change s'.

(** The provider mounts: [token] from the storage, no user, loading, no
    header yet; then the effects run once. *)
Definition mount (storage : option string) : session :=
  on_token_change {| s_user := None; s_token := storage; s_loading := true;
                     s_storage := storage; s_header := None |}.

(** [login] and [register]: on success set the user, the token and the
    storage; a failure rejects and leaves the state. *)
Definition signed_in (s : session) (r : result (user_doc * string)) : session :=
  match r with
  | Ok (u, t) => commit s {| s_user := Some u; s_token := Some t; s_loading := s_loading s;
                             s_storage := Some t; s_header := s_header s |}
  | Err _ _ => s
  end.

Definition handle (s : session) (e : event) : session :=
  match e with
  | ELogin email password => signed_in s (api_login email password)
  | ERegister payload => signed_in s (api_register payload)
  | EUpdateProfile profile =>
      match api_update (s_header s) profile with
      | Ok u => {| s_user := u; s_token := s_token s; s_loading := s_loading s;
                   s_storage := s_storage s; s_header := s_header s |}
      | Err _ _ => s
      end
  | ELogout => commit s (logout_state s)
  end.

Definition run_events (s : session) (es : list event) : session := fold_left handle es s.
End Client.

(** ** The backend's profile route *)

(** [router.get('/profile', auth, getProfile)] over the users collection,
    at time [now]. *)
Definition profile_route `{JwtScheme} (us : users_db) (now : Z) (header : option string) : result user_doc :=
  match auth (findById_doc us) header now with
  | Ok u => getProfile us (user_id u)
  | Err c m => Err c m
  end.

(** ** Pages and routes *)

(** The routes of [App.js], with the role its [ProtectedRoute] asks for:
    [None] for a public page, [Some None] for any signed-in user. *)
Definition app_routes : list (string * option (option role)) :=
  [ ("/", None); ("/login", None); ("/register", None);
    ("/customer/dashboard", Some (Some Customer)); ("/customer/book-service", Some (Some Customer));
    ("/customer/payment", Some (Some Customer)); ("/customer/bookings", Some (Some Customer));
    ("/maid/dashboard", Some (Some Maid)); ("/profile", Some None) ].

Definition app_route (path : string) : option (option (option role)) :=
  option_map snd (List.find (fun r => String.eqb (fst r) path) app_routes).

(** [Header.js]: the links shown to everyone, and the Dashboard link of a
    signed-in user. *)
Definition header_links : list string := ["/"; "/services"; "/about"].

Definition dashboard_link (r : role) : string :=
  match r with Customer => "/customer/dashboard" | _ => "/maid/dashboard" end.

(** The right side of the header: the Dashboard link for a signed-in
    user (with the Logout button), Login and Register otherwise. *)
Definition header_auth_links (u : option user_doc) : list string :=
  match u with
  | Some d => [dashboard_link (doc_role d)]
  | None => ["/login"; "/register"]
  end.

(** [handleLogout]: [logout()], then [navigate('/')]. *)
Definition header_logout (api_profile : option string -> result user_doc) (s : session) : session * string :=
  (commit api_profile s (logout_state s), "/").

(** [Register.js]: the form's check, then the payload and the page it
    navigates to after [register] succeeds. *)
Record register_form : Type := mkRegisterForm {
  rf_name : string; rf_email : string; rf_phone : string; rf_role : string;
  rf_password : string; rf_confirm : string
}.

Definition register_payload (f : register_form) : json_obj :=
  [("name", JString (rf_name f)); ("email", JString (rf_email f)); ("phone", JString (rf_phone f));
   ("role", JString (rf_role f)); ("password", JString (rf_password f))].

Definition register_submit (f : register_form) : string + json_obj :=
  if negb (String.eqb (rf_password f) (rf_confirm f)) then inl "Passwords do not match"
  else inr (register_payload f).

(** The form's initial state: [role: 'customer'], every text empty. *)
Definition initial_register_form : register_form := mkRegisterForm "" "" "" "customer" "" "".

(** The form's inputs.  The two radios of "Account type" carry the fixed
    values ["customer"] and ["maid"]; the text inputs carry what is typed. *)
Inductive register_input : Type :=
| IName | IEmail | IPhone | IRoleCustomer | IRoleMaid | IPassword | IConfirm.

(** [onChange]: [setForm({ ...form, [e.target.name]: e.target.value })]. *)
Definition register_change (f : register_form) (i : register_input) (v : string) : register_form :=
  match i with
  | IName => mkRegisterForm v (rf_email f) (rf_phone f) (rf_role f) (rf_password f) (rf_confirm f)
  | IEmail => mkRegisterForm (rf_name f) v (rf_phone f) (rf_role f) (rf_password f) (rf_confirm f)
  | IPhone => mkRegisterForm (rf_name f) (rf_email f) v (rf_role f) (rf_password f) (rf_confirm f)
  | IRoleCustomer => mkRegisterForm (rf_name f) (rf_email f) (rf_phone f) "customer" (rf_password f) (rf_confirm f)
  | IRoleMaid => mkRegisterForm (rf_name f) (rf_email f) (rf_phone f) "maid" (rf_password f) (rf_confirm f)
  | IPassword => mkRegisterForm (rf_name f) (rf_email f) (rf_phone f) (rf_role f) v (rf_confirm f)
  | IConfirm => mkRegisterForm (rf_name f) (rf_email f) (rf_phone f) (rf_role f) (rf_password f) v
  end.

(** The form after the user's inputs, in order. *)
Definition register_fill (es : list (register_input * string)) : register_form :=
  fold_left (fun f '(i, v) => register_change f i v) es initial_register_form.

(** Where [Register.js] navigates after [register] succeeds: the same
    choice as the Dashboard link of [Header.js]. *)
Definition register_dest (u : user_doc) : string := dashboard_link (doc_role u).

(** [Profile.js]: [onSave] sends the name and the phone. *)
Definition profile_body (name phone : string) : json_obj :=
  [("name", JString name); ("phone", JString phone)].

(** ** The three copies of the token *)

(** The storage holds the state's token and the header carries it. *)
Definition session_ok (s : session) : Prop :=
  s_storage s = s_token s /\ s_header s = bearer_of (s_token s).

Lemma opt_string_eqb_eq a b : opt_string_eqb a b = true -> a = b.
Proof. destruct a, b; simpl; try done. by intros ->%String.eqb_eq. Qed.

Section Guarantees.
Variable api_profile : option string -> result user_doc.
Variable api_login : string -> string -> result (user_doc * string).
Variable api_register : json_obj -> result (user_doc * string).
Variable api_update : option string -> json_obj -> result (option user_doc).

Lemma on_token_change_ok s : s_storage s = s_token s -> session_ok (on_token_change api_profile s).
Proof.
  intros Hs. unfold on_token_change. simpl. destruct (token_truthy (s_token s)); simpl.
  - destruct (api_profile _); split; simpl; congruence.
  - split; simpl; congruence.
Qed.

(** A handler that writes the token to the storage keeps the copies in
    step, whether or not the token changed. *)
Lemma commit_ok s s' :
  session_ok s -> s_storage s' = s_token s' ->
  (s_header s' = s_header s \/ s_header s' = bearer_of (s_token s')) ->
  session_ok (commit api_profile s s').
Proof.
  intros [_ Hh] Hs' Hh'. unfold commit. destruct (opt_string_eqb _ _) eqn:E.
  - apply opt_string_eqb_eq in E. split; [done|].
    destruct Hh' as [-> | ->]; [by rewrite Hh, E|done].
  - by apply on_token_change_ok.
Qed.

Lemma handle_ok s e : session_ok s -> session_ok (handle api_profile api_login api_register api_update s e).
Proof.
  intros Hs. destruct e; simpl.
  - destruct (api_login _ _) as [[u t]|]; [apply commit_ok; auto|done].
  - destruct (api_register _) as [[u t]|]; [apply commit_ok; auto|done].
  - destruct (api_update _ _); [|done]. destruct Hs. by split.
  - apply commit_ok; auto.
Qed.
End Guarantees.

(** ** What the session guarantees *)

(** C39. Whatever the backend answers and whatever the pages do, the
    client keeps its three copies of the token in step.  After mounting
    and after any sequence of logins, registrations, profile updates and
    logouts, [localStorage] holds the state's token, and every request
    carries ["Bearer " + token] exactly when the token is truthy (a non-empty string). *)
Theorem session_in_sync api_profile api_login api_register api_update storage es :
  session_ok (run_events api_profile api_login api_register api_update (mount api_profile storage) es).
Proof.
  unfold run_events. assert (H0 : session_ok (mount api_profile storage)) by (by apply on_token_change_ok).
  revert H0. generalize (mount api_profile storage). induction es as [|e es IH]; intros s Hs; [done|].
  simpl. apply IH. by apply handle_ok.
Qed.

(** Opening the app with a stored token: the profile request carries it. *)
Lemma mount_token api_profile t :
  t <> "" -> mount api_profile (Some t) =
  match api_profile (Some (bearer +:+ t)) with
  | Ok u => mkSession (Some u) (Some t) false (Some t) (Some (bearer +:+ t))
  | Err _ _ => mkSession None None false None None
  end.
Proof.
  intros Ht. unfold mount, on_token_change. simpl.
  rewrite (proj2 (String.eqb_neq _ _) Ht). simpl. by destruct (api_profile _).
Qed.

Lemma findById_doc_id us id u : findById_doc us id = Some u -> doc_id u = id.
Proof. unfold findById_doc. intros [_ E]%find_some. by apply String.eqb_eq. Qed.

Section Restore.
Context `{JwtScheme}.

(** C40. Reopening the app with a token that [login] issued at [iat]
    restores the session against the real profile route.  Within seven
    days the user's current document is loaded and the token stays
    stored.  From the seventh day on, the profile request is refused
    with 401 and the client clears the user, the token and the storage. *)
Theorem mount_restores_session us iat now id doc :
  0 <= iat <= now ->
  (now < iat + token_lifetime -> findById_doc us id = Some doc ->
     s_user (mount (profile_route us now) (Some (jwt_sign iat id))) = Some doc /\
     s_storage (mount (profile_route us now) (Some (jwt_sign iat id))) = Some (jwt_sign iat id)) /\
  (iat + token_lifetime <= now ->
     s_user (mount (profile_route us now) (Some (jwt_sign iat id))) = None /\
     s_storage (mount (profile_route us now) (Some (jwt_sign iat id))) = None).
Proof.
  intros Hi. rewrite mount_token by apply jwt_sign_nonempty. unfold profile_route, auth. rewrite bearer_token_bearer. split.
  - intros Hn Hf. rewrite jwt_verify_sign by lia. rewrite Hf. simpl.
    unfold getProfile. rewrite (findById_doc_id _ _ _ Hf), Hf. done.
  - intros Hn. rewrite jwt_verify_expired by lia. done.
Qed.
End Restore.

Lemma mount_restores_session_witness :
  0 <= 1000 <= 5000 /\ 5000 < 1000 + token_lifetime /\ findById_doc users1 "1" = Some bob_doc /\
  s_user (mount (profile_route users1 5000) (Some (jwt_sign 1000 "1"))) = Some bob_doc /\
  s_storage (mount (profile_route users1 5000) (Some (jwt_sign 1000 "1"))) = Some (jwt_sign 1000 "1").
Proof.
  assert (H1 : 0 <= 1000 <= 5000) by lia.
  assert (H2 : 5000 < 1000 + token_lifetime) by (vm_compute; reflexivity).
  assert (H3 : findById_doc users1 "1" = Some bob_doc) by reflexivity.
  exact (conj H1 (conj H2 (conj H3 (proj1 (mount_restores_session users1 1000 5000 "1" bob_doc H1) H2 H3)))).
Defined.

(** ** What the pages lead to *)

(** An administrator's Dashboard link, and the page [Register.js] opens
    for a new administrator, is the maid dashboard, whose route asks for
    the maid role. *)
Example admin_dashboard_is_maid_route :
  dashboard_link Admin = "/maid/dashboard" /\ app_route "/maid/dashboard" = Some (Some (Some Maid)).
Proof. split; reflexivity. Qed.

(** Two of the three links every visitor sees have no route. *)
Example header_links_unrouted :
  List.filter (fun l => match app_route l with None => true | Some _ => false end) header_links
  = ["/services"; "/about"].
Proof. reflexivity. Qed.

(** A form whose two passwords differ is refused before any request. *)
Example register_mismatch :
  register_submit (mkRegisterForm "Bob" "bob@example.com" "555" "customer" "secret1" "secret2")
  = inl "Passwords do not match".
Proof. reflexivity. Qed.

(** ** The registration page *)

(** Whatever the user types and clicks, the page's role is one of its two
    radios, so a registration sent from the page asks for a customer or a
    maid account; an administrator account needs a request the page never
    sends (see [Users.anyone_becomes_admin]). *)
Lemma register_page_roles es :
  (rf_role (register_fill es) = "customer" \/ rf_role (register_fill es) = "maid") /\
  forall payload, register_submit (register_fill es) = inr payload ->
    role_field (js_or (field payload "role") (JString "customer")) = Some Customer \/
    role_field (js_or (field payload "role") (JString "customer")) = Some Maid.
Proof.
  assert (Hr : forall f, rf_role f = "customer" \/ rf_role f = "maid" ->
            rf_role (fold_left (fun f '(i, v) => register_change f i v) es f) = "customer" \/
            rf_role (fold_left (fun f '(i, v) => register_change f i v) es f) = "maid").
  { induction es as [|[i v] es IH]; intros f Hf; [done|]. simpl. apply IH.
    destruct i; simpl; auto. }
  assert (Hf : rf_role (register_fill es) = "customer" \/ rf_role (register_fill es) = "maid")
    by exact (Hr initial_register_form (or_introl eq_refl)).
  split; [exact Hf|]. intros payload. unfold register_submit. destruct (negb _); [discriminate|].
  intros [= <-]. unfold register_payload. destruct Hf as [E|E]; rewrite E; [left|right]; reflexivity.
Qed.

(** ** Logging out from the header *)

(** The Logout button clears the user, the token, the storage and the
    header, whatever the session was, and leads home, where the header
    offers Login and Register again. *)
Lemma header_logout_clears api_profile s :
  let '(s', path) := header_logout api_profile s in
  s_user s' = None /\ s_token s' = None /\ s_storage s' = None /\ s_header s' = None /\ path = "/" /\
  header_auth_links (s_user s') = ["/login"; "/register"].
Proof.
  unfold header_logout, commit. simpl.
  destruct (opt_string_eqb (s_token s) None); [done|]. unfold on_token_change. done.
Qed.
